(** * ethdo [validator exitfuzz]: the exit-operation pipeline

    A shallow embedding of [cmd/validator/exitfuzz/process.go].  The
    [command] struct is threaded explicitly together with the process-wide
    random source and the list of operations handed to the beacon node.
    Library calls (BLS, hash tree roots, the wallet, the file system, the
    consensus client) are fields of the class [Env]; what the Go standard
    library does with strings (hex, decimal formatting, the validator path
    pattern, [copy]) is written out.  Diagnostics printed on stderr/stdout
    are not part of the model. *)

From Stdlib Require Import ZArith List String Ascii Bool Lia.
From Stdlib.Strings Require Import Byte.
From Stdlib Require Import DecimalString.
Import ListNotations.

Local Open Scope string_scope.
Local Open Scope Z_scope.

(** ** What a library call hands back: a value, or an [error] (its message). *)

Inductive result (A : Type) : Type :=
| Success (a : A)
| Failure (e : string).

Arguments Success {A} a.
Arguments Failure {A} e.

(** ** Outcomes of a method of [command]: a value, a returned [error], or a
    run-time panic (nil dereference, failed type assertion). *)

Inductive outcome (A : Type) : Type :=
| Ok (a : A)
| Err (e : string)
| Panic (m : string).

Arguments Ok {A} a.
Arguments Err {A} e.
Arguments Panic {A} m.

Definition isOk {A} (o : outcome A) : bool :=
  match o with Ok _ => true | _ => false end.

Definition isErr {A} (o : outcome A) : bool :=
  match o with Err _ => true | _ => false end.

(** [errors.Wrap(err, msg)]: the message becomes [msg: err]. *)
Definition Wrap (e msg : string) : string := msg ++ ": " ++ e.

(** ** Strings and bytes of the Go standard library *)

Module GoStrings.

Definition isEmpty (s : string) : bool :=
  match s with EmptyString => true | _ => false end.

Definition nonEmpty (s : string) : bool := negb (isEmpty s).

(** [strings.HasPrefix]. *)
Definition HasPrefix (s p : string) : bool := String.prefix p s.

(** [strings.TrimPrefix]. *)
Definition TrimPrefix (s p : string) : string :=
  if String.prefix p s
  then String.substring (String.length p) (String.length s - String.length p) s
  else s.

(** [%d] of a non-negative integer. *)
Definition fmtDec (n : Z) : string :=
  NilZero.string_of_uint (N.to_uint (Z.to_N n)).

Definition hexDigit (n : N) : ascii :=
  if (n <? 10)%N then ascii_of_N (48 + n) else ascii_of_N (87 + n).

Definition hexOfByte (b : byte) : string :=
  let n := Byte.to_N b in
  String (hexDigit (n / 16)) (String (hexDigit (n mod 16)) EmptyString).

Fixpoint hexOfBytes (bs : list byte) : string :=
  match bs with
  | [] => EmptyString
  | b :: r => hexOfByte b ++ hexOfBytes r
  end.

(** [fmt.Sprintf("%#x", bs)]: nothing at all for an empty slice. *)
Definition fmtHex (bs : list byte) : string :=
  match bs with
  | [] => EmptyString
  | _ => "0x" ++ hexOfBytes bs
  end.

(** [encoding/hex]: the value of one hex character, if it is one. *)
Definition fromHexChar (a : ascii) : option N :=
  let n := N_of_ascii a in
  if ((48 <=? n) && (n <=? 57))%N then Some (n - 48)%N
  else if ((97 <=? n) && (n <=? 102))%N then Some (n - 87)%N
  else if ((65 <=? n) && (n <=? 70))%N then Some (n - 55)%N
  else None.

Definition byteOfN (n : N) : byte :=
  match Byte.of_N n with Some b => b | None => x00 end.

(** [hex.DecodeString]: pairs of hex characters; an invalid character or a
    dangling last character is an error. *)
Fixpoint DecodeString (s : string) : result (list byte) :=
  match s with
  | EmptyString => Success []
  | String p EmptyString =>
      match fromHexChar p with
      | None => Failure "encoding/hex: invalid byte"
      | Some _ => Failure "encoding/hex: odd length hex string"
      end
  | String p (String q r) =>
      match fromHexChar p, fromHexChar q with
      | Some a, Some b =>
          match DecodeString r with
          | Success bs => Success (byteOfN (a * 16 + b) :: bs)
          | Failure e => Failure e
          end
      | _, _ => Failure "encoding/hex: invalid byte"
      end
  end.

Definition isDigit (a : ascii) : bool :=
  let n := N_of_ascii a in ((48 <=? n) && (n <=? 57))%N.

Fixpoint allDigits (s : string) : bool :=
  match s with
  | EmptyString => true
  | String a r => isDigit a && allDigits r
  end.

(** The built-in [copy(dst, src)]: as many elements as both hold. *)
Definition copy (dst src : list byte) : list byte :=
  let n := Nat.min (List.length dst) (List.length src) in
  firstn n src ++ skipn n dst.

(** [copy(dst[off:], src)], seen on the whole of [dst]. *)
Definition copyAt (off : nat) (dst src : list byte) : list byte :=
  firstn off dst ++ copy (skipn off dst) src.

Definition bytesEqual (a b : list byte) : bool :=
  if list_eq_dec Byte.byte_eq_dec a b then true else false.

Definition zeroBytes (n : nat) : list byte := repeat x00 n.

End GoStrings.
Import GoStrings.

(** [validatorPath]: the expression [^m/12381/3600/[0-9]+/0/0$]. *)
Definition validatorPathPrefix : string := "m/12381/3600/".
Definition validatorPathSuffix : string := "/0/0".

Definition validatorPathMatch (p : string) : bool :=
  let lp := String.length validatorPathPrefix in
  let ls := String.length validatorPathSuffix in
  let n := String.length p in
  String.prefix validatorPathPrefix p
  && Nat.ltb (lp + ls) n
  && String.eqb (String.substring (n - ls) ls p) validatorPathSuffix
  && allDigits (String.substring lp (n - lp - ls) p).

Definition offlinePreparationFilename : string := "offline-preparation.json".
Definition exitOperationFilename : string := "exit-operation.json".

(** ** Data of the consensus layer and of the chain information *)

Module phase0.

(** [phase0.VoluntaryExit]; both fields are [uint64]. *)
Record VoluntaryExit : Type := mkVoluntaryExit {
  Epoch : Z;
  ValidatorIndex : Z
}.

(** [phase0.SignedVoluntaryExit]; the signature is a [[96]byte]. *)
Record SignedVoluntaryExit : Type := mkSignedVoluntaryExit {
  Message : VoluntaryExit;
  Signature : list byte
}.

Definition RootLength : nat := 32.
Definition ForkVersionLength : nat := 4.
Definition DomainLength : nat := 32.
Definition SignatureLength : nat := 96.

Definition uint64 (z : Z) : Z := z mod 2 ^ 64.

End phase0.

Module beacon.

(** The fields of [beacon.ValidatorInfo] the pipeline reads. *)
Record ValidatorInfo : Type := mkValidatorInfo {
  Index : Z;
  Pubkey : list byte
}.

(** The fields of [beacon.ChainInfo] the pipeline reads. *)
Record ChainInfo : Type := mkChainInfo {
  Validators : list ValidatorInfo;
  Epoch : Z;
  VoluntaryExitDomainType : list byte;
  GenesisValidatorsRoot : list byte;
  CurrentForkVersion : list byte
}.

End beacon.

(** ** The types behind the Go interfaces *)

Class Carriers : Type := {
  rngT : Type;        (* state of the global math/rand source *)
  account : Type;     (* e2wtypes.Account *)
  privkey : Type;     (* e2types.PrivateKey *)
  pubkey : Type;      (* e2types.PublicKey *)
  blssig : Type;      (* e2types.Signature *)
  client : Type;      (* consensusclient.Service *)
  chaintime : Type    (* chaintime.Service *)
}.

Section Model.

Context {T : Carriers}.

(** The [command] struct: flags, inputs, and what the stages fill in.
    [signedOperation] is a pointer, [None] while it is nil. *)
Record command : Type := mkCommand {
  offline : bool;
  json : bool;
  prepareOffline : bool;
  connection : string;
  mnemonic : string;
  path : string;
  privateKey : string;
  validator : string;
  signedOperationInput : string;
  forkVersion : string;
  genesisValidatorsRoot : string;
  consensusClient : option client;
  chainTime : option chaintime;
  chainInfo : beacon.ChainInfo;
  domain : list byte;
  signedOperation : option phase0.SignedVoluntaryExit
}.

Definition set_privateKey (v : string) (c : command) : command :=
  mkCommand (offline c) (json c) (prepareOffline c) (connection c) (mnemonic c)
    (path c) v (validator c) (signedOperationInput c) (forkVersion c)
    (genesisValidatorsRoot c) (consensusClient c) (chainTime c) (chainInfo c)
    (domain c) (signedOperation c).

Definition set_signedOperationInput (v : string) (c : command) : command :=
  mkCommand (offline c) (json c) (prepareOffline c) (connection c) (mnemonic c)
    (path c) (privateKey c) (validator c) v (forkVersion c)
    (genesisValidatorsRoot c) (consensusClient c) (chainTime c) (chainInfo c)
    (domain c) (signedOperation c).

Definition set_consensusClient (v : option client) (c : command) : command :=
  mkCommand (offline c) (json c) (prepareOffline c) (connection c) (mnemonic c)
    (path c) (privateKey c) (validator c) (signedOperationInput c) (forkVersion c)
    (genesisValidatorsRoot c) v (chainTime c) (chainInfo c)
    (domain c) (signedOperation c).

Definition set_chainTime (v : option chaintime) (c : command) : command :=
  mkCommand (offline c) (json c) (prepareOffline c) (connection c) (mnemonic c)
    (path c) (privateKey c) (validator c) (signedOperationInput c) (forkVersion c)
    (genesisValidatorsRoot c) (consensusClient c) v (chainInfo c)
    (domain c) (signedOperation c).

Definition set_domain (v : list byte) (c : command) : command :=
  mkCommand (offline c) (json c) (prepareOffline c) (connection c) (mnemonic c)
    (path c) (privateKey c) (validator c) (signedOperationInput c) (forkVersion c)
    (genesisValidatorsRoot c) (consensusClient c) (chainTime c) (chainInfo c)
    v (signedOperation c).

Definition set_signedOperation (v : option phase0.SignedVoluntaryExit)
    (c : command) : command :=
  mkCommand (offline c) (json c) (prepareOffline c) (connection c) (mnemonic c)
    (path c) (privateKey c) (validator c) (signedOperationInput c) (forkVersion c)
    (genesisValidatorsRoot c) (consensusClient c) (chainTime c) (chainInfo c)
    (domain c) v.

(** What a run can touch: the command, the global random source, and the
    operations passed to [SubmitVoluntaryExit] so far, oldest first. *)
Record world : Type := mkWorld {
  cmd : command;
  rnd : rngT;
  submitted : list (option phase0.SignedVoluntaryExit)
}.

(** ** Everything outside [process.go] *)

Class Env : Type := {
  (* viper *)
  fuzziness : Z;
  fuzzSeed : Z;
  (* math/rand *)
  Intn : rngT -> Z -> Z * rngT;
  Int63 : rngT -> Z * rngT;
  Seed : Z -> rngT;
  Read : rngT -> nat -> list byte * rngT;
  (* util, ethutil, wallet *)
  SeedFromMnemonic : string -> result (list byte);
  PrivateKeyFromSeedAndPath : list byte -> string -> result privkey;
  PublicKey : privkey -> pubkey;
  MarshalPrivate : privkey -> list byte;
  Marshal : pubkey -> list byte;
  ParseAccount : string -> list string -> bool -> result account;
  BestPublicKey : account -> result pubkey;
  Sign : account -> list byte -> list byte -> result (list byte);
  (* hash tree roots *)
  HashTreeRoot : phase0.VoluntaryExit -> result (list byte);
  HashTreeRootForkData : list byte -> list byte -> result (list byte);
  HashTreeRootSigningData : list byte -> list byte -> result (list byte);
  (* BLS *)
  BLSSignatureFromBytes : list byte -> result blssig;
  BLSPublicKeyFromBytes : list byte -> result pubkey;
  Verify : blssig -> list byte -> pubkey -> bool;
  (* beacon.ChainInfo *)
  FetchValidatorInfo : beacon.ChainInfo -> string -> result beacon.ValidatorInfo;
  (* os *)
  Stat : string -> result unit;
  ReadFile : string -> result string;
  (* encoding/json: the syntax check, then the decoder writing through the
     pointer it is given *)
  jsonValid : string -> bool;
  jsonSyntaxError : string;
  jsonDecode : string -> option phase0.SignedVoluntaryExit ->
               result unit * option phase0.SignedVoluntaryExit;
  (* consensus client; [VoluntaryExitSubmitter] is [None] when the client
     does not implement the interface *)
  ConnectToBeaconNode : string -> result client;
  NewChainTime : client -> result chaintime;
  VoluntaryExitSubmitter :
    client -> option (option phase0.SignedVoluntaryExit -> result unit);
  (* methods of [command] defined in other files of the package *)
  obtainChainInfo : command -> result unit * command;
  writeChainInfoToFile : command -> result unit
}.

Context {E : Env}.

(** ** A state-and-error monad for the methods of [command] *)

Definition M (A : Type) : Type := world -> outcome A * world.

Definition ret {A} (a : A) : M A := fun w => (Ok a, w).

Definition bind {A B} (m : M A) (k : A -> M B) : M B :=
  fun w =>
    match m w with
    | (Ok a, w') => k a w'
    | (Err e, w') => (Err e, w')
    | (Panic p, w') => (Panic p, w')
    end.

Definition fail {A} (e : string) : M A := fun w => (Err e, w).
Definition panic {A} (p : string) : M A := fun w => (Panic p, w).
Definition lift {A} (r : result A) : M A :=
  fun w => match r with
           | Success a => (Ok a, w)
           | Failure e => (Err e, w)
           end.

Definition wrapOutcome {A} (o : outcome A) (msg : string) : outcome A :=
  match o with
  | Err e => Err (Wrap e msg)
  | other => other
  end.

Definition getC : M command := fun w => (Ok (cmd w), w).

Definition modifyC (f : command -> command) : M unit :=
  fun w => (Ok tt, mkWorld (f (cmd w)) (rnd w) (submitted w)).

Definition set_rnd (g : rngT) (w : world) : world :=
  mkWorld (cmd w) g (submitted w).

End Model.

Declare Scope go_scope.
Delimit Scope go_scope with go.

Notation "x <- m ;; k" := (bind m (fun x => k))
  (at level 100, m at next level, right associativity) : go_scope.
Notation "' p <- m ;; k" := (bind m (fun x => match x with p => k end))
  (at level 100, p pattern, m at next level, right associativity) : go_scope.
Notation "m ;;; k" := (bind m (fun _ => k))
  (at level 100, right associativity) : go_scope.

Section Methods.

Context {T : Carriers} {E : Env}.

Local Open Scope go_scope.

(** [errors.Wrap] around a call. *)
Definition wrapped {A} (m : M A) (msg : string) : M A :=
  fun w => let '(o, w') := m w in (wrapOutcome o msg, w').

(** *** math/rand on the global source *)

Definition randIntn (n : Z) : M Z :=
  fun w => let '(r, g) := Intn (rnd w) n in (Ok r, set_rnd g w).

Definition randInt63 : M Z :=
  fun w => let '(r, g) := Int63 (rnd w) in (Ok r, set_rnd g w).

Definition randSeed (seed : Z) : M unit :=
  fun w => (Ok tt, set_rnd (Seed seed) w).

(** [rand.Read(buf)] on a fresh buffer of [n] bytes. *)
Definition randRead (n : nat) : M (list byte) :=
  fun w => let '(bs, g) := Read (rnd w) n in (Ok (copy (zeroBytes n) bs), set_rnd g w).

(** *** The fuzz injector *)

Definition FuzzinessAct : M bool :=
  r <- randIntn 100 ;;
  ret (fuzziness >? r).

Definition fuzzExitMessage (operation : phase0.VoluntaryExit) : M phase0.VoluntaryExit :=
  (* fuzz validator index *)
  act <- FuzzinessAct ;;
  operation <- (if act
                then r <- randIntn 1000000 ;;
                     ret (phase0.mkVoluntaryExit (phase0.Epoch operation) (phase0.uint64 r))
                else ret operation) ;;
  (* fuzz Epoch *)
  act <- FuzzinessAct ;;
  operation <- (if act
                then r <- randIntn 1000000 ;;
                     ret (phase0.mkVoluntaryExit (phase0.uint64 r) (phase0.ValidatorIndex operation))
                else ret operation) ;;
  ret operation.

Definition fuzzExitMessageWithRoot (operation : phase0.VoluntaryExit) (root : list byte)
  : M (phase0.VoluntaryExit * list byte) :=
  operation <- fuzzExitMessage operation ;;
  (* fuzz root *)
  act <- FuzzinessAct ;;
  root <- (if act
           then testcase <- randRead 32 ;; ret (copy root testcase)
           else ret root) ;;
  ret (operation, root).

Definition fuzzExitMessageWithSignature (operation : phase0.VoluntaryExit)
    (signature : list byte) : M (phase0.VoluntaryExit * list byte) :=
  operation <- fuzzExitMessage operation ;;
  (* fuzz signature *)
  act <- FuzzinessAct ;;
  signature <- (if act
                then testcase <- randRead 96 ;; ret (copy signature testcase)
                else ret signature) ;;
  ret (operation, signature).

Definition InitializeFuzzingSeed : M Z :=
  seed <- (if fuzzSeed =? 0 then randInt63 else ret fuzzSeed) ;;
  randSeed seed ;;;
  ret seed.

(** *** Building and verifying a signed operation *)

(** Modelled from the spec: [signing.SignRoot] of package [signing], which is
    not among the sources.  Section 6 gives the key signer's contract as
    [Sign(root, domain)] returning the signature bytes, and section 4.3 has
    the builder obtain "a signature over the domain-separated root from the
    account"; the call is therefore handed to the account as it is. *)
Definition SignRoot (acct : account) (root dom : list byte) : M (list byte) :=
  lift (Sign acct root dom).

Definition createSignedOperation (validator : beacon.ValidatorInfo) (acct : account)
    (epoch : Z) : M phase0.SignedVoluntaryExit :=
  InitializeFuzzingSeed ;;;
  _pubkey <- lift (BestPublicKey acct) ;;
  let operation := phase0.mkVoluntaryExit epoch (beacon.Index validator) in
  (* fuzz before root calculation *)
  operation <- fuzzExitMessage operation ;;
  root <- wrapped (lift (HashTreeRoot operation))
            "failed to generate root for exit operation" ;;
  (* fuzz before signature *)
  '(operation, root) <- fuzzExitMessageWithRoot operation root ;;
  c <- getC ;;
  signature <- wrapped (SignRoot acct root (domain c)) "failed to sign exit operation" ;;
  (* fuzz after signature *)
  '(operation, signature) <- fuzzExitMessageWithSignature operation signature ;;
  ret (phase0.mkSignedVoluntaryExit operation signature).

Definition verifySignedOperation (op : option phase0.SignedVoluntaryExit) : M unit :=
  match op with
  | None => panic "invalid memory address or nil pointer dereference"
  | Some op =>
      root <- wrapped (lift (HashTreeRoot (phase0.Message op)))
                "failed to generate message root" ;;
      let sigBytes :=
        copy (zeroBytes (List.length (phase0.Signature op))) (phase0.Signature op) in
      sig <- (match BLSSignatureFromBytes sigBytes with
              | Success s => ret s
              | Failure _ => fail "invalid signature"
              end) ;;
      c <- getC ;;
      signingRoot <- wrapped (lift (HashTreeRootSigningData root (domain c)))
                       "failed to generate signing root" ;;
      validatorInfo <- lift (FetchValidatorInfo (chainInfo c)
                               (fmtDec (phase0.ValidatorIndex (phase0.Message op)))) ;;
      let pubkeyBytes :=
        copy (zeroBytes (List.length (beacon.Pubkey validatorInfo)))
             (beacon.Pubkey validatorInfo) in
      pk <- wrapped (lift (BLSPublicKeyFromBytes pubkeyBytes)) "invalid public key" ;;
      if negb (Verify sig signingRoot pk)
      then fail "signature does not verify"
      else ret tt
  end.

Definition generateOperationFromAccount (validator : beacon.ValidatorInfo)
    (acct : account) (epoch : Z) : M unit :=
  fun w =>
    match createSignedOperation validator acct epoch w with
    | (Ok op, w') => modifyC (set_signedOperation (Some op)) w'
    | (Err e, w') =>
        (* the nil result is assigned along with the error *)
        (Err e, mkWorld (set_signedOperation None (cmd w')) (rnd w') (submitted w'))
    | (Panic p, w') => (Panic p, w')
    end.

(** *** Obtaining the operation *)

Definition generateOperationFromPrivateKey : M unit :=
  c <- getC ;;
  validatorAccount <- wrapped (lift (ParseAccount (privateKey c) [] true))
                        "failed to create validator account" ;;
  validatorPubkey <- lift (BestPublicKey validatorAccount) ;;
  validatorInfo <- lift (FetchValidatorInfo (chainInfo c) (fmtHex (Marshal validatorPubkey))) ;;
  generateOperationFromAccount validatorInfo validatorAccount (beacon.Epoch (chainInfo c)).

Definition generateOperationFromSeedAndPath
    (validators : list (string * beacon.ValidatorInfo)) (seed : list byte)
    (keyPath : string) : M unit :=
  validatorPrivkey <- wrapped (lift (PrivateKeyFromSeedAndPath seed keyPath))
                        "failed to generate validator private key" ;;
  modifyC (set_privateKey (fmtHex (MarshalPrivate validatorPrivkey))) ;;;
  generateOperationFromPrivateKey.

Definition generateOperationFromMnemonicAndPath : M unit :=
  c <- getC ;;
  seed <- lift (SeedFromMnemonic (mnemonic c)) ;;
  (* Turn the validators in to a map for easy lookup. *)
  let validators :=
    map (fun v => (fmtHex (beacon.Pubkey v), v)) (beacon.Validators (chainInfo c)) in
  let validatorKeyPath := path c in
  if negb (validatorPathMatch (path c))
  then fail ("path " ++ path c ++ " does not match EIP-2334 format for a validator")
  else wrapped (generateOperationFromSeedAndPath validators seed validatorKeyPath)
         "failed to generate operation from seed and path".

Definition maxDistance : Z := 1024.

(** [fmt.Sprintf("m/12381/3600/%d/0/0", i)]. *)
Definition validatorKeyPathAt (i : Z) : string :=
  "m/12381/3600/" ++ fmtDec i ++ "/0/0".

(** The scan [for i := 0; ; i++] with its exit at [i == maxDistance];
    [remaining] is [maxDistance - i], so that the loop is left through the
    first branch exactly when [i] has reached [maxDistance]. *)
Fixpoint scanValidatorKeys (remaining : nat) (i : Z) (seed : list byte)
    (validatorInfo : beacon.ValidatorInfo) : M unit :=
  match remaining with
  | O => ret tt
  | S remaining' =>
      let validatorKeyPath := validatorKeyPathAt i in
      validatorPrivkey <- wrapped (lift (PrivateKeyFromSeedAndPath seed validatorKeyPath))
                            "failed to generate validator private key" ;;
      let validatorPubkey := Marshal (PublicKey validatorPrivkey) in
      if bytesEqual validatorPubkey (beacon.Pubkey validatorInfo)
      then
        c <- getC ;;
        validatorAccount <- wrapped (lift (ParseAccount (mnemonic c) [validatorKeyPath] true))
                              "failed to create withdrawal account" ;;
        generateOperationFromAccount validatorInfo validatorAccount
          (beacon.Epoch (chainInfo c))
      else scanValidatorKeys remaining' (i + 1) seed validatorInfo
  end.

Definition generateOperationFromMnemonicAndValidator : M unit :=
  c <- getC ;;
  seed <- lift (SeedFromMnemonic (mnemonic c)) ;;
  validatorInfo <- lift (FetchValidatorInfo (chainInfo c) (validator c)) ;;
  (* Scan the keys from the seed to find the path. *)
  scanValidatorKeys (Z.to_nat maxDistance) 0 seed validatorInfo.

Definition generateOperationFromValidator : M unit :=
  c <- getC ;;
  validatorInfo <- lift (FetchValidatorInfo (chainInfo c) (validator c)) ;;
  validatorAccount <- lift (ParseAccount (validator c) [] true) ;;
  generateOperationFromAccount validatorInfo validatorAccount (beacon.Epoch (chainInfo c)).

(** [json.Unmarshal(data, &c.signedOperation)]. *)
Definition jsonUnmarshal (data : string) : M unit :=
  fun w =>
    if jsonValid data
    then let '(r, target) := jsonDecode data (signedOperation (cmd w)) in
         lift r (mkWorld (set_signedOperation target (cmd w)) (rnd w) (submitted w))
    else (Err jsonSyntaxError, w).

Definition obtainOperationFromFile : M unit :=
  wrapped (lift (Stat exitOperationFilename)) "failed to read exit operation file" ;;;
  data <- wrapped (lift (ReadFile exitOperationFilename))
            "failed to read exit operation file" ;;
  wrapped (jsonUnmarshal data) "failed to parse exit operation file" ;;;
  c <- getC ;;
  verifySignedOperation (signedOperation c).

Definition obtainOperationFromInput : M unit :=
  c <- getC ;;
  (if negb (HasPrefix (signedOperationInput c) "{")
   then (* This looks like a file; read it in. *)
     data <- wrapped (lift (ReadFile (signedOperationInput c))) "failed to read input file" ;;
     modifyC (set_signedOperationInput data)
   else ret tt) ;;;
  c <- getC ;;
  wrapped (jsonUnmarshal (signedOperationInput c)) "failed to parse exit operation input" ;;;
  c <- getC ;;
  verifySignedOperation (signedOperation c).

Definition obtainOperationFromFileOrInput : M unit :=
  c <- getC ;;
  if nonEmpty (signedOperationInput c)
  then obtainOperationFromInput
  else obtainOperationFromFile.

Definition noInputMessage : string :=
  "no account, mnemonic or private key specified, and no "
    ++ exitOperationFilename ++ " file loaded".

Definition unsupportedCombination : string :=
  "unsupported combination of inputs; see help for details of supported combinations".

Definition obtainOperation : M unit :=
  c <- getC ;;
  if (isEmpty (mnemonic c) || isEmpty (path c))
       && isEmpty (privateKey c) && isEmpty (validator c)
  then
    (* No input information; fetch the operation from a file. *)
    fun w =>
      match obtainOperationFromFileOrInput w with
      | (Ok tt, w') => (Ok tt, w')
      | (Err e, w') =>
          if nonEmpty (signedOperationInput (cmd w'))
          then (Err (Wrap e "failed to obtain supplied signed operation"), w')
          else (Err (Wrap e noInputMessage), w')
      | (Panic p, w') => (Panic p, w')
      end
  else if nonEmpty (mnemonic c) then
    if nonEmpty (path c) then generateOperationFromMnemonicAndPath
    else if nonEmpty (validator c) then generateOperationFromMnemonicAndValidator
    else fail "mnemonic must be supplied with either a path or validator"
  else if nonEmpty (privateKey c) then generateOperationFromPrivateKey
  else if nonEmpty (validator c) then generateOperationFromValidator
  else fail unsupportedCombination.

(** *** The signing domain *)

Definition obtainGenesisValidatorsRoot : M (list byte) :=
  c <- getC ;;
  let genesisValidatorsRoot0 := zeroBytes phase0.RootLength in
  if nonEmpty (genesisValidatorsRoot c)
  then
    root <- wrapped (lift (DecodeString (TrimPrefix (genesisValidatorsRoot c) "0x")))
              "invalid genesis validators root supplied" ;;
    if negb (Nat.eqb (List.length root) phase0.RootLength)
    then fail "invalid length for genesis validators root"
    else ret (copy genesisValidatorsRoot0 root)
  else ret (copy genesisValidatorsRoot0 (beacon.GenesisValidatorsRoot (chainInfo c))).

Definition obtainForkVersion : M (list byte) :=
  c <- getC ;;
  let forkVersion0 := zeroBytes phase0.ForkVersionLength in
  if nonEmpty (forkVersion c)
  then
    version <- wrapped (lift (DecodeString (TrimPrefix (forkVersion c) "0x")))
                 "invalid fork version supplied" ;;
    if negb (Nat.eqb (List.length version) phase0.ForkVersionLength)
    then fail "invalid length for fork version"
    else ret (copy forkVersion0 version)
  else ret (copy forkVersion0 (beacon.CurrentForkVersion (chainInfo c))).

(** The two [copy] calls of [generateDomain] on the domain array. *)
Definition writeDomain (dom domainType root : list byte) : list byte :=
  copyAt 4 (copy dom domainType) root.

Definition generateDomain : M unit :=
  genesisValidatorsRoot <- obtainGenesisValidatorsRoot ;;
  forkVersion <- obtainForkVersion ;;
  root <- wrapped (lift (HashTreeRootForkData forkVersion genesisValidatorsRoot))
            "failed to calculate signature domain" ;;
  modifyC (fun c =>
    set_domain (writeDomain (domain c)
                  (beacon.VoluntaryExitDomainType (chainInfo c)) root) c).

(** *** The workflow *)

Definition validateOperation : M (bool * string) :=
  ret (true, "").

Definition broadcastOperation : M unit :=
  c <- getC ;;
  match consensusClient c with
  | None => panic "interface conversion: interface is nil"
  | Some cl =>
      match VoluntaryExitSubmitter cl with
      | None => panic "interface conversion: missing method SubmitVoluntaryExit"
      | Some submit =>
          fun w =>
            lift (submit (signedOperation c))
                 (mkWorld (cmd w) (rnd w) (submitted w ++ [signedOperation c]))
      end
  end.

Definition setup : M unit :=
  c <- getC ;;
  if offline c then ret tt
  else
    (* Connect to the consensus node. *)
    cl <- (fun w =>
             match ConnectToBeaconNode (connection c) with
             | Success cl =>
                 (Ok cl, mkWorld (set_consensusClient (Some cl) (cmd w)) (rnd w) (submitted w))
             | Failure e =>
                 (Err (Wrap e "failed to connect to consensus node"),
                  mkWorld (set_consensusClient None (cmd w)) (rnd w) (submitted w))
             end) ;;
    (* Set up chaintime. *)
    fun w =>
      match NewChainTime cl with
      | Success ct => (Ok tt, mkWorld (set_chainTime (Some ct) (cmd w)) (rnd w) (submitted w))
      | Failure e =>
          (Err (Wrap e "failed to create chaintime service"),
           mkWorld (set_chainTime None (cmd w)) (rnd w) (submitted w))
      end.

(** The methods [obtainChainInfo] and [writeChainInfoToFile] of the package,
    run on the command of the current world. *)
Definition runObtainChainInfo : M unit :=
  fun w => let '(r, c') := obtainChainInfo (cmd w) in
           lift r (mkWorld c' (rnd w) (submitted w)).

Definition runWriteChainInfoToFile : M unit :=
  fun w => lift (writeChainInfoToFile (cmd w)) w.

Definition process : M unit :=
  setup ;;;
  runObtainChainInfo ;;;
  c <- getC ;;
  if prepareOffline c then runWriteChainInfoToFile
  else
    generateDomain ;;;
    obtainOperation ;;;
    '(validated, reason) <- validateOperation ;;
    if negb validated
    then fail ("operation failed validation: " ++ reason)
    else
      c <- getC ;;
      if json c || offline c
      then (* Want JSON output, or cannot broadcast. *) ret tt
      else broadcastOperation.

End Methods.

(** ** A small concrete network

    An instance of [Env] on which the pipeline runs by computation: a linear
    congruential random source, keys that are byte strings, a signature that
    is the signed root followed by the public key, hash tree roots that lay
    their fields out in a fixed-size buffer, an in-memory file system, and a
    beacon node that accepts every operation it is given. *)

Module Testnet.

#[export] Instance carriers : Carriers := {|
  rngT := Z;
  account := list byte;
  privkey := list byte;
  pubkey := list byte;
  blssig := list byte;
  client := unit;
  chaintime := unit
|}.

Record Setting : Type := mkSetting {
  sFuzziness : Z;
  sSeed : Z;
  sFiles : list (string * string);
  sDocuments : list (string * option phase0.SignedVoluntaryExit);
  sChain : beacon.ChainInfo
}.

Definition next (s : Z) : Z := (s * 1103515245 + 12345) mod 2 ^ 31.

Definition intn (s n : Z) : Z * Z := ((s / 65536) mod n, next s).

Fixpoint readBytes (s : Z) (n : nat) : list byte * Z :=
  match n with
  | O => ([], s)
  | S n' =>
      let '(bs, s') := readBytes (next s) n' in
      (byteOfN (Z.to_N ((s / 65536) mod 256)) :: bs, s')
  end.

Definition pad (n : nat) (l : list byte) : list byte :=
  firstn n (l ++ zeroBytes n)%list.

Fixpoint littleEndian (k : nat) (z : Z) : list byte :=
  match k with
  | O => []
  | S k' => byteOfN (Z.to_N (z mod 256)) :: littleEndian k' (z / 256)
  end.

Definition addBytes (a b : byte) : byte :=
  byteOfN ((Byte.to_N a + Byte.to_N b) mod 256).

Definition mix (a b : list byte) : list byte :=
  map (fun p => addBytes (fst p) (snd p)) (combine (pad 32 a) (pad 32 b)).

Definition rootOfExit (ve : phase0.VoluntaryExit) : list byte :=
  pad 32 (littleEndian 8 (phase0.Epoch ve) ++ littleEndian 8 (phase0.ValidatorIndex ve))%list.

Definition seedOf (m : string) : result (list byte) :=
  if isEmpty m then Failure "mnemonic is invalid"
  else Success (list_byte_of_string m).

Definition keyOf (seed : list byte) (p : string) : result (list byte) :=
  Success (list_byte_of_string p ++ seed)%list.

Definition publicOf (sk : list byte) : list byte := rev sk.

Definition parseAccount (s : string) (paths : list string) (_ : bool)
  : result (list byte) :=
  match paths with
  | [p] => match seedOf s with
           | Success seed => keyOf seed p
           | Failure e => Failure e
           end
  | _ => DecodeString (TrimPrefix s "0x")
  end.

Definition signWith (sk root dom : list byte) : result (list byte) :=
  Success (pad 96 (mix root dom ++ publicOf sk)%list).

Definition signatureFromBytes (bs : list byte) : result (list byte) :=
  if Nat.eqb (List.length bs) 96 then Success bs
  else Failure "signature must be 96 bytes".

Definition verify (sig msg pk : list byte) : bool :=
  bytesEqual sig (pad 96 (msg ++ pk)%list).

Definition fetchValidatorInfo (ci : beacon.ChainInfo) (id : string)
  : result beacon.ValidatorInfo :=
  if isEmpty id then Failure "no validator specified"
  else
    let found :=
      if HasPrefix id "0x"
      then find (fun v => String.eqb id (fmtHex (beacon.Pubkey v))) (beacon.Validators ci)
      else find (fun v => String.eqb id (fmtDec (beacon.Index v))) (beacon.Validators ci) in
    match found with
    | Some v => Success v
    | None => Failure "unknown validator"
    end.

Fixpoint lookup {A} (k : string) (l : list (string * A)) : option A :=
  match l with
  | [] => None
  | (k', a) :: r => if String.eqb k k' then Some a else lookup k r
  end.

Definition readFile (files : list (string * string)) (name : string) : result string :=
  match lookup name files with
  | Some data => Success data
  | None => Failure "no such file or directory"
  end.

Definition statFile (files : list (string * string)) (name : string) : result unit :=
  match lookup name files with
  | Some _ => Success tt
  | None => Failure "no such file or directory"
  end.

Definition decodeDocument (docs : list (string * option phase0.SignedVoluntaryExit))
    (data : string) (target : option phase0.SignedVoluntaryExit)
  : result unit * option phase0.SignedVoluntaryExit :=
  match lookup data docs with
  | Some op => (Success tt, op)
  | None => (Failure "json: cannot unmarshal", target)
  end.

Definition env (s : Setting) : Env := {|
  fuzziness := sFuzziness s;
  fuzzSeed := sSeed s;
  Intn := intn;
  Int63 := fun g => (g, next g);
  Seed := fun z => z mod 2 ^ 31;
  Read := readBytes;
  SeedFromMnemonic := seedOf;
  PrivateKeyFromSeedAndPath := keyOf;
  PublicKey := publicOf;
  MarshalPrivate := fun sk => sk;
  Marshal := fun pk => pk;
  ParseAccount := parseAccount;
  BestPublicKey := fun a => Success (publicOf a);
  Sign := signWith;
  HashTreeRoot := fun ve => Success (rootOfExit ve);
  HashTreeRootForkData := fun fv gvr => Success (pad 32 (gvr ++ fv)%list);
  HashTreeRootSigningData := fun root dom => Success (mix root dom);
  BLSSignatureFromBytes := signatureFromBytes;
  BLSPublicKeyFromBytes := fun bs => Success bs;
  Verify := verify;
  FetchValidatorInfo := fetchValidatorInfo;
  Stat := statFile (sFiles s);
  ReadFile := readFile (sFiles s);
  jsonValid := fun data => HasPrefix data "{";
  jsonSyntaxError := "invalid character looking for beginning of value";
  jsonDecode := decodeDocument (sDocuments s);
  ConnectToBeaconNode := fun conn =>
    if isEmpty conn then Failure "no connection" else Success tt;
  NewChainTime := fun _ => Success tt;
  VoluntaryExitSubmitter := fun _ => Some (fun _ => Success tt);
  obtainChainInfo := fun c => (Success tt, c);
  writeChainInfoToFile := fun _ => Success tt
|}.

(** The key of the mnemonic ["abandon"] at derivation index [i]. *)
Definition keyAt (i : Z) : list byte :=
  (list_byte_of_string (validatorKeyPathAt i) ++ list_byte_of_string "abandon")%list.

Definition validatorAt (index i : Z) : beacon.ValidatorInfo :=
  beacon.mkValidatorInfo index (publicOf (keyAt i)).

(** A chain with three validators: the keys of the mnemonic at derivation
    indices 2, 1023 and 1024. *)
Definition chain : beacon.ChainInfo :=
  beacon.mkChainInfo
    [validatorAt 7 2; validatorAt 8 1023; validatorAt 9 1024]
    194048
    [x04; x00; x00; x00]
    (repeat x2a 32)
    [x03; x00; x00; x00].

Definition setting (fz seed : Z) : Setting :=
  mkSetting fz seed [] [] chain.

Definition blank : command :=
  mkCommand false false false "http://localhost:5052" "" "" "" "" "" "" ""
    None None chain (zeroBytes 32) None.

Definition start (c : command) : world := mkWorld c 1 [].

(** The command with the given mnemonic, path, private key and validator. *)
Definition withInputs (mn pa pk va : string) : command :=
  mkCommand false false false "http://localhost:5052" mn pa pk va "" "" ""
    None None chain (zeroBytes 32) None.

Definition withJSON (c : command) : command :=
  mkCommand (offline c) true (prepareOffline c) (connection c) (mnemonic c)
    (path c) (privateKey c) (validator c) (signedOperationInput c) (forkVersion c)
    (genesisValidatorsRoot c) (consensusClient c) (chainTime c) (chainInfo c)
    (domain c) (signedOperation c).

Definition withForkVersion (v : string) (c : command) : command :=
  mkCommand (offline c) (json c) (prepareOffline c) (connection c) (mnemonic c)
    (path c) (privateKey c) (validator c) (signedOperationInput c) v
    (genesisValidatorsRoot c) (consensusClient c) (chainTime c) (chainInfo c)
    (domain c) (signedOperation c).

(** The private key of validator 7, as it is typed on the command line. *)
Definition key7 : string := fmtHex (keyAt 2).

(** An exit of validator 7 under a signature of 96 zero bytes. *)
Definition forged : phase0.SignedVoluntaryExit :=
  phase0.mkSignedVoluntaryExit (phase0.mkVoluntaryExit 194048 7) (zeroBytes 96).

Definition forgedText : string := "{forged exit of validator 7}".

(** A directory that holds a forged operation under the standard name and
    a file that is not JSON. *)
Definition settingWithFiles (fz seed : Z) : Setting :=
  mkSetting fz seed
    [(exitOperationFilename, forgedText); ("notes.txt", "not json")]
    [(forgedText, Some forged)]
    chain.

(** A directory whose file of the standard name is not JSON. *)
Definition settingBrokenFile (fz seed : Z) : Setting :=
  mkSetting fz seed [(exitOperationFilename, "not json")] [] chain.

End Testnet.

(** ** Vocabulary of the statements

    The draws of the fuzz injector read off the generator (each eligible
    field takes one draw in [[0, 100)] and, when that draw is below the
    intensity, the draws of its replacement), the contracts assumed of the
    libraries, and the part of the world the stages before the broadcast
    leave alone. *)

Section Vocabulary.

Context {T : Carriers} {E : Env}.

(** The documented range of [rand.Intn]: a value in [[0, n)] for [n > 0]. *)
Definition IntnInRange : Prop :=
  forall g n, 0 < n -> 0 <= fst (Intn g n) < n.

(** The generator after the two draws a field may take, and whether the field
    was replaced. *)
Definition fieldActs (g : rngT) : bool := fuzziness >? fst (Intn g 100).

Definition fieldValue (g : rngT) : Z := fst (Intn (snd (Intn g 100)) 1000000).

Definition afterField (g : rngT) : rngT :=
  if fieldActs g then snd (Intn (snd (Intn g 100)) 1000000) else snd (Intn g 100).

Definition afterMessage (g : rngT) : rngT := afterField (afterField g).

Definition bufferActs (g : rngT) : bool := fuzziness >? fst (Intn g 100).

Definition bufferValue (n : nat) (g : rngT) : list byte :=
  copy (zeroBytes n) (fst (Read (snd (Intn g 100)) n)).

Definition afterBuffer (n : nat) (g : rngT) : rngT :=
  if bufferActs g then snd (Read (snd (Intn g 100)) n) else snd (Intn g 100).

Definition fuzzedMessage (g : rngT) (op : phase0.VoluntaryExit) : phase0.VoluntaryExit :=
  phase0.mkVoluntaryExit
    (if fieldActs (afterField g) then phase0.uint64 (fieldValue (afterField g))
     else phase0.Epoch op)
    (if fieldActs g then phase0.uint64 (fieldValue g)
     else phase0.ValidatorIndex op).

Definition fuzzedBuffer (n : nat) (g : rngT) (buf : list byte) : list byte :=
  if bufferActs g then copy buf (bufferValue n g) else buf.

(** The generator [InitializeFuzzingSeed] leaves behind. *)
Definition chosenSeed (g : rngT) : Z :=
  if fuzzSeed =? 0 then fst (Int63 g) else fuzzSeed.

Definition seededGenerator (g : rngT) : rngT := Seed (chosenSeed g).

(** Index [j] derives a key, and it is not the validator's. *)
Definition missesAt (seed : list byte) (vi : beacon.ValidatorInfo) (j : Z) : Prop :=
  exists sk, PrivateKeyFromSeedAndPath seed (validatorKeyPathAt j) = Success sk
             /\ Marshal (PublicKey sk) <> beacon.Pubkey vi.

(** The contract of the signer against the BLS library: what the account
    signs for a root under a domain parses as a signature and verifies, under
    the account's public key, against the hash tree root of the signing data
    made of that root and domain. *)
Definition SignVerifies (acct : account) (pk : pubkey) (dom : list byte) : Prop :=
  forall root sig,
    Sign acct root dom = Success sig ->
    exists signingRoot s,
      HashTreeRootSigningData root dom = Success signingRoot
      /\ BLSSignatureFromBytes sig = Success s
      /\ Verify s signingRoot pk = true.

(** A supplied hex string that does not decode to [n] bytes. *)
Definition badHex (n : nat) (s : string) : Prop :=
  s <> "" /\ forall bs, DecodeString (TrimPrefix s "0x") = Success bs -> List.length bs <> n.

(** The inputs under which the obtaining step turns to the file or the
    supplied input. *)
Definition noKeyMaterial (c : command) : Prop :=
  (mnemonic c = "" \/ path c = "") /\ privateKey c = "" /\ validator c = "".

(** What no stage before the broadcast touches: the operations submitted so
    far and the two flags that decide whether to broadcast. *)
Definition frame (w : world) : list (option phase0.SignedVoluntaryExit) * bool * bool :=
  (submitted w, json (cmd w), offline (cmd w)).

(** The method [m] leaves the view [f] of the world as it found it. *)
Definition keeps {X A} (f : world -> X) (m : M A) : Prop :=
  forall w, f (snd (m w)) = f w.

(** The chain-information stage leaves the two flags alone. *)
Definition ChainInfoKeepsFlags : Prop :=
  forall c, json (snd (obtainChainInfo c)) = json c
            /\ offline (snd (obtainChainInfo c)) = offline c.

End Vocabulary.

(** ** The arithmetic of [chain status]

    The integer expressions of [cmd/chainstatus.go], on [uint64] with its
    wrap-around; a division by zero is the run-time panic it is in Go. *)

Module chainstatus.

Definition divide (a b : Z) : outcome Z :=
  if b =? 0 then Panic "runtime error: integer divide by zero" else Ok (a / b).

(** [curEpoch := spec.Epoch(uint64(curSlot) / slotsPerEpoch)]. *)
Definition curEpoch (curSlot slotsPerEpoch : Z) : outcome Z :=
  divide curSlot slotsPerEpoch.

(** [distance := curEpoch - finality.Justified.Epoch], and the same for the
    finalized and the previous justified epoch. *)
Definition distance (currentEpoch epoch : Z) : Z :=
  phase0.uint64 (currentEpoch - epoch).

(** [epochStartSlot := (uint64(curSlot) / slotsPerEpoch) * slotsPerEpoch]. *)
Definition epochStartSlot (curSlot slotsPerEpoch : Z) : outcome Z :=
  match divide curSlot slotsPerEpoch with
  | Ok q => Ok (phase0.uint64 (q * slotsPerEpoch))
  | other => other
  end.

(** [epochStartSlot+slotsPerEpoch-1], the end of the printed range. *)
Definition epochEndSlot (start slotsPerEpoch : Z) : Z :=
  phase0.uint64 (phase0.uint64 (start + slotsPerEpoch) - 1).

(** [(uint64(curSlot)/slotsPerEpoch+1)*slotsPerEpoch-uint64(curSlot)]. *)
Definition slotsUntilNextEpoch (curSlot slotsPerEpoch : Z) : outcome Z :=
  match divide curSlot slotsPerEpoch with
  | Ok q =>
      Ok (phase0.uint64
            (phase0.uint64 (phase0.uint64 (q + 1) * slotsPerEpoch) - curSlot))
  | other => other
  end.

End chainstatus.

(** ** Further vocabulary *)

Section FurtherVocabulary.

Context {T : Carriers} {E : Env}.

Fixpoint allHex (s : string) : bool :=
  match s with
  | EmptyString => true
  | String a r =>
      match fromHexChar a with Some _ => allHex r | None => false end
  end.

(** Exactly [n] characters, all of them hex digits of either case. *)
Definition hexDigits (n : nat) (s : string) : Prop :=
  String.length s = n /\ allHex s = true.

Definition set_forkVersion (v : string) (c : command) : command :=
  mkCommand (offline c) (json c) (prepareOffline c) (connection c) (mnemonic c)
    (path c) (privateKey c) (validator c) (signedOperationInput c) v
    (genesisValidatorsRoot c) (consensusClient c) (chainTime c) (chainInfo c)
    (domain c) (signedOperation c).

Definition set_genesisValidatorsRoot (v : string) (c : command) : command :=
  mkCommand (offline c) (json c) (prepareOffline c) (connection c) (mnemonic c)
    (path c) (privateKey c) (validator c) (signedOperationInput c) (forkVersion c)
    v (consensusClient c) (chainTime c) (chainInfo c)
    (domain c) (signedOperation c).

(** The command without the three fields the obtaining step may write. *)
Definition besidesOperation (c : command) : command :=
  set_privateKey "" (set_signedOperationInput "" (set_signedOperation None c)).

(** What the obtaining step leaves alone. *)
Definition settled (w : world) : command * list (option phase0.SignedVoluntaryExit) :=
  (besidesOperation (cmd w), submitted w).

(** The command without its domain. *)
Definition besidesDomain (w : world) : command * rngT * list (option phase0.SignedVoluntaryExit) :=
  (set_domain [] (cmd w), rnd w, submitted w).

(** The chain-information stage leaves the connected client alone. *)
Definition ChainInfoKeepsClient : Prop :=
  forall c, consensusClient (snd (obtainChainInfo c)) = consensusClient c.

(** The same environment run with [seed] as its configured fuzz seed. *)
Definition withFuzzSeed (seed : Z) : Env := {|
  fuzziness := fuzziness;
  fuzzSeed := seed;
  Intn := Intn;
  Int63 := Int63;
  Seed := Seed;
  Read := Read;
  SeedFromMnemonic := SeedFromMnemonic;
  PrivateKeyFromSeedAndPath := PrivateKeyFromSeedAndPath;
  PublicKey := PublicKey;
  MarshalPrivate := MarshalPrivate;
  Marshal := Marshal;
  ParseAccount := ParseAccount;
  BestPublicKey := BestPublicKey;
  Sign := Sign;
  HashTreeRoot := HashTreeRoot;
  HashTreeRootForkData := HashTreeRootForkData;
  HashTreeRootSigningData := HashTreeRootSigningData;
  BLSSignatureFromBytes := BLSSignatureFromBytes;
  BLSPublicKeyFromBytes := BLSPublicKeyFromBytes;
  Verify := Verify;
  FetchValidatorInfo := FetchValidatorInfo;
  Stat := Stat;
  ReadFile := ReadFile;
  jsonValid := jsonValid;
  jsonSyntaxError := jsonSyntaxError;
  jsonDecode := jsonDecode;
  ConnectToBeaconNode := ConnectToBeaconNode;
  NewChainTime := NewChainTime;
  VoluntaryExitSubmitter := VoluntaryExitSubmitter;
  obtainChainInfo := obtainChainInfo;
  writeChainInfoToFile := writeChainInfoToFile
|}.

End FurtherVocabulary.

(** ** More of the concrete network

    Variants of the network of [Testnet] in which one derivation index is
    broken or the beacon node answers differently, and directories with
    other files. *)

Module TestnetCases.

Import Testnet.

(** The network of [Testnet] in which the key of the index [broken], if any,
    does not derive, and whose client offers [submitter]. *)
Definition envWith (s : Setting) (broken : option Z)
    (submitter : option (option phase0.SignedVoluntaryExit -> result unit)) : Env := {|
  fuzziness := sFuzziness s;
  fuzzSeed := sSeed s;
  Intn := intn;
  Int63 := fun g => (g, next g);
  Seed := fun z => z mod 2 ^ 31;
  Read := readBytes;
  SeedFromMnemonic := seedOf;
  PrivateKeyFromSeedAndPath := fun seed p =>
    match broken with
    | Some k => if String.eqb p (validatorKeyPathAt k)
                then Failure "key derivation failed" else keyOf seed p
    | None => keyOf seed p
    end;
  PublicKey := publicOf;
  MarshalPrivate := fun sk => sk;
  Marshal := fun pk => pk;
  ParseAccount := parseAccount;
  BestPublicKey := fun a => Success (publicOf a);
  Sign := signWith;
  HashTreeRoot := fun ve => Success (rootOfExit ve);
  HashTreeRootForkData := fun fv gvr => Success (pad 32 (gvr ++ fv)%list);
  HashTreeRootSigningData := fun root dom => Success (mix root dom);
  BLSSignatureFromBytes := signatureFromBytes;
  BLSPublicKeyFromBytes := fun bs => Success bs;
  Verify := verify;
  FetchValidatorInfo := fetchValidatorInfo;
  Stat := statFile (sFiles s);
  ReadFile := readFile (sFiles s);
  jsonValid := fun data => HasPrefix data "{";
  jsonSyntaxError := "invalid character looking for beginning of value";
  jsonDecode := decodeDocument (sDocuments s);
  ConnectToBeaconNode := fun conn =>
    if isEmpty conn then Failure "no connection" else Success tt;
  NewChainTime := fun _ => Success tt;
  VoluntaryExitSubmitter := fun _ => submitter;
  obtainChainInfo := fun c => (Success tt, c);
  writeChainInfoToFile := fun _ => Success tt
|}.

(** The exit of validator 7 at epoch 194048, signed by its key under a
    domain of 32 zero bytes. *)
Definition genuine : phase0.SignedVoluntaryExit :=
  let message := phase0.mkVoluntaryExit 194048 7 in
  phase0.mkSignedVoluntaryExit message
    (pad 96 (mix (rootOfExit message) (zeroBytes 32) ++ publicOf (keyAt 2))%list).

Definition genuineText : string := "{exit of validator 7}".

(** A directory that holds the genuine operation under the standard name. *)
Definition settingGenuineFile (fz seed : Z) : Setting :=
  mkSetting fz seed [(exitOperationFilename, genuineText)]
    [(genuineText, Some genuine)] chain.

(** A directory with an empty file and a file that is not JSON. *)
Definition settingOtherFiles (fz seed : Z) : Setting :=
  mkSetting fz seed [("empty.json", ""); ("notes.txt", "not json")] [] chain.

Definition rejecting (_ : option phase0.SignedVoluntaryExit) : result unit :=
  Failure "exit rejected by the node".

End TestnetCases.

(** * Properties *)

Section Checks.

Example fmtDec_1023 : fmtDec 1023 = "1023".
Proof. reflexivity. Qed.

Example fmtHex_sample : fmtHex [x00; xab; x1f] = "0x00ab1f".
Proof. reflexivity. Qed.

Example fmtHex_empty : fmtHex [] = "".
Proof. reflexivity. Qed.

Example decode_sample : DecodeString "00Ab1f" = Success [x00; xab; x1f].
Proof. reflexivity. Qed.

Example decode_odd : DecodeString "abc" = Failure "encoding/hex: odd length hex string".
Proof. reflexivity. Qed.

Example decode_bad_digit : DecodeString "0g" = Failure "encoding/hex: invalid byte".
Proof. reflexivity. Qed.

Example trim_prefix : TrimPrefix "0x0102" "0x" = "0102".
Proof. reflexivity. Qed.

Example path_ok : validatorPathMatch "m/12381/3600/17/0/0" = true.
Proof. reflexivity. Qed.

Example path_no_index : validatorPathMatch "m/12381/3600//0/0" = false.
Proof. reflexivity. Qed.

Example path_withdrawal : validatorPathMatch "m/12381/3600/17/0" = false.
Proof. reflexivity. Qed.

Example path_trailing : validatorPathMatch "m/12381/3600/17/0/0/0" = false.
Proof. reflexivity. Qed.

Example path_of_scan : validatorPathMatch (validatorKeyPathAt 1023) = true.
Proof. reflexivity. Qed.

Example copy_short_source : copy [x01; x02; x03] [xff] = [xff; x02; x03].
Proof. reflexivity. Qed.

Example copy_long_source : copy [x01; x02] [xaa; xbb; xcc] = [xaa; xbb].
Proof. reflexivity. Qed.

End Checks.

Section MonadFacts.

Context {T : Carriers}.

Lemma bind_Ok {A B} (m : M A) (k : A -> M B) w a w' :
  m w = (Ok a, w') -> bind m k w = k a w'.
Proof. intros H; unfold bind; rewrite H; reflexivity. Qed.

Lemma bind_Err {A B} (m : M A) (k : A -> M B) w e w' :
  m w = (Err e, w') -> bind m k w = (Err e, w').
Proof. intros H; unfold bind; rewrite H; reflexivity. Qed.

Lemma bind_Panic {A B} (m : M A) (k : A -> M B) w p w' :
  m w = (Panic p, w') -> bind m k w = (Panic p, w').
Proof. intros H; unfold bind; rewrite H; reflexivity. Qed.

Lemma bind_ret {A B} (a : A) (k : A -> M B) w : bind (ret a) k w = k a w.
Proof. reflexivity. Qed.

Lemma bind_getC {B} (k : command -> M B) w : bind getC k w = k (cmd w) w.
Proof. reflexivity. Qed.

Lemma bind_lift_Success {A B} (r : result A) (k : A -> M B) w a :
  r = Success a -> bind (lift r) k w = k a w.
Proof. intros ->; reflexivity. Qed.

Lemma bind_lift_Failure {A B} (r : result A) (k : A -> M B) w e :
  r = Failure e -> bind (lift r) k w = (Err e, w).
Proof. intros ->; reflexivity. Qed.

End MonadFacts.

Section FuzzInjector.

Context {T : Carriers} {E : Env}.

Lemma FuzzinessAct_eq w :
  FuzzinessAct w =
  (Ok (fuzziness >? fst (Intn (rnd w) 100)), set_rnd (snd (Intn (rnd w) 100)) w).
Proof.
  unfold FuzzinessAct, bind, randIntn, ret.
  destruct (Intn (rnd w) 100); reflexivity.
Qed.

Lemma randIntn_eq n w :
  randIntn n w = (Ok (fst (Intn (rnd w) n)), set_rnd (snd (Intn (rnd w) n)) w).
Proof. unfold randIntn; destruct (Intn (rnd w) n); reflexivity. Qed.

Lemma randRead_eq n w :
  randRead n w =
  (Ok (copy (zeroBytes n) (fst (Read (rnd w) n))), set_rnd (snd (Read (rnd w) n)) w).
Proof. unfold randRead; destruct (Read (rnd w) n); reflexivity. Qed.

Lemma uint64_small r : 0 <= r < 1000000 -> phase0.uint64 r = r.
Proof. intros H; unfold phase0.uint64; apply Z.mod_small; lia. Qed.

(** Name the draws one after the other, innermost generator first. *)
Ltac name_draws :=
  repeat (cbn [fst snd rnd set_rnd cmd submitted] in *;
          match goal with
          | |- context [if ?x >? ?z then _ else _] => is_var z; destruct (x >? z)
          | |- context [Intn (rnd ?w) ?n] => is_var w; destruct (Intn (rnd w) n)
          | |- context [Intn ?g ?n] => is_var g; destruct (Intn g n)
          | |- context [Read ?g ?n] => is_var g; destruct (Read g n)
          end).

Lemma fuzzExitMessage_eq op w :
  fuzzExitMessage op w =
  (Ok (fuzzedMessage (rnd w) op), set_rnd (afterMessage (rnd w)) w).
Proof.
  unfold fuzzExitMessage, fuzzedMessage, afterMessage, afterField, fieldActs,
    fieldValue, FuzzinessAct, randIntn, bind, ret.
  destruct op as [e i]; name_draws; reflexivity.
Qed.

Lemma fuzzExitMessageWithRoot_eq op root w :
  fuzzExitMessageWithRoot op root w =
  (Ok (fuzzedMessage (rnd w) op, fuzzedBuffer 32 (afterMessage (rnd w)) root),
   set_rnd (afterBuffer 32 (afterMessage (rnd w))) w).
Proof.
  unfold fuzzExitMessageWithRoot.
  rewrite (bind_Ok _ _ _ _ _ (fuzzExitMessage_eq op w)).
  generalize (afterMessage (rnd w)) (fuzzedMessage (rnd w) op); intros g op'.
  unfold fuzzedBuffer, afterBuffer, bufferActs, bufferValue,
    FuzzinessAct, randIntn, randRead, bind, ret.
  name_draws; reflexivity.
Qed.

Lemma fuzzExitMessageWithSignature_eq op sig w :
  fuzzExitMessageWithSignature op sig w =
  (Ok (fuzzedMessage (rnd w) op, fuzzedBuffer 96 (afterMessage (rnd w)) sig),
   set_rnd (afterBuffer 96 (afterMessage (rnd w))) w).
Proof.
  unfold fuzzExitMessageWithSignature.
  rewrite (bind_Ok _ _ _ _ _ (fuzzExitMessage_eq op w)).
  generalize (afterMessage (rnd w)) (fuzzedMessage (rnd w) op); intros g op'.
  unfold fuzzedBuffer, afterBuffer, bufferActs, bufferValue,
    FuzzinessAct, randIntn, randRead, bind, ret.
  name_draws; reflexivity.
Qed.

Lemma fieldActs_iff g : fieldActs g = true <-> fst (Intn g 100) < fuzziness.
Proof. unfold fieldActs; rewrite Z.gtb_lt; lia. Qed.

Lemma fieldValue_range g : IntnInRange -> 0 <= fieldValue g < 1000000.
Proof. intros H; apply H; lia. Qed.

Lemma never_acts g : IntnInRange -> fuzziness = 0 -> fieldActs g = false.
Proof.
  intros H F; unfold fieldActs; rewrite F.
  specialize (H g 100 ltac:(lia)). rewrite Z.gtb_ltb; apply Z.ltb_ge; lia.
Qed.

Lemma always_acts g : IntnInRange -> fuzziness = 100 -> fieldActs g = true.
Proof.
  intros H F; unfold fieldActs; rewrite F.
  specialize (H g 100 ltac:(lia)). rewrite Z.gtb_ltb; apply Z.ltb_lt; lia.
Qed.

Lemma fuzzedMessage_off g op :
  IntnInRange -> fuzziness = 0 -> fuzzedMessage g op = op.
Proof.
  intros H F; unfold fuzzedMessage.
  rewrite !never_acts by assumption. destruct op; reflexivity.
Qed.

Lemma fuzzedBuffer_off n g buf :
  IntnInRange -> fuzziness = 0 -> fuzzedBuffer n g buf = buf.
Proof.
  intros H F; unfold fuzzedBuffer, bufferActs.
  change (fuzziness >? fst (Intn g 100)) with (fieldActs g).
  rewrite never_acts by assumption; reflexivity.
Qed.

Lemma InitializeFuzzingSeed_eq w :
  InitializeFuzzingSeed w = (Ok (chosenSeed (rnd w)), set_rnd (seededGenerator (rnd w)) w).
Proof.
  unfold InitializeFuzzingSeed, seededGenerator, chosenSeed, randInt63, randSeed, bind, ret.
  destruct (fuzzSeed =? 0); [destruct (Int63 (rnd w))|]; reflexivity.
Qed.

(** What a successful run of the builder went through: the message is fuzzed
    once before its root is taken, once more before that root (or its
    replacement) is signed, and a third time before the operation is
    assembled. *)
Lemma createSignedOperation_Ok_inv validator acct epoch w sop w' :
  createSignedOperation validator acct epoch w = (Ok sop, w') ->
  exists root sig,
    let g1 := seededGenerator (rnd w) in
    let op1 := fuzzedMessage g1 (phase0.mkVoluntaryExit epoch (beacon.Index validator)) in
    let g2 := afterMessage g1 in
    let op2 := fuzzedMessage g2 op1 in
    let g3 := afterBuffer 32 (afterMessage g2) in
    HashTreeRoot op1 = Success root
    /\ Sign acct (fuzzedBuffer 32 (afterMessage g2) root) (domain (cmd w)) = Success sig
    /\ phase0.Message sop = fuzzedMessage g3 op2
    /\ phase0.Signature sop = fuzzedBuffer 96 (afterMessage g3) sig
    /\ w' = set_rnd (afterBuffer 96 (afterMessage g3)) w.
Proof.
  unfold createSignedOperation.
  rewrite (bind_Ok _ _ _ _ _ (InitializeFuzzingSeed_eq w)).
  destruct (BestPublicKey acct) as [pk|e] eqn:Hpk;
    [erewrite bind_lift_Success by reflexivity
    |erewrite bind_lift_Failure by reflexivity; discriminate].
  rewrite (bind_Ok _ _ _ _ _ (fuzzExitMessage_eq _ _)). cbn [rnd set_rnd].
  set (g1 := seededGenerator (rnd w)).
  set (op1 := fuzzedMessage g1 _).
  unfold wrapped at 1, bind at 1, lift at 1.
  destruct (HashTreeRoot op1) as [root|e] eqn:Hroot; cbn [wrapOutcome]; [|discriminate].
  rewrite (bind_Ok _ _ _ _ _ (fuzzExitMessageWithRoot_eq _ _ _)). cbn [rnd set_rnd].
  rewrite bind_getC. cbn [cmd set_rnd].
  unfold wrapped at 1, bind at 1, SignRoot, lift at 1.
  destruct (Sign acct _ (domain (cmd w))) as [sig|e] eqn:Hsig; cbn [wrapOutcome]; [|discriminate].
  rewrite (bind_Ok _ _ _ _ _ (fuzzExitMessageWithSignature_eq _ _ _)). cbn [rnd set_rnd ret].
  intros H; inversion H; subst; clear H.
  exists root, sig. cbn zeta. repeat split; assumption.
Qed.

End FuzzInjector.

Lemma testnet_intn_in_range s : @IntnInRange Testnet.carriers (Testnet.env s).
Proof.
  intros g n Hn. cbn. unfold Testnet.intn. cbn [fst].
  apply Z.mod_pos_bound; assumption.
Qed.

Section FuzzClaims.

Context {T : Carriers} {E : Env}.

(** C6.  At every checkpoint each eligible field takes its own draw in
    [[0, 100)] and is replaced exactly when that draw is below the
    intensity.  At intensity 0 the three checkpoint functions hand back the
    message, the root and the signature they were given; at intensity 100
    every one of them is replaced by freshly drawn values. *)
Theorem fuzz_checkpoints_follow_intensity (Hin : IntnInRange) :
  (forall op root sig w,
      let g := rnd w in
      fst (fuzzExitMessage op w) = Ok (fuzzedMessage g op)
      /\ fst (fuzzExitMessageWithRoot op root w)
         = Ok (fuzzedMessage g op, fuzzedBuffer 32 (afterMessage g) root)
      /\ fst (fuzzExitMessageWithSignature op sig w)
         = Ok (fuzzedMessage g op, fuzzedBuffer 96 (afterMessage g) sig))
  /\ (forall g op,
         0 <= fst (Intn g 100) < 100
         /\ 0 <= fst (Intn (afterField g) 100) < 100
         /\ phase0.ValidatorIndex (fuzzedMessage g op)
            = (if fst (Intn g 100) <? fuzziness
               then fieldValue g else phase0.ValidatorIndex op)
         /\ phase0.Epoch (fuzzedMessage g op)
            = (if fst (Intn (afterField g) 100) <? fuzziness
               then fieldValue (afterField g) else phase0.Epoch op))
  /\ (forall n g buf,
         fuzzedBuffer n g buf
         = (if fst (Intn g 100) <? fuzziness
            then copy buf (bufferValue n g) else buf))
  /\ (fuzziness = 0 ->
      forall op root sig w,
        fst (fuzzExitMessage op w) = Ok op
        /\ fst (fuzzExitMessageWithRoot op root w) = Ok (op, root)
        /\ fst (fuzzExitMessageWithSignature op sig w) = Ok (op, sig))
  /\ (fuzziness = 100 ->
      forall op root sig w,
        let g := rnd w in
        let op' := phase0.mkVoluntaryExit (fieldValue (afterField g)) (fieldValue g) in
        fst (fuzzExitMessage op w) = Ok op'
        /\ fst (fuzzExitMessageWithRoot op root w)
           = Ok (op', copy root (bufferValue 32 (afterMessage g)))
        /\ fst (fuzzExitMessageWithSignature op sig w)
           = Ok (op', copy sig (bufferValue 96 (afterMessage g)))).
Proof.
  split; [|split; [|split; [|split]]].
  - intros op root sig w g.
    rewrite fuzzExitMessage_eq, fuzzExitMessageWithRoot_eq,
      fuzzExitMessageWithSignature_eq. auto.
  - intros g op. split; [apply Hin; lia|]. split; [apply Hin; lia|].
    unfold fuzzedMessage, fieldActs. cbn [phase0.ValidatorIndex phase0.Epoch].
    rewrite !Z.gtb_ltb.
    split.
    + destruct (_ <? fuzziness); [apply uint64_small, fieldValue_range, Hin|reflexivity].
    + destruct (fst (Intn (afterField g) 100) <? fuzziness);
        [apply uint64_small, fieldValue_range, Hin|reflexivity].
  - intros n g buf. unfold fuzzedBuffer, bufferActs. rewrite Z.gtb_ltb. reflexivity.
  - intros F op root sig w.
    rewrite fuzzExitMessage_eq, fuzzExitMessageWithRoot_eq,
      fuzzExitMessageWithSignature_eq. cbn [fst].
    rewrite !fuzzedMessage_off, !fuzzedBuffer_off by assumption. auto.
  - intros F op root sig w. cbn zeta.
    rewrite fuzzExitMessage_eq, fuzzExitMessageWithRoot_eq,
      fuzzExitMessageWithSignature_eq. cbn [fst].
    assert (Hm : fuzzedMessage (rnd w) op
                 = phase0.mkVoluntaryExit (fieldValue (afterField (rnd w)))
                     (fieldValue (rnd w))).
    { unfold fuzzedMessage. rewrite !always_acts by assumption.
      rewrite !uint64_small by (apply fieldValue_range, Hin). reflexivity. }
    rewrite Hm. unfold fuzzedBuffer, bufferActs.
    change (fuzziness >? fst (Intn (afterMessage (rnd w)) 100))
      with (fieldActs (afterMessage (rnd w))).
    rewrite always_acts by assumption. auto.
Qed.

(** C10.  The second and the third checkpoint run the message fuzzing of the
    first one again before they touch the root or the signature: either field
    of the message is kept or replaced by a value in [[0, 1000000)], each on
    its own draw, and in the builder the message that is returned has been
    through this twice more after the root that gets signed was computed. *)
Theorem later_checkpoints_fuzz_message_again (Hin : IntnInRange) :
  (forall op root sig w,
      exists op' w1,
        fuzzExitMessage op w = (Ok op', w1)
        /\ (exists root', fst (fuzzExitMessageWithRoot op root w) = Ok (op', root'))
        /\ (exists sig', fst (fuzzExitMessageWithSignature op sig w) = Ok (op', sig'))
        /\ (phase0.ValidatorIndex op' = phase0.ValidatorIndex op
            \/ 0 <= phase0.ValidatorIndex op' < 1000000)
        /\ (phase0.Epoch op' = phase0.Epoch op
            \/ 0 <= phase0.Epoch op' < 1000000)
        /\ (fst (Intn (rnd w) 100) < fuzziness ->
            phase0.ValidatorIndex op' = fieldValue (rnd w))
        /\ (fst (Intn (afterField (rnd w)) 100) < fuzziness ->
            phase0.Epoch op' = fieldValue (afterField (rnd w))))
  /\ (forall validator acct epoch w sop w',
         createSignedOperation validator acct epoch w = (Ok sop, w') ->
         exists seed w1 op1 root w2 op2 root' w3 sig,
           InitializeFuzzingSeed w = (Ok seed, w1)
           /\ fuzzExitMessage (phase0.mkVoluntaryExit epoch (beacon.Index validator)) w1
              = (Ok op1, w2)
           /\ HashTreeRoot op1 = Success root
           /\ fuzzExitMessageWithRoot op1 root w2 = (Ok (op2, root'), w3)
           /\ Sign acct root' (domain (cmd w)) = Success sig
           /\ fuzzExitMessageWithSignature op2 sig w3
              = (Ok (phase0.Message sop, phase0.Signature sop), w')).
Proof.
  split.
  - intros op root sig w.
    exists (fuzzedMessage (rnd w) op), (set_rnd (afterMessage (rnd w)) w).
    rewrite fuzzExitMessage_eq, fuzzExitMessageWithRoot_eq,
      fuzzExitMessageWithSignature_eq. cbn [fst].
    split; [reflexivity|]. split; [eauto|]. split; [eauto|].
    unfold fuzzedMessage. cbn [phase0.ValidatorIndex phase0.Epoch].
    repeat split.
    + destruct (fieldActs (rnd w)); [right|left; reflexivity].
      rewrite uint64_small; apply fieldValue_range, Hin.
    + destruct (fieldActs (afterField (rnd w))); [right|left; reflexivity].
      rewrite uint64_small; apply fieldValue_range, Hin.
    + intros H. apply fieldActs_iff in H. rewrite H.
      apply uint64_small, fieldValue_range, Hin.
    + intros H. apply fieldActs_iff in H. rewrite H.
      apply uint64_small, fieldValue_range, Hin.
  - intros validator acct epoch w sop w' H.
    apply createSignedOperation_Ok_inv in H.
    destruct H as (root & sig & Hroot & Hsig & Hm & Hs & Hw).
    cbn zeta in *.
    set (w1 := set_rnd (seededGenerator (rnd w)) w).
    eexists _, w1, _, root, _, _, _, _, sig.
    split; [apply InitializeFuzzingSeed_eq|].
    split; [apply fuzzExitMessage_eq|].
    split; [exact Hroot|].
    split; [apply fuzzExitMessageWithRoot_eq|].
    split; [exact Hsig|].
    rewrite fuzzExitMessageWithSignature_eq. cbn [rnd set_rnd] in *.
    rewrite Hm, Hs, Hw. reflexivity.
Qed.

End FuzzClaims.

Section CopyFacts.

Lemma copy_length dst src : List.length (copy dst src) = List.length dst.
Proof.
  unfold copy. rewrite length_app, length_firstn, length_skipn. lia.
Qed.

Lemma copy_prefix dst src :
  (List.length src <= List.length dst)%nat ->
  copy dst src = (src ++ skipn (List.length src) dst)%list.
Proof.
  intros H. unfold copy. rewrite Nat.min_r by assumption.
  rewrite firstn_all. reflexivity.
Qed.

Lemma copy_same_length dst src :
  List.length src = List.length dst -> copy dst src = src.
Proof.
  intros H. rewrite copy_prefix by lia. rewrite H, skipn_all, app_nil_r. reflexivity.
Qed.

Lemma copy_fresh n src : List.length src = n -> copy (zeroBytes n) src = src.
Proof.
  intros H. apply copy_same_length. unfold zeroBytes. rewrite repeat_length. assumption.
Qed.

(** The two writes of [generateDomain] fill the 32-byte array with the tag
    followed by the first 28 bytes of the root. *)
Lemma writeDomain_layout dom domainType root :
  List.length dom = 32%nat -> List.length domainType = 4%nat ->
  List.length root = 32%nat ->
  writeDomain dom domainType root = (domainType ++ firstn 28 root)%list.
Proof.
  intros Hd Ht Hr. unfold writeDomain, copyAt.
  rewrite (copy_prefix dom domainType) by lia. rewrite Ht.
  rewrite firstn_app, firstn_all2 by lia.
  replace (4 - List.length domainType)%nat with 0%nat by lia.
  rewrite firstn_O, app_nil_r.
  rewrite skipn_app, skipn_all2 by lia.
  replace (4 - List.length domainType)%nat with 0%nat by lia.
  rewrite skipn_O, app_nil_l.
  unfold copy. rewrite length_skipn, Hd, Hr.
  change (Nat.min (32 - 4) 32) with 28%nat.
  rewrite skipn_all2 by (rewrite length_skipn; lia).
  rewrite app_nil_r. reflexivity.
Qed.

End CopyFacts.

Section DomainClaims.

Context {T : Carriers} {E : Env}.

Lemma obtainGenesisValidatorsRoot_world w : snd (obtainGenesisValidatorsRoot w) = w.
Proof.
  unfold obtainGenesisValidatorsRoot. rewrite bind_getC.
  destruct (nonEmpty _); [|reflexivity].
  unfold wrapped, bind, lift.
  destruct (DecodeString _); cbn; [|reflexivity].
  destruct (negb _); reflexivity.
Qed.

Lemma obtainForkVersion_world w : snd (obtainForkVersion w) = w.
Proof.
  unfold obtainForkVersion. rewrite bind_getC.
  destruct (nonEmpty _); [|reflexivity].
  unfold wrapped, bind, lift.
  destruct (DecodeString _); cbn; [|reflexivity].
  destruct (negb _); reflexivity.
Qed.

Lemma generateDomain_Ok w gvr fv root :
  fst (obtainGenesisValidatorsRoot w) = Ok gvr ->
  fst (obtainForkVersion w) = Ok fv ->
  HashTreeRootForkData fv gvr = Success root ->
  generateDomain w =
  (Ok tt,
   mkWorld (set_domain (writeDomain (domain (cmd w))
                          (beacon.VoluntaryExitDomainType (chainInfo (cmd w))) root)
                       (cmd w))
           (rnd w) (submitted w)).
Proof.
  intros Hg Hf Hr. unfold generateDomain.
  rewrite (bind_Ok _ _ w gvr w)
    by (rewrite (surjective_pairing (obtainGenesisValidatorsRoot w)), Hg,
          obtainGenesisValidatorsRoot_world; reflexivity).
  rewrite (bind_Ok _ _ w fv w)
    by (rewrite (surjective_pairing (obtainForkVersion w)), Hf,
          obtainForkVersion_world; reflexivity).
  unfold wrapped, bind, lift. rewrite Hr. reflexivity.
Qed.

(** C7.  Whatever domain-type tag, fork version and genesis validators root
    the run has resolved, the domain that [generateDomain] stores is 32 bytes
    long, starts with the 4-byte tag, continues with the first 28 bytes of the
    hash tree root of the fork data, and is the same for any two runs that
    resolve the same three inputs. *)
Theorem generateDomain_layout w gvr fv root :
  List.length (domain (cmd w)) = 32%nat ->
  List.length (beacon.VoluntaryExitDomainType (chainInfo (cmd w))) = 4%nat ->
  fst (obtainGenesisValidatorsRoot w) = Ok gvr ->
  fst (obtainForkVersion w) = Ok fv ->
  HashTreeRootForkData fv gvr = Success root ->
  List.length root = 32%nat ->
  exists w',
    generateDomain w = (Ok tt, w')
    /\ List.length (domain (cmd w')) = 32%nat
    /\ firstn 4 (domain (cmd w')) = beacon.VoluntaryExitDomainType (chainInfo (cmd w))
    /\ skipn 4 (domain (cmd w')) = firstn 28 root
    /\ (forall v v',
           List.length (domain (cmd v)) = 32%nat ->
           beacon.VoluntaryExitDomainType (chainInfo (cmd v))
             = beacon.VoluntaryExitDomainType (chainInfo (cmd w)) ->
           fst (obtainGenesisValidatorsRoot v) = Ok gvr ->
           fst (obtainForkVersion v) = Ok fv ->
           generateDomain v = (Ok tt, v') ->
           domain (cmd v') = domain (cmd w')).
Proof.
  intros Hd Ht Hg Hf Hr Hl.
  eexists. split; [apply (generateDomain_Ok w gvr fv root); assumption|].
  cbn [cmd domain set_domain].
  rewrite writeDomain_layout by assumption.
  split; [rewrite length_app, length_firstn; lia|].
  split.
  { rewrite firstn_app, firstn_all2 by lia.
    replace (4 - _)%nat with 0%nat by lia. rewrite firstn_O, app_nil_r. reflexivity. }
  split.
  { rewrite skipn_app, skipn_all2 by lia.
    replace (4 - _)%nat with 0%nat by lia. reflexivity. }
  intros v v' Hvd Hvt Hvg Hvf Hv.
  rewrite (generateDomain_Ok v gvr fv root) in Hv by assumption.
  inversion Hv; subst v'; clear Hv. cbn [cmd domain set_domain].
  rewrite writeDomain_layout by (try assumption; rewrite Hvt; assumption).
  rewrite Hvt. reflexivity.
Qed.

End DomainClaims.

Section KeyScan.

Context {T : Carriers} {E : Env}.

Lemma bytesEqual_true a b : bytesEqual a b = true <-> a = b.
Proof.
  unfold bytesEqual. destruct (list_eq_dec Byte.byte_eq_dec a b); split; congruence.
Qed.

Lemma bytesEqual_false a b : bytesEqual a b = false <-> a <> b.
Proof.
  unfold bytesEqual. destruct (list_eq_dec Byte.byte_eq_dec a b); split; congruence.
Qed.

Lemma scan_step_miss n i seed vi sk w :
  PrivateKeyFromSeedAndPath seed (validatorKeyPathAt i) = Success sk ->
  Marshal (PublicKey sk) <> beacon.Pubkey vi ->
  scanValidatorKeys (S n) i seed vi w = scanValidatorKeys n (i + 1) seed vi w.
Proof.
  intros Hk Hne. cbn [scanValidatorKeys].
  unfold wrapped at 1, bind at 1, lift at 1. rewrite Hk. cbn [wrapOutcome].
  apply bytesEqual_false in Hne. rewrite Hne. reflexivity.
Qed.

Lemma scan_step_hit n i seed vi sk w :
  PrivateKeyFromSeedAndPath seed (validatorKeyPathAt i) = Success sk ->
  Marshal (PublicKey sk) = beacon.Pubkey vi ->
  scanValidatorKeys (S n) i seed vi w =
  bind (wrapped (lift (ParseAccount (mnemonic (cmd w)) [validatorKeyPathAt i] true))
          "failed to create withdrawal account")
       (fun acct => generateOperationFromAccount vi acct (beacon.Epoch (chainInfo (cmd w))))
       w.
Proof.
  intros Hk He. cbn [scanValidatorKeys].
  unfold wrapped at 1, bind at 1, lift at 1. rewrite Hk. cbn [wrapOutcome].
  apply bytesEqual_true in He. rewrite He. reflexivity.
Qed.

Lemma scan_exhausted n : forall i seed vi w,
  (forall j, i <= j < i + Z.of_nat n -> missesAt seed vi j) ->
  scanValidatorKeys n i seed vi w = (Ok tt, w).
Proof.
  induction n as [|n IH]; intros i seed vi w Hmiss.
  - reflexivity.
  - destruct (Hmiss i) as (sk & Hk & Hne); [lia|].
    rewrite (scan_step_miss n i seed vi sk w Hk Hne).
    apply IH. intros j Hj. apply Hmiss. lia.
Qed.

Lemma scan_first_match n : forall i k seed vi sk w,
  i <= k < i + Z.of_nat n ->
  (forall j, i <= j < k -> missesAt seed vi j) ->
  PrivateKeyFromSeedAndPath seed (validatorKeyPathAt k) = Success sk ->
  Marshal (PublicKey sk) = beacon.Pubkey vi ->
  scanValidatorKeys n i seed vi w =
  bind (wrapped (lift (ParseAccount (mnemonic (cmd w)) [validatorKeyPathAt k] true))
          "failed to create withdrawal account")
       (fun acct => generateOperationFromAccount vi acct (beacon.Epoch (chainInfo (cmd w))))
       w.
Proof.
  induction n as [|n IH]; intros i k seed vi sk w Hk Hmiss Hsk Heq.
  - lia.
  - destruct (Z.eq_dec i k) as [->|Hne].
    + apply (scan_step_hit n k seed vi sk w Hsk Heq).
    + destruct (Hmiss i) as (ski & Hki & Hnei); [lia|].
      rewrite (scan_step_miss n i seed vi ski w Hki Hnei).
      apply (IH (i + 1) k seed vi sk w); try assumption; [lia|].
      intros j Hj. apply Hmiss. lia.
Qed.

Lemma generateOperationFromMnemonicAndValidator_scan w seed vi :
  SeedFromMnemonic (mnemonic (cmd w)) = Success seed ->
  FetchValidatorInfo (chainInfo (cmd w)) (validator (cmd w)) = Success vi ->
  generateOperationFromMnemonicAndValidator w
  = scanValidatorKeys (Z.to_nat maxDistance) 0 seed vi w.
Proof.
  intros Hs Hv. unfold generateOperationFromMnemonicAndValidator.
  rewrite bind_getC.
  erewrite bind_lift_Success by exact Hs.
  erewrite bind_lift_Success by exact Hv.
  reflexivity.
Qed.

(** C2.  With a mnemonic and a validator but no path, the derivation indices
    are tried in the order 0, 1, 2, ...: the first index below 1024 whose
    derived public key equals the validator's, byte for byte, is the one the
    operation is generated from, and later indices are not looked at; when
    none of the 1024 indices matches, the method returns without an error and
    leaves the command, and so its signed operation, as it was. *)
Theorem key_scan_first_match_or_silent w seed vi :
  SeedFromMnemonic (mnemonic (cmd w)) = Success seed ->
  FetchValidatorInfo (chainInfo (cmd w)) (validator (cmd w)) = Success vi ->
  (forall k sk,
      0 <= k < 1024 ->
      (forall j, 0 <= j < k -> missesAt seed vi j) ->
      PrivateKeyFromSeedAndPath seed (validatorKeyPathAt k) = Success sk ->
      Marshal (PublicKey sk) = beacon.Pubkey vi ->
      generateOperationFromMnemonicAndValidator w =
      bind (wrapped (lift (ParseAccount (mnemonic (cmd w)) [validatorKeyPathAt k] true))
              "failed to create withdrawal account")
           (fun acct =>
              generateOperationFromAccount vi acct (beacon.Epoch (chainInfo (cmd w))))
           w)
  /\ ((forall j, 0 <= j < 1024 -> missesAt seed vi j) ->
      generateOperationFromMnemonicAndValidator w = (Ok tt, w)).
Proof.
  intros Hs Hv.
  rewrite (generateOperationFromMnemonicAndValidator_scan w seed vi Hs Hv).
  split.
  - intros k sk Hk Hmiss Hsk Heq.
    apply (scan_first_match _ 0 k seed vi sk w); assumption.
  - intros Hmiss. apply scan_exhausted.
    change (Z.of_nat (Z.to_nat maxDistance)) with 1024. assumption.
Qed.

End KeyScan.

Section Frame.

Context {T : Carriers} {E : Env}.

Section Combinators.

Context {X : Type} (f : world -> X).

Lemma keeps_ret {A} (a : A) : keeps f (ret a).
Proof. intros w; reflexivity. Qed.

Lemma keeps_fail {A} e : keeps f (@fail _ A e).
Proof. intros w; reflexivity. Qed.

Lemma keeps_panic {A} p : keeps f (@panic _ A p).
Proof. intros w; reflexivity. Qed.

Lemma keeps_lift {A} (r : result A) : keeps f (lift r).
Proof. intros w; destruct r; reflexivity. Qed.

Lemma keeps_getC : keeps f getC.
Proof. intros w; reflexivity. Qed.

Lemma keeps_bind {A B} (m : M A) (k : A -> M B) :
  keeps f m -> (forall a, keeps f (k a)) -> keeps f (bind m k).
Proof.
  intros Hm Hk w. unfold bind. specialize (Hm w).
  destruct (m w) as [[a|e|p] w']; cbn [snd] in *; try assumption.
  rewrite (Hk a w'). assumption.
Qed.

Lemma keeps_wrapped {A} (m : M A) msg : keeps f m -> keeps f (wrapped m msg).
Proof.
  intros Hm w. unfold wrapped. specialize (Hm w).
  destruct (m w) as [o w']; assumption.
Qed.

End Combinators.

Create HintDb keeps.

Ltac keeps_go :=
  repeat first
    [ solve [auto with keeps]
    | apply keeps_ret | apply keeps_fail | apply keeps_panic | apply keeps_lift
    | apply keeps_getC
    | apply keeps_wrapped
    | apply keeps_bind;
      [|let x := fresh "x" in
        intros x; try match type of x with (_ * _)%type => destruct x end]
    | match goal with
      | |- keeps _ (if ?b then _ else _) => destruct b
      | |- keeps _ (match ?x with Some _ => _ | None => _ end) => destruct x
      | |- keeps _ (match ?x with Success _ => _ | Failure _ => _ end) => destruct x
      end ].

Lemma keeps_randIntn n : keeps frame (randIntn n).
Proof. intros w; rewrite randIntn_eq; reflexivity. Qed.

Lemma keeps_randRead n : keeps frame (randRead n).
Proof. intros w; rewrite randRead_eq; reflexivity. Qed.

Lemma keeps_randInt63 : keeps frame randInt63.
Proof. intros w; unfold randInt63; destruct (Int63 (rnd w)); reflexivity. Qed.

Lemma keeps_randSeed z : keeps frame (randSeed z).
Proof. intros w; reflexivity. Qed.

#[local] Hint Resolve keeps_randIntn keeps_randRead keeps_randInt63 keeps_randSeed : keeps.

Lemma keeps_fuzzExitMessage op : keeps frame (fuzzExitMessage op).
Proof. intros w; rewrite fuzzExitMessage_eq; reflexivity. Qed.

Lemma keeps_fuzzExitMessageWithRoot op root : keeps frame (fuzzExitMessageWithRoot op root).
Proof. intros w; rewrite fuzzExitMessageWithRoot_eq; reflexivity. Qed.

Lemma keeps_fuzzExitMessageWithSignature op sig :
  keeps frame (fuzzExitMessageWithSignature op sig).
Proof. intros w; rewrite fuzzExitMessageWithSignature_eq; reflexivity. Qed.

Lemma keeps_InitializeFuzzingSeed : keeps frame InitializeFuzzingSeed.
Proof. intros w; rewrite InitializeFuzzingSeed_eq; reflexivity. Qed.

#[local] Hint Resolve keeps_fuzzExitMessage keeps_fuzzExitMessageWithRoot
  keeps_fuzzExitMessageWithSignature keeps_InitializeFuzzingSeed : keeps.

Lemma keeps_createSignedOperation v a e : keeps frame (createSignedOperation v a e).
Proof. unfold createSignedOperation, SignRoot. keeps_go. Qed.

Lemma keeps_verifySignedOperation op : keeps frame (verifySignedOperation op).
Proof. unfold verifySignedOperation. keeps_go. Qed.

Lemma keeps_generateOperationFromAccount v a e : keeps frame (generateOperationFromAccount v a e).
Proof.
  intros w. unfold generateOperationFromAccount.
  pose proof (keeps_createSignedOperation v a e w) as H.
  destruct (createSignedOperation v a e w) as [[op|err|p] w']; exact H.
Qed.

#[local] Hint Resolve keeps_createSignedOperation keeps_verifySignedOperation
  keeps_generateOperationFromAccount : keeps.

Lemma keeps_modifyC g :
  (forall c, json (g c) = json c /\ offline (g c) = offline c) -> keeps frame (modifyC g).
Proof.
  intros H w. unfold modifyC, frame. cbn [snd cmd submitted].
  destruct (H (cmd w)) as [-> ->]. reflexivity.
Qed.

Lemma keeps_generateOperationFromPrivateKey : keeps frame generateOperationFromPrivateKey.
Proof. unfold generateOperationFromPrivateKey. keeps_go. Qed.

#[local] Hint Resolve keeps_generateOperationFromPrivateKey : keeps.

Lemma keeps_generateOperationFromSeedAndPath vs seed p :
  keeps frame (generateOperationFromSeedAndPath vs seed p).
Proof.
  unfold generateOperationFromSeedAndPath. keeps_go;
    try (apply keeps_modifyC; intros c; split; reflexivity).
Qed.

#[local] Hint Resolve keeps_generateOperationFromSeedAndPath : keeps.

Lemma keeps_generateOperationFromMnemonicAndPath :
  keeps frame generateOperationFromMnemonicAndPath.
Proof. unfold generateOperationFromMnemonicAndPath. keeps_go. Qed.

Lemma keeps_scanValidatorKeys n : forall i seed vi, keeps frame (scanValidatorKeys n i seed vi).
Proof.
  induction n as [|n IH]; intros i seed vi; cbn [scanValidatorKeys].
  - apply keeps_ret.
  - keeps_go; try apply IH.
Qed.

#[local] Hint Resolve keeps_scanValidatorKeys : keeps.

Lemma keeps_generateOperationFromMnemonicAndValidator :
  keeps frame generateOperationFromMnemonicAndValidator.
Proof. unfold generateOperationFromMnemonicAndValidator. keeps_go. Qed.

Lemma keeps_generateOperationFromValidator : keeps frame generateOperationFromValidator.
Proof. unfold generateOperationFromValidator. keeps_go. Qed.

Lemma keeps_jsonUnmarshal data : keeps frame (jsonUnmarshal data).
Proof.
  intros w. unfold jsonUnmarshal.
  destruct (jsonValid data); [|reflexivity].
  destruct (jsonDecode data _) as [[|e] target]; reflexivity.
Qed.

#[local] Hint Resolve keeps_jsonUnmarshal keeps_generateOperationFromMnemonicAndPath
  keeps_generateOperationFromMnemonicAndValidator
  keeps_generateOperationFromValidator : keeps.

Lemma keeps_obtainOperationFromFile : keeps frame obtainOperationFromFile.
Proof. unfold obtainOperationFromFile. keeps_go. Qed.

Lemma keeps_obtainOperationFromInput : keeps frame obtainOperationFromInput.
Proof.
  unfold obtainOperationFromInput. keeps_go;
    try (apply keeps_modifyC; intros c; split; reflexivity).
Qed.

#[local] Hint Resolve keeps_obtainOperationFromFile keeps_obtainOperationFromInput : keeps.

Lemma keeps_obtainOperationFromFileOrInput : keeps frame obtainOperationFromFileOrInput.
Proof. unfold obtainOperationFromFileOrInput. keeps_go. Qed.

Lemma keeps_obtainOperation : keeps frame obtainOperation.
Proof.
  unfold obtainOperation. keeps_go.
  intros w. pose proof (keeps_obtainOperationFromFileOrInput w) as H.
  destruct (obtainOperationFromFileOrInput w) as [[[]|err|p] w']; cbn [snd] in *;
    try assumption.
  destruct (nonEmpty _); assumption.
Qed.

Lemma keeps_generateDomain : keeps frame generateDomain.
Proof.
  unfold generateDomain, obtainGenesisValidatorsRoot, obtainForkVersion. keeps_go;
    try (apply keeps_modifyC; intros c; split; reflexivity).
Qed.

Lemma keeps_setup : keeps frame setup.
Proof.
  unfold setup. keeps_go.
  - intros w. destruct (ConnectToBeaconNode _); reflexivity.
  - intros w. destruct (NewChainTime _); reflexivity.
Qed.

Lemma keeps_runObtainChainInfo : ChainInfoKeepsFlags -> keeps frame runObtainChainInfo.
Proof.
  intros H w. unfold runObtainChainInfo. specialize (H (cmd w)).
  destruct (obtainChainInfo (cmd w)) as [[|e] c']; cbn [snd] in H;
    unfold frame, lift; cbn [snd cmd submitted]; destruct H as [-> ->]; reflexivity.
Qed.

(** The verifier only reads. *)
Lemma verifySignedOperation_world op : keeps (fun w => w) (verifySignedOperation op).
Proof. unfold verifySignedOperation. keeps_go. Qed.

Lemma jsonUnmarshal_input data :
  keeps (fun w => signedOperationInput (cmd w)) (jsonUnmarshal data).
Proof.
  intros w. unfold jsonUnmarshal.
  destruct (jsonValid data); [|reflexivity].
  destruct (jsonDecode data _) as [[|e] target]; reflexivity.
Qed.

Lemma keeps_runWriteChainInfoToFile : keeps frame runWriteChainInfoToFile.
Proof. intros w. unfold runWriteChainInfoToFile. apply keeps_lift. Qed.

End Frame.

Section Workflow.

Context {T : Carriers} {E : Env}.

Lemma isEmpty_true s : isEmpty s = true <-> s = "".
Proof. destruct s; cbn; split; congruence. Qed.

Lemma nonEmpty_true s : nonEmpty s = true <-> s <> "".
Proof. destruct s; cbn; split; congruence. Qed.

Lemma nonEmpty_false s : nonEmpty s = false <-> s = "".
Proof. destruct s; cbn; split; congruence. Qed.

Lemma validateOperation_eq w : validateOperation w = (Ok (true, ""), w).
Proof. reflexivity. Qed.

(** The run once the operation has been obtained. *)
Lemma process_after_obtain w w1 w2 w3 w4 :
  setup w = (Ok tt, w1) ->
  runObtainChainInfo w1 = (Ok tt, w2) ->
  prepareOffline (cmd w2) = false ->
  generateDomain w2 = (Ok tt, w3) ->
  obtainOperation w3 = (Ok tt, w4) ->
  process w = (if json (cmd w4) || offline (cmd w4)
               then (Ok tt, w4) else broadcastOperation w4).
Proof.
  intros H1 H2 Hp H3 H4. unfold process.
  rewrite (bind_Ok _ _ _ _ _ H1), (bind_Ok _ _ _ _ _ H2), bind_getC, Hp.
  rewrite (bind_Ok _ _ _ _ _ H3), (bind_Ok _ _ _ _ _ H4).
  rewrite (bind_Ok _ _ _ _ _ (validateOperation_eq w4)). cbn [negb].
  rewrite bind_getC. destruct (json (cmd w4) || offline (cmd w4)); reflexivity.
Qed.

Lemma process_fails_in_domain w w1 w2 e w3 :
  setup w = (Ok tt, w1) ->
  runObtainChainInfo w1 = (Ok tt, w2) ->
  prepareOffline (cmd w2) = false ->
  generateDomain w2 = (Err e, w3) ->
  process w = (Err e, w3).
Proof.
  intros H1 H2 Hp H3. unfold process.
  rewrite (bind_Ok _ _ _ _ _ H1), (bind_Ok _ _ _ _ _ H2), bind_getC, Hp.
  rewrite (bind_Err _ _ _ _ _ H3). reflexivity.
Qed.

Lemma process_fails_in_obtain w w1 w2 w3 e w4 :
  setup w = (Ok tt, w1) ->
  runObtainChainInfo w1 = (Ok tt, w2) ->
  prepareOffline (cmd w2) = false ->
  generateDomain w2 = (Ok tt, w3) ->
  obtainOperation w3 = (Err e, w4) ->
  process w = (Err e, w4).
Proof.
  intros H1 H2 Hp H3 H4. unfold process.
  rewrite (bind_Ok _ _ _ _ _ H1), (bind_Ok _ _ _ _ _ H2), bind_getC, Hp.
  rewrite (bind_Ok _ _ _ _ _ H3), (bind_Err _ _ _ _ _ H4). reflexivity.
Qed.

Lemma frame_flags w w' :
  frame w' = frame w ->
  json (cmd w') || offline (cmd w') = json (cmd w) || offline (cmd w).
Proof. unfold frame; intros H; inversion H; congruence. Qed.

Lemma process_keeps_unless_broadcast w :
  ChainInfoKeepsFlags ->
  json (cmd w) || offline (cmd w) = true ->
  frame (snd (process w)) = frame w.
Proof.
  intros Hci Hflag. unfold process.
  unfold bind at 1. pose proof (keeps_setup w) as K1.
  destruct (setup w) as [[[]|e|p] w1]; cbn [snd] in *; try assumption.
  unfold bind at 1. pose proof (keeps_runObtainChainInfo Hci w1) as K2.
  destruct (runObtainChainInfo w1) as [[[]|e|p] w2]; cbn [snd] in *; try congruence.
  rewrite bind_getC.
  destruct (prepareOffline (cmd w2)).
  { rewrite keeps_runWriteChainInfoToFile. congruence. }
  unfold bind at 1. pose proof (keeps_generateDomain w2) as K3.
  destruct (generateDomain w2) as [[[]|e|p] w3]; cbn [snd] in *; try congruence.
  unfold bind at 1. pose proof (keeps_obtainOperation w3) as K4.
  destruct (obtainOperation w3) as [[[]|e|p] w4]; cbn [snd] in *; try congruence.
  rewrite (bind_Ok _ _ _ _ _ (validateOperation_eq w4)). cbn [negb].
  rewrite bind_getC.
  assert (Hf : frame w4 = frame w) by congruence.
  rewrite (frame_flags _ _ Hf), Hflag. cbn [snd ret]. assumption.
Qed.

(** C9.  In offline mode, or when JSON output is asked for, no run hands an
    operation to [SubmitVoluntaryExit], and a run whose stages up to and
    including the obtaining of the operation succeed ends successfully right
    after validation, the operation left in the command for output. *)
Theorem offline_or_json_never_submits w :
  ChainInfoKeepsFlags ->
  json (cmd w) || offline (cmd w) = true ->
  submitted (snd (process w)) = submitted w
  /\ (forall w1 w2 w3 w4,
         setup w = (Ok tt, w1) ->
         runObtainChainInfo w1 = (Ok tt, w2) ->
         prepareOffline (cmd w2) = false ->
         generateDomain w2 = (Ok tt, w3) ->
         obtainOperation w3 = (Ok tt, w4) ->
         process w = (Ok tt, w4)
         /\ signedOperation (cmd (snd (process w))) = signedOperation (cmd w4)
         /\ submitted w4 = submitted w).
Proof.
  intros Hci Hflag. split.
  - pose proof (process_keeps_unless_broadcast w Hci Hflag) as H.
    unfold frame in H. inversion H. reflexivity.
  - intros w1 w2 w3 w4 H1 H2 Hp H3 H4.
    pose proof (keeps_setup w) as K1. rewrite H1 in K1.
    pose proof (keeps_runObtainChainInfo Hci w1) as K2. rewrite H2 in K2.
    pose proof (keeps_generateDomain w2) as K3. rewrite H3 in K3.
    pose proof (keeps_obtainOperation w3) as K4. rewrite H4 in K4.
    cbn [snd] in *.
    assert (Hf : frame w4 = frame w) by congruence.
    rewrite (process_after_obtain w w1 w2 w3 w4 H1 H2 Hp H3 H4).
    rewrite (frame_flags _ _ Hf), Hflag.
    repeat split. unfold frame in Hf. inversion Hf. reflexivity.
Qed.

(** C1, as the code has it.  The step from the obtained operation to the
    validated one checks nothing: [validateOperation] answers [true] with an
    empty reason in every state, so a run that has obtained an operation goes
    straight on to the output or the broadcast.  The verifier runs inside the
    file and input paths of the obtaining step only, and an operation it
    rejects there fails the run with the verifier's own error, wrapped by the
    obtaining step. *)
Theorem validation_step_checks_nothing :
  (forall w, validateOperation w = (Ok (true, ""), w))
  /\ (forall w w1 w2 w3 w4,
         setup w = (Ok tt, w1) ->
         runObtainChainInfo w1 = (Ok tt, w2) ->
         prepareOffline (cmd w2) = false ->
         generateDomain w2 = (Ok tt, w3) ->
         obtainOperation w3 = (Ok tt, w4) ->
         process w = (if json (cmd w4) || offline (cmd w4)
                      then (Ok tt, w4) else broadcastOperation w4))
  /\ (forall w w1 e w2,
         (isEmpty (mnemonic (cmd w)) || isEmpty (path (cmd w)))
           && isEmpty (privateKey (cmd w)) && isEmpty (validator (cmd w)) = true ->
         HasPrefix (signedOperationInput (cmd w)) "{" = true ->
         jsonUnmarshal (signedOperationInput (cmd w)) w = (Ok tt, w1) ->
         verifySignedOperation (signedOperation (cmd w1)) w1 = (Err e, w2) ->
         obtainOperation w = (Err (Wrap e "failed to obtain supplied signed operation"), w2))
  /\ (forall w data w1 e w2,
         (isEmpty (mnemonic (cmd w)) || isEmpty (path (cmd w)))
           && isEmpty (privateKey (cmd w)) && isEmpty (validator (cmd w)) = true ->
         signedOperationInput (cmd w) = "" ->
         Stat exitOperationFilename = Success tt ->
         ReadFile exitOperationFilename = Success data ->
         jsonUnmarshal data w = (Ok tt, w1) ->
         verifySignedOperation (signedOperation (cmd w1)) w1 = (Err e, w2) ->
         obtainOperation w = (Err (Wrap e noInputMessage), w2)).
Proof.
  split; [reflexivity|]. split; [exact process_after_obtain|]. split.
  - intros w w1 e w2 Hd Hp Hu Hv.
    assert (Hin : nonEmpty (signedOperationInput (cmd w)) = true).
    { destruct (signedOperationInput (cmd w)); [discriminate Hp|reflexivity]. }
    pose proof (jsonUnmarshal_input (signedOperationInput (cmd w)) w) as K1.
    rewrite Hu in K1. cbn [snd] in K1.
    pose proof (verifySignedOperation_world (signedOperation (cmd w1)) w1) as K2.
    rewrite Hv in K2. cbn [snd] in K2. subst w2.
    unfold obtainOperation. rewrite bind_getC, Hd.
    unfold obtainOperationFromFileOrInput. rewrite bind_getC, Hin.
    unfold obtainOperationFromInput. rewrite bind_getC, Hp. cbn [negb].
    rewrite bind_ret, bind_getC.
    assert (Hw : wrapped (jsonUnmarshal (signedOperationInput (cmd w)))
                   "failed to parse exit operation input" w = (Ok tt, w1)).
    { unfold wrapped. rewrite Hu. reflexivity. }
    rewrite (bind_Ok _ _ _ _ _ Hw), bind_getC, Hv.
    rewrite K1, Hin. reflexivity.
  - intros w data w1 e w2 Hd Hin Hs Hr Hu Hv.
    pose proof (jsonUnmarshal_input data w) as K1.
    rewrite Hu in K1. cbn [snd] in K1.
    pose proof (verifySignedOperation_world (signedOperation (cmd w1)) w1) as K2.
    rewrite Hv in K2. cbn [snd] in K2. subst w2.
    unfold obtainOperation. rewrite bind_getC, Hd.
    unfold obtainOperationFromFileOrInput. rewrite bind_getC, Hin. cbn [nonEmpty isEmpty negb].
    unfold obtainOperationFromFile.
    unfold wrapped at 1, bind at 1, lift at 1. rewrite Hs. cbn [wrapOutcome].
    unfold wrapped at 1, bind at 1, lift at 1. rewrite Hr. cbn [wrapOutcome].
    assert (Hw : wrapped (jsonUnmarshal data) "failed to parse exit operation file" w
                 = (Ok tt, w1)).
    { unfold wrapped. rewrite Hu. reflexivity. }
    rewrite (bind_Ok _ _ _ _ _ Hw), bind_getC, Hv.
    rewrite K1, Hin. reflexivity.
Qed.

End Workflow.

Section Dispatch.

Context {T : Carriers} {E : Env}.

Lemma string_empty_dec (s : string) : {s = ""} + {s <> ""}.
Proof. destruct s; [left; reflexivity|right; discriminate]. Qed.

Lemma isEmpty_false s : isEmpty s = false <-> s <> "".
Proof. destruct s; cbn; split; congruence. Qed.

Ltac flags :=
  repeat match goal with
         | H : ?s = "" |- _ => apply isEmpty_true in H
         | H : ?s <> "" |- _ => apply isEmpty_false in H
         end.

Lemma obtainOperation_mnemonic_validator w :
  mnemonic (cmd w) <> "" -> path (cmd w) = "" -> validator (cmd w) <> "" ->
  obtainOperation w = generateOperationFromMnemonicAndValidator w.
Proof.
  intros Hm Hp Hv. flags. unfold obtainOperation, nonEmpty.
  rewrite bind_getC, Hm, Hp, Hv, andb_false_r. reflexivity.
Qed.

Lemma obtainOperation_mnemonic_path w :
  mnemonic (cmd w) <> "" -> path (cmd w) <> "" ->
  obtainOperation w = generateOperationFromMnemonicAndPath w.
Proof.
  intros Hm Hp. flags. unfold obtainOperation, nonEmpty.
  rewrite bind_getC, Hm, Hp. reflexivity.
Qed.

Lemma obtainOperation_private_key w :
  mnemonic (cmd w) = "" -> privateKey (cmd w) <> "" ->
  obtainOperation w = generateOperationFromPrivateKey w.
Proof.
  intros Hm Hk. flags. unfold obtainOperation, nonEmpty.
  rewrite bind_getC, Hm, Hk. reflexivity.
Qed.

(** C4, as the code has it.  The obtaining step goes through the input
    sources in a fixed order of precedence and runs the first one that
    applies: the file or the supplied input when there is neither a private
    key nor a validator nor a mnemonic together with a path; else the
    mnemonic with the path, or failing a path with the validator; else the
    private key; else the validator taken as an account.  Inputs beyond those
    of the chosen source are not looked at.  The only combination that is
    refused as such is a mnemonic with a private key but with neither path
    nor validator; with nothing supplied the step fails exactly when the file
    or input cannot be loaded.  These cases cover every command. *)
Theorem obtainOperation_precedence w :
  let c := cmd w in
  ((mnemonic c = "" \/ path c = "") -> privateKey c = "" -> validator c = "" ->
   (forall w', obtainOperationFromFileOrInput w = (Ok tt, w') ->
               obtainOperation w = (Ok tt, w'))
   /\ (forall e w', obtainOperationFromFileOrInput w = (Err e, w') ->
                    obtainOperation w =
                    (Err (Wrap e (if nonEmpty (signedOperationInput (cmd w'))
                                  then "failed to obtain supplied signed operation"
                                  else noInputMessage)), w')))
  /\ (mnemonic c <> "" -> path c <> "" ->
      obtainOperation w = generateOperationFromMnemonicAndPath w)
  /\ (mnemonic c <> "" -> path c = "" -> validator c <> "" ->
      obtainOperation w = generateOperationFromMnemonicAndValidator w)
  /\ (mnemonic c <> "" -> path c = "" -> validator c = "" -> privateKey c <> "" ->
      obtainOperation w =
      (Err "mnemonic must be supplied with either a path or validator", w))
  /\ (mnemonic c = "" -> privateKey c <> "" ->
      obtainOperation w = generateOperationFromPrivateKey w)
  /\ (mnemonic c = "" -> privateKey c = "" -> validator c <> "" ->
      obtainOperation w = generateOperationFromValidator w)
  /\ (((mnemonic c = "" \/ path c = "") /\ privateKey c = "" /\ validator c = "")
      \/ (mnemonic c <> "" /\ path c <> "")
      \/ (mnemonic c <> "" /\ path c = "" /\ validator c <> "")
      \/ (mnemonic c <> "" /\ path c = "" /\ validator c = "" /\ privateKey c <> "")
      \/ (mnemonic c = "" /\ privateKey c <> "")
      \/ (mnemonic c = "" /\ privateKey c = "" /\ validator c <> "")).
Proof.
  cbn zeta.
  split; [|split; [|split; [|split; [|split; [|split]]]]].
  - intros Hmp Hk Hv.
    assert (Hd : (isEmpty (mnemonic (cmd w)) || isEmpty (path (cmd w)))
                   && isEmpty (privateKey (cmd w)) && isEmpty (validator (cmd w)) = true).
    { flags. rewrite Hk, Hv, !andb_true_r.
      destruct Hmp as [H|H]; apply isEmpty_true in H; rewrite H;
        [reflexivity|apply orb_true_r]. }
    split.
    + intros w' H. unfold obtainOperation. rewrite bind_getC, Hd, H. reflexivity.
    + intros e w' H. unfold obtainOperation. rewrite bind_getC, Hd, H.
      destruct (nonEmpty _); reflexivity.
  - apply obtainOperation_mnemonic_path.
  - apply obtainOperation_mnemonic_validator.
  - intros Hm Hp Hv Hk. flags. unfold obtainOperation, nonEmpty.
    rewrite bind_getC, Hm, Hp, Hv, Hk. reflexivity.
  - apply obtainOperation_private_key.
  - intros Hm Hk Hv. flags. unfold obtainOperation, nonEmpty.
    rewrite bind_getC, Hm, Hk, Hv. reflexivity.
  - destruct (string_empty_dec (mnemonic (cmd w)));
      destruct (string_empty_dec (path (cmd w)));
      destruct (string_empty_dec (privateKey (cmd w)));
      destruct (string_empty_dec (validator (cmd w))); tauto.
Qed.

(** C3.  When the scan of a mnemonic-and-validator run has gone through all
    1024 indices without a match, the obtaining step succeeds and the signed
    operation is still nil; validation reports success all the same; and
    unless JSON output or offline mode was chosen the run carries on into the
    broadcast, where the nil operation is what the submitter is given. *)
Theorem exhausted_scan_broadcasts_nil w w1 w2 w3 seed vi :
  setup w = (Ok tt, w1) ->
  runObtainChainInfo w1 = (Ok tt, w2) ->
  prepareOffline (cmd w2) = false ->
  generateDomain w2 = (Ok tt, w3) ->
  mnemonic (cmd w3) <> "" -> path (cmd w3) = "" -> validator (cmd w3) <> "" ->
  signedOperation (cmd w3) = None ->
  SeedFromMnemonic (mnemonic (cmd w3)) = Success seed ->
  FetchValidatorInfo (chainInfo (cmd w3)) (validator (cmd w3)) = Success vi ->
  (forall j, 0 <= j < 1024 -> missesAt seed vi j) ->
  obtainOperation w3 = (Ok tt, w3)
  /\ signedOperation (cmd (snd (obtainOperation w3))) = None
  /\ validateOperation w3 = (Ok (true, ""), w3)
  /\ (json (cmd w3) || offline (cmd w3) = true -> process w = (Ok tt, w3))
  /\ (json (cmd w3) || offline (cmd w3) = false ->
      process w = broadcastOperation w3
      /\ forall cl submit,
          consensusClient (cmd w3) = Some cl ->
          VoluntaryExitSubmitter cl = Some submit ->
          process w = lift (submit None)
                        (mkWorld (cmd w3) (rnd w3) (submitted w3 ++ [None]))).
Proof.
  intros H1 H2 Hp H3 Hm Hpa Hv Hnil Hs Hf Hmiss.
  assert (Ho : obtainOperation w3 = (Ok tt, w3)).
  { rewrite obtainOperation_mnemonic_validator by assumption.
    rewrite (generateOperationFromMnemonicAndValidator_scan w3 seed vi Hs Hf).
    apply scan_exhausted. exact Hmiss. }
  split; [exact Ho|]. split; [rewrite Ho; exact Hnil|]. split; [reflexivity|].
  pose proof (process_after_obtain w w1 w2 w3 w3 H1 H2 Hp H3 Ho) as Hproc.
  split.
  - intros Hflag. rewrite Hproc, Hflag. reflexivity.
  - intros Hflag. rewrite Hproc, Hflag. split; [reflexivity|].
    intros cl submit Hc Hsub. unfold broadcastOperation.
    rewrite bind_getC, Hc, Hsub, Hnil. reflexivity.
Qed.

End Dispatch.

Section RoundTrip.

Context {T : Carriers} {E : Env}.

(** C5.  With the fuzz intensity at 0, an operation that the builder returns
    for a validator, an account whose public key is that validator's, an
    epoch and the run's signing domain is accepted by the verifier in any
    state that has the same domain and chain information. *)
Theorem built_operation_verifies (Hin : IntnInRange)
    validator acct epoch pk w sop w' :
  fuzziness = 0 ->
  BestPublicKey acct = Success pk ->
  BLSPublicKeyFromBytes (beacon.Pubkey validator) = Success pk ->
  FetchValidatorInfo (chainInfo (cmd w)) (fmtDec (beacon.Index validator))
    = Success validator ->
  SignVerifies acct pk (domain (cmd w)) ->
  createSignedOperation validator acct epoch w = (Ok sop, w') ->
  forall v,
    domain (cmd v) = domain (cmd w) ->
    chainInfo (cmd v) = chainInfo (cmd w) ->
    verifySignedOperation (Some sop) v = (Ok tt, v).
Proof.
  intros Hfz Hpk Hvk Hreg Hcontract Hbuild v Hdom Hci.
  apply createSignedOperation_Ok_inv in Hbuild.
  destruct Hbuild as (root & sig & Hroot & Hsig & Hm & Hs & _).
  cbn zeta in *.
  rewrite !fuzzedMessage_off in * by assumption.
  rewrite !fuzzedBuffer_off in * by assumption.
  destruct (Hcontract root sig Hsig) as (signingRoot & s & Hsr & Hparse & Hver).
  unfold verifySignedOperation.
  rewrite Hm, Hs.
  unfold wrapped at 1, bind at 1, lift at 1. rewrite Hroot. cbn [wrapOutcome].
  rewrite (copy_fresh _ sig eq_refl), Hparse, bind_ret, bind_getC, Hdom.
  unfold wrapped at 1, bind at 1, lift at 1. rewrite Hsr. cbn [wrapOutcome].
  cbn [phase0.ValidatorIndex]. rewrite Hci.
  erewrite bind_lift_Success by exact Hreg.
  rewrite (copy_fresh _ (beacon.Pubkey validator) eq_refl).
  unfold wrapped at 1, bind at 1, lift at 1. rewrite Hvk. cbn [wrapOutcome].
  rewrite Hver. reflexivity.
Qed.

End RoundTrip.

Section MalformedInput.

Context {T : Carriers} {E : Env}.

Lemma noKeyMaterial_dispatch c :
  noKeyMaterial c ->
  (isEmpty (mnemonic c) || isEmpty (path c))
    && isEmpty (privateKey c) && isEmpty (validator c) = true.
Proof.
  intros (Hmp & Hk & Hv). rewrite Hk, Hv, !andb_true_r.
  destruct Hmp as [->| ->]; [reflexivity|apply orb_true_r].
Qed.

Lemma obtainGenesisValidatorsRoot_cases w :
  (exists r, obtainGenesisValidatorsRoot w = (Ok r, w))
  \/ (exists e, obtainGenesisValidatorsRoot w = (Err e, w)).
Proof.
  unfold obtainGenesisValidatorsRoot. rewrite bind_getC.
  destruct (nonEmpty _); [|left; eexists; reflexivity].
  unfold wrapped, bind, lift.
  destruct (DecodeString _); cbn; [|right; eexists; reflexivity].
  destruct (negb _); [right|left]; eexists; reflexivity.
Qed.

Lemma obtainGenesisValidatorsRoot_rejects w :
  badHex phase0.RootLength (genesisValidatorsRoot (cmd w)) ->
  exists e, obtainGenesisValidatorsRoot w = (Err e, w).
Proof.
  intros (Hne & Hbad). apply nonEmpty_true in Hne.
  unfold obtainGenesisValidatorsRoot. rewrite bind_getC, Hne.
  unfold wrapped, bind, lift.
  destruct (DecodeString _) as [bs|e] eqn:Hd; cbn; [|eexists; reflexivity].
  specialize (Hbad bs eq_refl). apply Nat.eqb_neq in Hbad. rewrite Hbad.
  eexists; reflexivity.
Qed.

Lemma obtainForkVersion_rejects w :
  badHex phase0.ForkVersionLength (forkVersion (cmd w)) ->
  exists e, obtainForkVersion w = (Err e, w).
Proof.
  intros (Hne & Hbad). apply nonEmpty_true in Hne.
  unfold obtainForkVersion. rewrite bind_getC, Hne.
  unfold wrapped, bind, lift.
  destruct (DecodeString _) as [bs|e] eqn:Hd; cbn; [|eexists; reflexivity].
  specialize (Hbad bs eq_refl). apply Nat.eqb_neq in Hbad. rewrite Hbad.
  eexists; reflexivity.
Qed.

Lemma generateDomain_rejects w :
  badHex phase0.ForkVersionLength (forkVersion (cmd w))
  \/ badHex phase0.RootLength (genesisValidatorsRoot (cmd w)) ->
  exists e, generateDomain w = (Err e, w).
Proof.
  intros [Hf|Hg]; unfold generateDomain.
  - destruct (obtainGenesisValidatorsRoot_cases w) as [(r & Hr)|(e & He)].
    + rewrite (bind_Ok _ _ _ _ _ Hr).
      destruct (obtainForkVersion_rejects w Hf) as (e & He).
      rewrite (bind_Err _ _ _ _ _ He). eexists; reflexivity.
    + rewrite (bind_Err _ _ _ _ _ He). eexists; reflexivity.
  - destruct (obtainGenesisValidatorsRoot_rejects w Hg) as (e & He).
    rewrite (bind_Err _ _ _ _ _ He). eexists; reflexivity.
Qed.

Lemma jsonUnmarshal_invalid data w :
  jsonValid data = false -> jsonUnmarshal data w = (Err jsonSyntaxError, w).
Proof. intros H. unfold jsonUnmarshal. rewrite H. reflexivity. Qed.

(** C8, as the code has it.  A malformed input fails the run, with the
    command's signed operation untouched and nothing submitted, wherever the
    run consults it: a path that does not match the validator pattern when it
    comes with a mnemonic; a fork version or genesis validators root that is
    supplied and does not decode to its fixed length, once the run computes
    the domain; a file or an input that is not valid JSON when there is no key
    material, an input that does not start with a brace being the name of
    the file to parse. *)
Theorem malformed_input_rejected_where_consulted :
  (forall w,
      mnemonic (cmd w) <> "" -> path (cmd w) <> "" ->
      validatorPathMatch (path (cmd w)) = false ->
      exists e, obtainOperation w = (Err e, w))
  /\ (forall w,
         badHex phase0.ForkVersionLength (forkVersion (cmd w))
         \/ badHex phase0.RootLength (genesisValidatorsRoot (cmd w)) ->
         exists e, generateDomain w = (Err e, w))
  /\ (forall w data,
         noKeyMaterial (cmd w) -> signedOperationInput (cmd w) = "" ->
         Stat exitOperationFilename = Success tt ->
         ReadFile exitOperationFilename = Success data ->
         jsonValid data = false ->
         exists e, obtainOperation w = (Err e, w))
  /\ (forall w,
         noKeyMaterial (cmd w) ->
         HasPrefix (signedOperationInput (cmd w)) "{" = true ->
         jsonValid (signedOperationInput (cmd w)) = false ->
         exists e, obtainOperation w = (Err e, w))
  /\ (forall w data,
         noKeyMaterial (cmd w) -> signedOperationInput (cmd w) <> "" ->
         HasPrefix (signedOperationInput (cmd w)) "{" = false ->
         ReadFile (signedOperationInput (cmd w)) = Success data ->
         jsonValid data = false ->
         exists e w',
           obtainOperation w = (Err e, w')
           /\ signedOperation (cmd w') = signedOperation (cmd w)
           /\ submitted w' = submitted w)
  /\ (forall w w1 w2,
         setup w = (Ok tt, w1) ->
         runObtainChainInfo w1 = (Ok tt, w2) ->
         prepareOffline (cmd w2) = false ->
         (forall e w3, generateDomain w2 = (Err e, w3) -> process w = (Err e, w3))
         /\ (forall w3 e w4, generateDomain w2 = (Ok tt, w3) ->
                             obtainOperation w3 = (Err e, w4) ->
                             process w = (Err e, w4))).
Proof.
  split; [|split; [|split; [|split; [|split]]]].
  - intros w Hm Hp Hbad.
    rewrite obtainOperation_mnemonic_path by assumption.
    unfold generateOperationFromMnemonicAndPath. rewrite bind_getC.
    destruct (SeedFromMnemonic (mnemonic (cmd w))) as [seed|e] eqn:Hs.
    + erewrite bind_lift_Success by reflexivity. rewrite Hbad.
      eexists; reflexivity.
    + erewrite bind_lift_Failure by reflexivity. eexists; reflexivity.
  - exact generateDomain_rejects.
  - intros w data Hnk Hin Hs Hr Hj.
    unfold obtainOperation. rewrite bind_getC, (noKeyMaterial_dispatch _ Hnk).
    unfold obtainOperationFromFileOrInput. rewrite bind_getC, Hin.
    cbn [nonEmpty isEmpty negb]. unfold obtainOperationFromFile.
    unfold wrapped at 1, bind at 1, lift at 1. rewrite Hs. cbn [wrapOutcome].
    unfold wrapped at 1, bind at 1, lift at 1. rewrite Hr. cbn [wrapOutcome].
    unfold wrapped at 1, bind at 1. rewrite (jsonUnmarshal_invalid _ _ Hj).
    cbn [wrapOutcome]. rewrite Hin. eexists; reflexivity.
  - intros w Hnk Hp Hj.
    assert (Hin : nonEmpty (signedOperationInput (cmd w)) = true).
    { destruct (signedOperationInput (cmd w)); [discriminate Hp|reflexivity]. }
    unfold obtainOperation. rewrite bind_getC, (noKeyMaterial_dispatch _ Hnk).
    unfold obtainOperationFromFileOrInput. rewrite bind_getC, Hin.
    unfold obtainOperationFromInput. rewrite bind_getC, Hp. cbn [negb].
    rewrite bind_ret, bind_getC.
    unfold wrapped at 1, bind at 1. rewrite (jsonUnmarshal_invalid _ _ Hj).
    cbn [wrapOutcome]. rewrite Hin. eexists; reflexivity.
  - intros w data Hnk Hne Hp Hr Hj. apply nonEmpty_true in Hne.
    unfold obtainOperation. rewrite bind_getC, (noKeyMaterial_dispatch _ Hnk).
    unfold obtainOperationFromFileOrInput. rewrite bind_getC, Hne.
    unfold obtainOperationFromInput. rewrite bind_getC, Hp. cbn [negb].
    unfold wrapped at 1, bind at 1 2, lift at 1. rewrite Hr. cbn [wrapOutcome modifyC].
    rewrite bind_getC. cbn [cmd set_signedOperationInput signedOperationInput].
    unfold wrapped at 1, bind at 1. rewrite (jsonUnmarshal_invalid _ _ Hj).
    cbn [wrapOutcome cmd set_signedOperationInput signedOperationInput].
    destruct (nonEmpty data); eexists; eexists; (split; [reflexivity|split; reflexivity]).
  - intros w w1 w2 H1 H2 Hp. split.
    + intros e w3. apply process_fails_in_domain with (w1 := w1) (w2 := w2); assumption.
    + intros w3 e w4. apply process_fails_in_obtain with (w1 := w1) (w2 := w2); assumption.
Qed.

End MalformedInput.

(** * The claims on the concrete network *)

Section OnTestnet.

Import Testnet.

Lemma testnet_keeps_flags s : @ChainInfoKeepsFlags carriers (env s).
Proof. intros c; split; reflexivity. Qed.

Lemma pad_length n l : List.length (pad n l) = n.
Proof.
  unfold pad. rewrite length_firstn, length_app. unfold zeroBytes.
  rewrite repeat_length. lia.
Qed.

Lemma testnet_sign_verifies s sk dom :
  @SignVerifies carriers (env s) sk (publicOf sk) dom.
Proof.
  intros root sig Hsig. cbn in Hsig. unfold signWith in Hsig.
  inversion Hsig; subst sig; clear Hsig.
  exists (mix root dom), (pad 96 (mix root dom ++ publicOf sk)%list).
  split; [reflexivity|]. split.
  - change (signatureFromBytes (pad 96 (mix root dom ++ publicOf sk)%list)
            = Success (pad 96 (mix root dom ++ publicOf sk)%list)).
    unfold signatureFromBytes. rewrite pad_length. reflexivity.
  - change (verify (pad 96 (mix root dom ++ publicOf sk)%list) (mix root dom)
              (publicOf sk) = true).
    unfold verify. apply bytesEqual_true. reflexivity.
Qed.

Lemma below_forallb (P : Z -> bool) (n : nat) :
  forallb P (map Z.of_nat (seq 0 n)) = true ->
  forall j, 0 <= j < Z.of_nat n -> P j = true.
Proof.
  intros H j Hj. rewrite forallb_forall in H. apply H.
  apply in_map_iff. exists (Z.to_nat j). split; [lia|].
  apply in_seq. lia.
Qed.

(** No index below [n] derives the public key of [vi] from ["abandon"]. *)
Lemma testnet_misses s vi (n : nat) :
  forallb (fun j => negb (bytesEqual (publicOf (keyAt j)) (beacon.Pubkey vi)))
          (map Z.of_nat (seq 0 n)) = true ->
  forall j, 0 <= j < Z.of_nat n ->
            @missesAt carriers (env s) (list_byte_of_string "abandon") vi j.
Proof.
  intros H j Hj. exists (keyAt j). split; [reflexivity|].
  apply bytesEqual_false. apply negb_true_iff.
  apply (below_forallb _ n H j Hj).
Qed.

(** C6 on the network: at intensity 0 the exit of validator 7 comes back as it
    went in, at intensity 100 both of its fields are drawn afresh. *)
Lemma fuzz_checkpoints_follow_intensity_witness :
  let op := phase0.mkVoluntaryExit 194048 7 in
  let w := start blank in
  (@IntnInRange carriers (env (setting 0 5))
   /\ @fuzziness carriers (env (setting 0 5)) = 0
   /\ fst (@fuzzExitMessage carriers (env (setting 0 5)) op w) = Ok op)
  /\ (@IntnInRange carriers (env (setting 100 5))
      /\ @fuzziness carriers (env (setting 100 5)) = 100
      /\ fst (@fuzzExitMessage carriers (env (setting 100 5)) op w)
         = Ok (phase0.mkVoluntaryExit 10113 16838)).
Proof.
  cbn zeta. split.
  - split; [apply testnet_intn_in_range|]. split; [reflexivity|].
    destruct (@fuzz_checkpoints_follow_intensity carriers (env (setting 0 5))
                (testnet_intn_in_range _)) as (_ & _ & _ & H0 & _).
    destruct (H0 eq_refl (phase0.mkVoluntaryExit 194048 7) [] [] (start blank))
      as (H & _).
    exact H.
  - split; [apply testnet_intn_in_range|]. split; [reflexivity|].
    destruct (@fuzz_checkpoints_follow_intensity carriers (env (setting 100 5))
                (testnet_intn_in_range _)) as (_ & _ & _ & _ & H100).
    destruct (H100 eq_refl (phase0.mkVoluntaryExit 194048 7) [] [] (start blank))
      as (H & _).
    exact H.
Defined.

(** C10 on the network: at intensity 100 the checkpoint before signing hands
    back the message with a freshly drawn validator index next to the root,
    and in the builder the message whose root was taken is not the message
    that is returned. *)
Lemma later_checkpoints_fuzz_message_again_witness :
  let op := phase0.mkVoluntaryExit 194048 7 in
  let w := start blank in
  @IntnInRange carriers (env (setting 100 5))
  /\ (exists op',
         phase0.ValidatorIndex op' = 16838
         /\ (exists root',
                fst (@fuzzExitMessageWithRoot carriers (env (setting 100 5)) op
                       (zeroBytes 32) w) = Ok (op', root'))
         /\ (exists sig',
                fst (@fuzzExitMessageWithSignature carriers (env (setting 100 5)) op
                       (zeroBytes 96) w) = Ok (op', sig')))
  /\ (exists sop w' op1 root,
         @createSignedOperation carriers (env (setting 100 5)) (validatorAt 7 2)
           (keyAt 2) 194048 w = (Ok sop, w')
         /\ @HashTreeRoot carriers (env (setting 100 5)) op1 = Success root
         /\ op1 = phase0.mkVoluntaryExit 10616 18655
         /\ phase0.Message sop = phase0.mkVoluntaryExit 9635 3206).
Proof.
  cbn zeta. split; [apply testnet_intn_in_range|].
  destruct (@later_checkpoints_fuzz_message_again carriers (env (setting 100 5))
              (testnet_intn_in_range _)) as (H & Hbuild).
  split.
  - destruct (H (phase0.mkVoluntaryExit 194048 7) (zeroBytes 32) (zeroBytes 96)
                (start blank))
      as (op' & w1 & _ & Hroot & Hsig & _ & _ & Hidx & _).
    exists op'. split; [|split; assumption].
    rewrite Hidx; [reflexivity|]. vm_compute. reflexivity.
  - set (r := @createSignedOperation carriers (env (setting 100 5)) (validatorAt 7 2)
                (keyAt 2) 194048 (start blank)).
    set (sop := match fst r with Ok x => x | _ => forged end).
    assert (Hr : r = (Ok sop, snd r)) by (vm_compute; reflexivity).
    destruct (Hbuild _ _ _ _ _ _ Hr)
      as (seed & w1 & op1 & root & w2 & op2 & root' & w3 & sig
          & Hseed & Hf1 & Hroot & _).
    exists sop, (snd r), op1, root.
    split; [exact Hr|]. split; [exact Hroot|].
    vm_compute in Hseed. inversion Hseed; subst seed w1; clear Hseed.
    vm_compute in Hf1. inversion Hf1; subst op1 w2; clear Hf1.
    split; [reflexivity|]. vm_compute. reflexivity.
Defined.

(** C7 on the network: tag [04000000], a genesis validators root of 32 bytes
    [2a], fork version [03000000]. *)
Lemma generateDomain_layout_witness :
  exists w',
    @generateDomain carriers (env (setting 0 5)) (start blank) = (Ok tt, w')
    /\ domain (cmd w') = ([x04; x00; x00; x00] ++ repeat x2a 28)%list.
Proof.
  destruct (@generateDomain_layout carriers (env (setting 0 5)) (start blank)
              (repeat x2a 32) [x03; x00; x00; x00] (repeat x2a 32)
              eq_refl eq_refl eq_refl eq_refl eq_refl eq_refl)
    as (w' & Hg & _ & Hfirst & Hskip & _).
  exists w'. split; [exact Hg|].
  rewrite <- (firstn_skipn 4 (domain (cmd w'))), Hfirst, Hskip. reflexivity.
Defined.

(** C2 on the network: validator 8 holds the key of index 1023 and is found
    there; validator 9 holds the key of index 1024 and the scan comes back
    empty-handed, without an error. *)
Lemma key_scan_first_match_or_silent_witness :
  let w8 := start (withInputs "abandon" "" "" "8") in
  let w9 := start (withInputs "abandon" "" "" "9") in
  @generateOperationFromMnemonicAndValidator carriers (env (setting 0 5)) w8
  = @bind carriers _ _
      (@wrapped carriers _
         (lift (@ParseAccount carriers (env (setting 0 5)) "abandon"
                  [validatorKeyPathAt 1023] true))
         "failed to create withdrawal account")
      (fun acct =>
         @generateOperationFromAccount carriers (env (setting 0 5))
           (validatorAt 8 1023) acct 194048)
      w8
  /\ @generateOperationFromMnemonicAndValidator carriers (env (setting 0 5)) w9
     = (Ok tt, w9).
Proof.
  cbn zeta. split.
  - destruct (@key_scan_first_match_or_silent carriers (env (setting 0 5))
                (start (withInputs "abandon" "" "" "8"))
                (list_byte_of_string "abandon") (validatorAt 8 1023)
                eq_refl eq_refl) as [Hfound _].
    apply (Hfound 1023 (keyAt 1023)); [lia| |reflexivity|reflexivity].
    apply (testnet_misses (setting 0 5) (validatorAt 8 1023) 1023).
    vm_compute. reflexivity.
  - destruct (@key_scan_first_match_or_silent carriers (env (setting 0 5))
                (start (withInputs "abandon" "" "" "9"))
                (list_byte_of_string "abandon") (validatorAt 9 1024)
                eq_refl eq_refl) as [_ Hnone].
    apply Hnone.
    apply (testnet_misses (setting 0 5) (validatorAt 9 1024) 1024).
    vm_compute. reflexivity.
Defined.

(** C3 on the network: the online run for validator 9 ends in a submission of
    the nil operation. *)
Lemma exhausted_scan_broadcasts_nil_witness :
  let w := start (withInputs "abandon" "" "" "9") in
  fst (@process carriers (env (setting 0 5)) w) = Ok tt
  /\ submitted (snd (@process carriers (env (setting 0 5)) w)) = [None].
Proof.
  cbn zeta.
  set (w := start (withInputs "abandon" "" "" "9")).
  set (w1 := snd (@setup carriers (env (setting 0 5)) w)).
  assert (H1 : @setup carriers (env (setting 0 5)) w = (Ok tt, w1))
    by (vm_compute; reflexivity).
  assert (H2 : @runObtainChainInfo carriers (env (setting 0 5)) w1 = (Ok tt, w1))
    by (vm_compute; reflexivity).
  set (w3 := snd (@generateDomain carriers (env (setting 0 5)) w1)).
  assert (H3 : @generateDomain carriers (env (setting 0 5)) w1 = (Ok tt, w3))
    by (vm_compute; reflexivity).
  destruct (@exhausted_scan_broadcasts_nil carriers (env (setting 0 5))
              w w1 w1 w3 (list_byte_of_string "abandon") (validatorAt 9 1024)
              H1 H2 eq_refl H3
              ltac:(discriminate) eq_refl ltac:(discriminate) eq_refl eq_refl eq_refl
              (testnet_misses (setting 0 5) (validatorAt 9 1024) 1024
                 ltac:(vm_compute; reflexivity)))
    as (_ & _ & _ & _ & Hb).
  destruct (Hb eq_refl) as [_ Hsub].
  rewrite (Hsub tt (fun _ => Success tt) eq_refl eq_refl).
  split; reflexivity.
Defined.

(** C9 on the network: with JSON output asked for, the run for the private
    key of validator 7 succeeds and submits nothing. *)
Lemma offline_or_json_never_submits_witness :
  let w := start (withJSON (withInputs "" "" key7 "")) in
  submitted (snd (@process carriers (env (setting 0 5)) w)) = []
  /\ fst (@process carriers (env (setting 0 5)) w) = Ok tt.
Proof.
  cbn zeta.
  set (w := start (withJSON (withInputs "" "" key7 ""))).
  destruct (@offline_or_json_never_submits carriers (env (setting 0 5)) w
              (testnet_keeps_flags _) eq_refl) as [Hs Hrun].
  split; [exact Hs|].
  set (w1 := snd (@setup carriers (env (setting 0 5)) w)).
  set (w3 := snd (@generateDomain carriers (env (setting 0 5)) w1)).
  set (w4 := snd (@obtainOperation carriers (env (setting 0 5)) w3)).
  assert (H1 : @setup carriers (env (setting 0 5)) w = (Ok tt, w1))
    by (vm_compute; reflexivity).
  assert (H2 : @runObtainChainInfo carriers (env (setting 0 5)) w1 = (Ok tt, w1))
    by (vm_compute; reflexivity).
  assert (H3 : @generateDomain carriers (env (setting 0 5)) w1 = (Ok tt, w3))
    by (vm_compute; reflexivity).
  assert (H4 : @obtainOperation carriers (env (setting 0 5)) w3 = (Ok tt, w4))
    by (vm_compute; reflexivity).
  destruct (Hrun w1 w1 w3 w4 H1 H2 eq_refl H3 H4) as (Hp & _).
  rewrite Hp. reflexivity.
Defined.

(** C5 on the network: validator 7's own key at intensity 0. *)
Lemma built_operation_verifies_witness :
  exists sop w',
    @createSignedOperation carriers (env (setting 0 5)) (validatorAt 7 2) (keyAt 2)
      194048 (start blank) = (Ok sop, w')
    /\ @verifySignedOperation carriers (env (setting 0 5)) (Some sop) (start blank)
       = (Ok tt, start blank).
Proof.
  set (r := @createSignedOperation carriers (env (setting 0 5)) (validatorAt 7 2)
              (keyAt 2) 194048 (start blank)).
  set (sop := match fst r with Ok x => x | _ => forged end).
  assert (Hr : r = (Ok sop, snd r)) by (vm_compute; reflexivity).
  exists sop, (snd r). split; [exact Hr|].
  apply (@built_operation_verifies carriers (env (setting 0 5))
           (testnet_intn_in_range _) (validatorAt 7 2) (keyAt 2) 194048
           (publicOf (keyAt 2)) (start blank) sop (snd r));
    try reflexivity; try exact Hr.
  apply testnet_sign_verifies.
Defined.

(** C1 on the network: the forged operation in the file of the standard name
    is turned down by the verifier, and the run fails with its reason. *)
Lemma validation_step_checks_nothing_witness :
  @obtainOperation carriers (env (settingWithFiles 0 5)) (start blank)
  = (Err (Wrap "signature does not verify" noInputMessage),
     mkWorld (set_signedOperation (Some forged) blank) 1 []).
Proof.
  destruct (@validation_step_checks_nothing carriers (env (settingWithFiles 0 5)))
    as (_ & _ & _ & Hfile).
  apply (Hfile (start blank) forgedText
           (mkWorld (set_signedOperation (Some forged) blank) 1 []));
    reflexivity.
Defined.

(** C4 on the network: a mnemonic with a path wins over a private key and a
    validator given next to them. *)
Lemma obtainOperation_precedence_witness :
  let w := start (withInputs "abandon" "m/12381/3600/2/0/0" (fmtHex (keyAt 1023)) "9") in
  @obtainOperation carriers (env (setting 0 5)) w
  = @generateOperationFromMnemonicAndPath carriers (env (setting 0 5)) w.
Proof.
  cbn zeta.
  destruct (@obtainOperation_precedence carriers (env (setting 0 5))
              (start (withInputs "abandon" "m/12381/3600/2/0/0"
                        (fmtHex (keyAt 1023)) "9")))
    as (_ & Hpath & _).
  apply Hpath; discriminate.
Defined.

(** C8 on the network: a path that is no validator path, next to a mnemonic. *)
Lemma malformed_input_rejected_where_consulted_witness :
  let w := start (withInputs "abandon" "garbage" "" "") in
  validatorPathMatch "garbage" = false
  /\ exists e, @obtainOperation carriers (env (setting 0 5)) w = (Err e, w).
Proof.
  cbn zeta. split; [reflexivity|].
  destruct (@malformed_input_rejected_where_consulted carriers (env (setting 0 5)))
    as (Hpath & _).
  apply Hpath; [discriminate|discriminate|reflexivity].
Defined.

(** C1 fails as stated: at intensity 100 the operation built from the private
    key of validator 7 is one the verifier rejects, and the run succeeds and
    submits it all the same. *)
Lemma validation_does_not_run_verifier :
  let run := @process carriers (env (setting 100 5))
               (start (withInputs "" "" key7 "")) in
  fst run = Ok tt
  /\ exists op,
      signedOperation (cmd (snd run)) = Some op
      /\ submitted (snd run) = [Some op]
      /\ fst (@verifySignedOperation carriers (env (setting 100 5)) (Some op) (snd run))
         = Err "unknown validator".
Proof.
  cbn zeta. split; [vm_compute; reflexivity|].
  eexists. split; [vm_compute; reflexivity|].
  split; vm_compute; reflexivity.
Qed.

(** C4 fails as stated: a mnemonic and path of validator 7, the private key of
    validator 8 and the index of validator 9 are supplied together, and the
    step succeeds with an exit of validator 7. *)
Lemma conflicting_inputs_accepted :
  let w := start (withInputs "abandon" "m/12381/3600/2/0/0" (fmtHex (keyAt 1023)) "9") in
  let run := @obtainOperation carriers (env (setting 0 5)) w in
  fst run = Ok tt
  /\ option_map (fun op => phase0.ValidatorIndex (phase0.Message op))
       (signedOperation (cmd (snd run))) = Some 7.
Proof. cbn zeta. split; vm_compute; reflexivity. Qed.

(** C8 fails as stated: a path that is no validator path, given without a
    mnemonic next to a private key, is never looked at; the run succeeds and
    submits an operation. *)
Lemma unused_malformed_path_accepted :
  let run := @process carriers (env (setting 0 5))
               (start (withInputs "" "garbage" key7 "")) in
  validatorPathMatch "garbage" = false
  /\ fst run = Ok tt
  /\ exists op, submitted (snd run) = [Some op].
Proof.
  cbn zeta. split; [reflexivity|]. split; [vm_compute; reflexivity|].
  eexists. vm_compute. reflexivity.
Qed.

End OnTestnet.

(** * Further properties of the code *)

Section ChainStatus.

Import chainstatus.

Lemma uint64_mod z : phase0.uint64 z = z mod 2 ^ 64.
Proof. reflexivity. Qed.

Lemma uint64_id z : 0 <= z < 2 ^ 64 -> phase0.uint64 z = z.
Proof. intros H. rewrite uint64_mod. apply Z.mod_small. assumption. Qed.

Lemma divide_Ok a b : b <> 0 -> divide a b = Ok (a / b).
Proof. intros H. unfold divide. apply Z.eqb_neq in H. rewrite H. reflexivity. Qed.

(** X16.  For a slot and a positive number of slots per epoch, the start
    slot that [chain status] prints is a multiple of the epoch length, is the
    first slot of the current epoch, and the current slot lies fewer than one
    epoch after it.  The end of the printed range is the last slot of the
    epoch as long as that slot fits 64 bits; in the last epoch of the 64-bit
    range it wraps around and is printed below the start. *)
Theorem epoch_slots_contain_current_slot curSlot slotsPerEpoch :
  0 <= curSlot < 2 ^ 64 ->
  0 < slotsPerEpoch < 2 ^ 64 ->
  exists start,
    epochStartSlot curSlot slotsPerEpoch = Ok start
    /\ curEpoch curSlot slotsPerEpoch = Ok (start / slotsPerEpoch)
    /\ start mod slotsPerEpoch = 0
    /\ start <= curSlot < start + slotsPerEpoch
    /\ (start + slotsPerEpoch <= 2 ^ 64 ->
        epochEndSlot start slotsPerEpoch = start + slotsPerEpoch - 1)
    /\ (2 ^ 64 < start + slotsPerEpoch ->
        epochEndSlot start slotsPerEpoch = start + slotsPerEpoch - 1 - 2 ^ 64).
Proof.
  intros Hs He.
  pose proof (Z.div_mod curSlot slotsPerEpoch ltac:(lia)) as Hdm.
  pose proof (Z.mod_pos_bound curSlot slotsPerEpoch ltac:(lia)) as Hm.
  assert (Hq : 0 <= curSlot / slotsPerEpoch) by (apply Z.div_pos; lia).
  assert (Hstart : phase0.uint64 (curSlot / slotsPerEpoch * slotsPerEpoch)
                   = curSlot / slotsPerEpoch * slotsPerEpoch).
  { apply uint64_id. nia. }
  exists (curSlot / slotsPerEpoch * slotsPerEpoch).
  unfold epochStartSlot, curEpoch. rewrite divide_Ok by lia. rewrite Hstart.
  split; [reflexivity|].
  split; [rewrite Z.div_mul by lia; reflexivity|].
  split; [apply Z.mod_mul; lia|].
  split; [nia|].
  unfold epochEndSlot. rewrite !uint64_mod, Zminus_mod_idemp_l.
  split; intros H.
  - apply Z.mod_small. nia.
  - rewrite <- (Z.mod_add _ (-1) (2 ^ 64)) by lia.
    rewrite Z.mod_small; nia.
Qed.

(** X17.  The number of slots until the next epoch that [chain status]
    prints is between 1 and the epoch length, and the current slot plus that
    number is the first slot of the next epoch; this holds also when that
    slot no longer fits 64 bits, the wrap-arounds cancelling out. *)
Theorem slots_until_next_epoch_in_range curSlot slotsPerEpoch :
  0 <= curSlot < 2 ^ 64 ->
  0 < slotsPerEpoch < 2 ^ 64 ->
  exists n,
    slotsUntilNextEpoch curSlot slotsPerEpoch = Ok n
    /\ 1 <= n <= slotsPerEpoch
    /\ curSlot + n = (curSlot / slotsPerEpoch + 1) * slotsPerEpoch.
Proof.
  intros Hs He.
  pose proof (Z.div_mod curSlot slotsPerEpoch ltac:(lia)) as Hdm.
  pose proof (Z.mod_pos_bound curSlot slotsPerEpoch ltac:(lia)) as Hm.
  exists ((curSlot / slotsPerEpoch + 1) * slotsPerEpoch - curSlot).
  unfold slotsUntilNextEpoch. rewrite divide_Ok by lia.
  split.
  - f_equal. rewrite !uint64_mod.
    rewrite Z.mul_mod_idemp_l by lia. rewrite Zminus_mod_idemp_l.
    apply Z.mod_small. nia.
  - split; nia.
Qed.

(** X18.  The epoch distances of the verbose report are unsigned: a
    justified or finalized epoch at or behind the current one gives the plain
    difference, one ahead of it (a node ahead of the local clock) gives the
    difference wrapped around 2^64. *)
Theorem epoch_distance_wraps currentEpoch epoch :
  0 <= currentEpoch < 2 ^ 64 ->
  0 <= epoch < 2 ^ 64 ->
  0 <= distance currentEpoch epoch < 2 ^ 64
  /\ (epoch <= currentEpoch -> distance currentEpoch epoch = currentEpoch - epoch)
  /\ (currentEpoch < epoch ->
      distance currentEpoch epoch = 2 ^ 64 - (epoch - currentEpoch)).
Proof.
  intros Hc He. unfold distance. rewrite uint64_mod.
  split; [apply Z.mod_pos_bound; lia|].
  split; intros H.
  - apply Z.mod_small. lia.
  - rewrite <- (Z.mod_add _ 1 (2 ^ 64)) by lia.
    rewrite Z.mod_small; lia.
Qed.

Lemma epoch_slots_contain_current_slot_witness :
  epochStartSlot 100 32 = Ok 96
  /\ curEpoch 100 32 = Ok 3
  /\ epochEndSlot 96 32 = 127
  /\ epochStartSlot (2 ^ 64 - 1) 10 = Ok (2 ^ 64 - 6)
  /\ epochEndSlot (2 ^ 64 - 6) 10 = 3.
Proof.
  destruct (epoch_slots_contain_current_slot 100 32 ltac:(lia) ltac:(lia))
    as (start & Hstart & Hepoch & _ & _ & Hend & _).
  assert (Hs : start = 96) by (vm_compute in Hstart; congruence).
  subst start.
  split; [exact Hstart|]. split; [exact Hepoch|].
  split; [apply Hend; lia|].
  destruct (epoch_slots_contain_current_slot (2 ^ 64 - 1) 10 ltac:(lia) ltac:(lia))
    as (start & Hstart' & _ & _ & _ & _ & Hwrap).
  assert (Hs : start = 2 ^ 64 - 6).
  { vm_compute in Hstart'. injection Hstart' as <-. reflexivity. }
  subst start.
  split; [exact Hstart'|]. rewrite Hwrap by lia. reflexivity.
Defined.

Lemma slots_until_next_epoch_in_range_witness :
  slotsUntilNextEpoch 100 32 = Ok 28
  /\ slotsUntilNextEpoch (2 ^ 64 - 1) 10 = Ok 5.
Proof.
  split.
  - destruct (slots_until_next_epoch_in_range 100 32 ltac:(lia) ltac:(lia))
      as (n & Hn & _ & Hsum).
    rewrite Hn. f_equal. change (100 / 32) with 3 in Hsum. lia.
  - destruct (slots_until_next_epoch_in_range (2 ^ 64 - 1) 10 ltac:(lia) ltac:(lia))
      as (n & Hn & _ & Hsum).
    rewrite Hn. f_equal.
    change ((2 ^ 64 - 1) / 10) with 1844674407370955161 in Hsum. lia.
Defined.

Lemma epoch_distance_wraps_witness :
  distance 10 7 = 3 /\ distance 7 10 = 2 ^ 64 - 3.
Proof.
  destruct (epoch_distance_wraps 10 7 ltac:(lia) ltac:(lia)) as (_ & Hpos & _).
  destruct (epoch_distance_wraps 7 10 ltac:(lia) ltac:(lia)) as (_ & _ & Hneg).
  split; [apply Hpos; lia|]. rewrite Hneg by lia. reflexivity.
Defined.

End ChainStatus.

Section HexInput.

Context {T : Carriers} {E : Env}.

Lemma string_pair_ind (P : string -> Prop) :
  P EmptyString ->
  (forall a, P (String a EmptyString)) ->
  (forall a b r, P r -> P (String a (String b r))) ->
  forall s, P s.
Proof.
  intros H0 H1 H2 s.
  assert (H : P s /\ forall a, P (String a s)).
  { induction s as [|b r [IH1 IH2]]; split; auto. }
  exact (proj1 H).
Qed.

Lemma DecodeString_sound s :
  forall bs, DecodeString s = Success bs ->
             String.length s = (2 * List.length bs)%nat /\ allHex s = true.
Proof.
  induction s as [|a|a b r IH] using string_pair_ind; intros bs H.
  - inversion H. split; reflexivity.
  - cbn in H. destruct (fromHexChar a); discriminate.
  - cbn [DecodeString] in H. cbn [allHex String.length].
    destruct (fromHexChar a) as [x|]; [|discriminate].
    destruct (fromHexChar b) as [y|]; [|discriminate].
    destruct (DecodeString r) as [bs'|e]; [|discriminate].
    inversion H; subst bs; clear H.
    destruct (IH bs' eq_refl) as [Hl Hh]. cbn [List.length]. split; [lia|exact Hh].
Qed.

Lemma DecodeString_complete s :
  allHex s = true ->
  forall n, String.length s = (2 * n)%nat ->
            exists bs, DecodeString s = Success bs /\ List.length bs = n.
Proof.
  induction s as [|a|a b r IH] using string_pair_ind; intros Hh n Hl.
  - exists []. split; [reflexivity|]. cbn in Hl. cbn. lia.
  - cbn in Hl. lia.
  - cbn [allHex] in Hh. cbn [String.length] in Hl. cbn [DecodeString].
    destruct (fromHexChar a) as [x|]; [|discriminate].
    destruct (fromHexChar b) as [y|]; [|discriminate].
    destruct n as [|n]; [lia|].
    destruct (IH Hh n ltac:(lia)) as (bs & Hd & Hn).
    rewrite Hd. eexists. split; [reflexivity|]. cbn. lia.
Qed.

Lemma decodes_to_length_iff n s :
  (exists bs, DecodeString s = Success bs /\ List.length bs = n)
  <-> hexDigits (2 * n) s.
Proof.
  split.
  - intros (bs & Hd & Hn). destruct (DecodeString_sound s bs Hd) as [Hl Hh].
    split; [lia|exact Hh].
  - intros [Hl Hh]. apply DecodeString_complete; assumption.
Qed.

Lemma obtainForkVersion_supplied w :
  forkVersion (cmd w) <> "" ->
  obtainForkVersion w =
  match DecodeString (TrimPrefix (forkVersion (cmd w)) "0x") with
  | Success version =>
      if Nat.eqb (List.length version) 4
      then (Ok (copy (zeroBytes 4) version), w)
      else (Err "invalid length for fork version", w)
  | Failure e => (Err (Wrap e "invalid fork version supplied"), w)
  end.
Proof.
  intros Hne. apply nonEmpty_true in Hne.
  unfold obtainForkVersion. rewrite bind_getC, Hne.
  unfold wrapped, bind, lift.
  destruct (DecodeString _); cbn; [|reflexivity].
  destruct (Nat.eqb _ _); reflexivity.
Qed.

Lemma obtainGenesisValidatorsRoot_supplied w :
  genesisValidatorsRoot (cmd w) <> "" ->
  obtainGenesisValidatorsRoot w =
  match DecodeString (TrimPrefix (genesisValidatorsRoot (cmd w)) "0x") with
  | Success root =>
      if Nat.eqb (List.length root) 32
      then (Ok (copy (zeroBytes 32) root), w)
      else (Err "invalid length for genesis validators root", w)
  | Failure e => (Err (Wrap e "invalid genesis validators root supplied"), w)
  end.
Proof.
  intros Hne. apply nonEmpty_true in Hne.
  unfold obtainGenesisValidatorsRoot. rewrite bind_getC, Hne.
  unfold wrapped, bind, lift.
  destruct (DecodeString _); cbn; [|reflexivity].
  destruct (Nat.eqb _ _); reflexivity.
Qed.

(** X1.  A fork version given on the command line is accepted exactly when,
    after one leading [0x] is taken off, it consists of 8 hex digits (of
    either case), and a genesis validators root exactly when it consists of
    64; what is returned is then the decoded bytes, whatever the chain
    information holds. *)
Theorem supplied_hex_accepted_iff w :
  (forkVersion (cmd w) <> "" ->
   ((exists v, obtainForkVersion w = (Ok v, w))
    <-> hexDigits 8 (TrimPrefix (forkVersion (cmd w)) "0x"))
   /\ (forall v w', obtainForkVersion w = (Ok v, w') ->
                    DecodeString (TrimPrefix (forkVersion (cmd w)) "0x") = Success v))
  /\ (genesisValidatorsRoot (cmd w) <> "" ->
      ((exists r, obtainGenesisValidatorsRoot w = (Ok r, w))
       <-> hexDigits 64 (TrimPrefix (genesisValidatorsRoot (cmd w)) "0x"))
      /\ (forall r w', obtainGenesisValidatorsRoot w = (Ok r, w') ->
                       DecodeString (TrimPrefix (genesisValidatorsRoot (cmd w)) "0x")
                       = Success r)).
Proof.
  split; intros Hne.
  - rewrite (obtainForkVersion_supplied w Hne).
    set (t := TrimPrefix (forkVersion (cmd w)) "0x").
    split; [split|].
    + intros (v & Hv). apply (decodes_to_length_iff 4 t).
      destruct (DecodeString t) as [bs|e] eqn:Hd; [|discriminate].
      destruct (Nat.eqb (List.length bs) 4) eqn:Hl; [|discriminate].
      exists bs. split; [reflexivity|]. apply Nat.eqb_eq. exact Hl.
    + intros Hh. apply (decodes_to_length_iff 4 t) in Hh.
      destruct Hh as (bs & Hd & Hl). rewrite Hd, Hl. cbn [Nat.eqb].
      eexists. reflexivity.
    + intros v w'. destruct (DecodeString t) as [bs|e] eqn:Hd; [|discriminate].
      destruct (Nat.eqb (List.length bs) 4) eqn:Hl; [|discriminate].
      apply Nat.eqb_eq in Hl. rewrite (copy_fresh 4 bs Hl).
      intros H. inversion H. reflexivity.
  - rewrite (obtainGenesisValidatorsRoot_supplied w Hne).
    set (t := TrimPrefix (genesisValidatorsRoot (cmd w)) "0x").
    split; [split|].
    + intros (v & Hv). apply (decodes_to_length_iff 32 t).
      destruct (DecodeString t) as [bs|e] eqn:Hd; [|discriminate].
      destruct (Nat.eqb (List.length bs) 32) eqn:Hl; [|discriminate].
      exists bs. split; [reflexivity|]. apply Nat.eqb_eq. exact Hl.
    + intros Hh. apply (decodes_to_length_iff 32 t) in Hh.
      destruct Hh as (bs & Hd & Hl). rewrite Hd, Hl, Nat.eqb_refl.
      eexists. reflexivity.
    + intros v w'. destruct (DecodeString t) as [bs|e] eqn:Hd; [|discriminate].
      destruct (Nat.eqb (List.length bs) 32) eqn:Hl; [|discriminate].
      apply Nat.eqb_eq in Hl. rewrite (copy_fresh 32 bs Hl).
      intros H. inversion H. reflexivity.
Qed.

End HexInput.

Section HexRoundTrip.

Context {T : Carriers} {E : Env}.

Lemma DecodeString_hexOfByte b s :
  DecodeString (hexOfByte b ++ s) =
  match DecodeString s with
  | Success bs => Success (b :: bs)
  | Failure e => Failure e
  end.
Proof. destruct b; reflexivity. Qed.

Lemma DecodeString_hexOfBytes bs : DecodeString (hexOfBytes bs) = Success bs.
Proof.
  induction bs as [|b r IH]; [reflexivity|].
  cbn [hexOfBytes]. rewrite DecodeString_hexOfByte, IH. reflexivity.
Qed.

Lemma substring_whole s : String.substring 0 (String.length s) s = s.
Proof. induction s as [|a r IH]; [reflexivity|]. cbn. rewrite IH. reflexivity. Qed.

Lemma TrimPrefix_fmtHex bs : bs <> [] -> TrimPrefix (fmtHex bs) "0x" = hexOfBytes bs.
Proof.
  intros Hne. destruct bs as [|b r]; [congruence|].
  unfold fmtHex, TrimPrefix.
  change ("0x" ++ hexOfBytes (b :: r))
    with (String "0" (String "x" (hexOfBytes (b :: r)))).
  cbn [String.prefix String.length Nat.sub String.substring].
  assert (Hp : forall x, String.prefix "" x = true) by (intros [|? ?]; reflexivity).
  rewrite Hp, Nat.sub_0_r. apply substring_whole.
Qed.

Lemma fmtHex_nonEmpty bs : bs <> [] -> fmtHex bs <> "".
Proof. destruct bs; [congruence|discriminate]. Qed.

Lemma obtainForkVersion_of_fmtHex w v :
  List.length v = 4%nat ->
  forkVersion (cmd w) = fmtHex v ->
  obtainForkVersion w = (Ok v, w).
Proof.
  intros Hl Hf.
  assert (Hne : v <> []) by (destruct v; [discriminate|congruence]).
  rewrite obtainForkVersion_supplied by (rewrite Hf; apply fmtHex_nonEmpty, Hne).
  rewrite Hf, (TrimPrefix_fmtHex v Hne), DecodeString_hexOfBytes, Hl.
  cbn [Nat.eqb]. rewrite (copy_fresh 4 v Hl). reflexivity.
Qed.

Lemma obtainGenesisValidatorsRoot_of_fmtHex w r :
  List.length r = 32%nat ->
  genesisValidatorsRoot (cmd w) = fmtHex r ->
  obtainGenesisValidatorsRoot w = (Ok r, w).
Proof.
  intros Hl Hf.
  assert (Hne : r <> []) by (destruct r; [discriminate|congruence]).
  rewrite obtainGenesisValidatorsRoot_supplied
    by (rewrite Hf; apply fmtHex_nonEmpty, Hne).
  rewrite Hf, (TrimPrefix_fmtHex r Hne), DecodeString_hexOfBytes, Hl, Nat.eqb_refl.
  rewrite (copy_fresh 32 r Hl). reflexivity.
Qed.

(** X2.  Giving the chain's own fork version and genesis validators root on
    the command line, written as [%#x] prints them, changes nothing: the
    domain generation ends the same way and stores the same domain as when
    both are left out. *)
Theorem explicit_chain_values_same_domain w :
  let ci := chainInfo (cmd w) in
  List.length (beacon.CurrentForkVersion ci) = 4%nat ->
  List.length (beacon.GenesisValidatorsRoot ci) = 32%nat ->
  forkVersion (cmd w) = "" ->
  genesisValidatorsRoot (cmd w) = "" ->
  let explicit :=
    mkWorld (set_forkVersion (fmtHex (beacon.CurrentForkVersion ci))
               (set_genesisValidatorsRoot (fmtHex (beacon.GenesisValidatorsRoot ci))
                  (cmd w)))
            (rnd w) (submitted w) in
  fst (generateDomain explicit) = fst (generateDomain w)
  /\ domain (cmd (snd (generateDomain explicit))) = domain (cmd (snd (generateDomain w))).
Proof.
  cbn zeta. intros Hf Hg Hfe Hge.
  set (explicit := mkWorld _ (rnd w) (submitted w)).
  assert (Hf' : obtainForkVersion explicit
                = (Ok (beacon.CurrentForkVersion (chainInfo (cmd w))), explicit))
    by (apply obtainForkVersion_of_fmtHex; [exact Hf|reflexivity]).
  assert (Hg' : obtainGenesisValidatorsRoot explicit
                = (Ok (beacon.GenesisValidatorsRoot (chainInfo (cmd w))), explicit))
    by (apply obtainGenesisValidatorsRoot_of_fmtHex; [exact Hg|reflexivity]).
  assert (Hf0 : obtainForkVersion w
                = (Ok (beacon.CurrentForkVersion (chainInfo (cmd w))), w)).
  { unfold obtainForkVersion, phase0.ForkVersionLength.
    rewrite bind_getC, Hfe. cbn [nonEmpty isEmpty negb ret].
    rewrite (copy_fresh _ _ Hf). reflexivity. }
  assert (Hg0 : obtainGenesisValidatorsRoot w
                = (Ok (beacon.GenesisValidatorsRoot (chainInfo (cmd w))), w)).
  { unfold obtainGenesisValidatorsRoot, phase0.RootLength. rewrite bind_getC, Hge.
    cbn [nonEmpty isEmpty negb ret]. rewrite (copy_fresh _ _ Hg). reflexivity. }
  unfold generateDomain.
  rewrite (bind_Ok _ _ _ _ _ Hg'), (bind_Ok _ _ _ _ _ Hf').
  rewrite (bind_Ok _ _ _ _ _ Hg0), (bind_Ok _ _ _ _ _ Hf0).
  unfold wrapped, bind, lift.
  destruct (HashTreeRootForkData _ _); split; reflexivity.
Qed.

End HexRoundTrip.

Section ScanPaths.

Context {T : Carriers} {E : Env}.

Lemma allDigits_NilEmpty d : allDigits (NilEmpty.string_of_uint d) = true.
Proof. induction d; cbn [NilEmpty.string_of_uint allDigits]; try rewrite IHd; reflexivity. Qed.

Lemma allDigits_fmtDec i : allDigits (fmtDec i) = true.
Proof.
  unfold fmtDec, NilZero.string_of_uint.
  destruct (N.to_uint (Z.to_N i)); try apply allDigits_NilEmpty. reflexivity.
Qed.

Lemma fmtDec_not_empty i : (0 < String.length (fmtDec i))%nat.
Proof.
  unfold fmtDec, NilZero.string_of_uint.
  destruct (N.to_uint (Z.to_N i)); cbn; lia.
Qed.

Lemma length_append a b :
  String.length (a ++ b) = (String.length a + String.length b)%nat.
Proof. induction a as [|c r IH]; [reflexivity|]. cbn. rewrite IH. reflexivity. Qed.

Lemma substring_append_left a b :
  String.substring 0 (String.length a) (a ++ b) = a.
Proof. induction a as [|c r IH]; [destruct b; reflexivity|]. cbn. rewrite IH. reflexivity. Qed.

Lemma substring_append_right a b :
  String.substring (String.length a) (String.length b) (a ++ b) = b.
Proof. induction a as [|c r IH]; [apply substring_whole|]. cbn. exact IH. Qed.

Lemma substring_append_middle a b c :
  String.substring (String.length a) (String.length b) (a ++ (b ++ c)) = b.
Proof.
  induction a as [|x r IH]; [exact (substring_append_left b c)|]. cbn. exact IH.
Qed.

Lemma append_assoc a b c : ((a ++ b) ++ c = a ++ (b ++ c))%string.
Proof. induction a as [|x r IH]; [reflexivity|]. cbn. rewrite IH. reflexivity. Qed.

(** X3.  Every path the key scan derives, whatever the index, is a path the
    validator pattern of the mnemonic-and-path flow accepts. *)
Theorem scanned_paths_match_validatorPath i :
  validatorPathMatch (validatorKeyPathAt i) = true.
Proof.
  unfold validatorPathMatch, validatorKeyPathAt.
  pose proof (fmtDec_not_empty i) as Hlen.
  pose proof (allDigits_fmtDec i) as Hdig.
  set (d := fmtDec i) in *.
  change ("m/12381/3600/" ++ d ++ "/0/0")
    with (validatorPathPrefix ++ (d ++ validatorPathSuffix)).
  set (p := validatorPathPrefix ++ (d ++ validatorPathSuffix)).
  assert (Hn : String.length p
               = (String.length validatorPathPrefix
                  + (String.length d + String.length validatorPathSuffix))%nat)
    by (unfold p; rewrite !length_append; reflexivity).
  assert (Hp : String.prefix validatorPathPrefix p = true)
    by (apply prefix_correct, substring_append_left).
  assert (Hsuf : String.substring (String.length p - String.length validatorPathSuffix)
                   (String.length validatorPathSuffix) p = validatorPathSuffix).
  { replace (String.length p - String.length validatorPathSuffix)%nat
      with (String.length (validatorPathPrefix ++ d))
      by (rewrite Hn, length_append; lia).
    unfold p. rewrite <- append_assoc. apply substring_append_right. }
  assert (Hmid : String.substring (String.length validatorPathPrefix)
                   (String.length p - String.length validatorPathPrefix
                    - String.length validatorPathSuffix) p = d).
  { replace (String.length p - String.length validatorPathPrefix
             - String.length validatorPathSuffix)%nat
      with (String.length d) by (rewrite Hn; lia).
    apply substring_append_middle. }
  rewrite Hp, Hsuf, Hmid, String.eqb_refl, Hdig.
  assert (Hlt : Nat.ltb (String.length validatorPathPrefix
                         + String.length validatorPathSuffix) (String.length p) = true)
    by (apply Nat.ltb_lt; rewrite Hn; lia).
  rewrite Hlt. reflexivity.
Qed.

End ScanPaths.

Section ScanErrors.

Context {T : Carriers} {E : Env}.

Lemma scan_derivation_fails n : forall i k seed vi e w,
  i <= k < i + Z.of_nat n ->
  (forall j, i <= j < k -> missesAt seed vi j) ->
  PrivateKeyFromSeedAndPath seed (validatorKeyPathAt k) = Failure e ->
  scanValidatorKeys n i seed vi w
  = (Err (Wrap e "failed to generate validator private key"), w).
Proof.
  induction n as [|n IH]; intros i k seed vi e w Hk Hmiss Hfail.
  - lia.
  - destruct (Z.eq_dec i k) as [->|Hne].
    + cbn [scanValidatorKeys]. unfold wrapped at 1, bind at 1, lift at 1.
      rewrite Hfail. reflexivity.
    + destruct (Hmiss i) as (ski & Hki & Hnei); [lia|].
      rewrite (scan_step_miss n i seed vi ski w Hki Hnei).
      apply (IH (i + 1) k seed vi e w); try assumption; [lia|].
      intros j Hj. apply Hmiss. lia.
Qed.

(** X4.  When, before any match, some index below 1024 fails to derive a
    key, the scan stops there: the method fails with that error under
    "failed to generate validator private key", and the command is as it
    was. *)
Theorem key_scan_stops_at_derivation_error w seed vi k e :
  SeedFromMnemonic (mnemonic (cmd w)) = Success seed ->
  FetchValidatorInfo (chainInfo (cmd w)) (validator (cmd w)) = Success vi ->
  0 <= k < 1024 ->
  (forall j, 0 <= j < k -> missesAt seed vi j) ->
  PrivateKeyFromSeedAndPath seed (validatorKeyPathAt k) = Failure e ->
  generateOperationFromMnemonicAndValidator w
  = (Err (Wrap e "failed to generate validator private key"), w).
Proof.
  intros Hs Hv Hk Hmiss Hfail.
  rewrite (generateOperationFromMnemonicAndValidator_scan w seed vi Hs Hv).
  apply (scan_derivation_fails _ 0 k seed vi e w); assumption.
Qed.

End ScanErrors.

Section Verifier.

Context {T : Carriers} {E : Env}.

Lemma bind_Ok_inv {A B} (m : M A) (k : A -> M B) w b w' :
  bind m k w = (Ok b, w') ->
  exists a w1, m w = (Ok a, w1) /\ k a w1 = (Ok b, w').
Proof.
  unfold bind. destruct (m w) as [[a|e|p] w1]; intros H; try discriminate.
  exists a, w1. split; [reflexivity|exact H].
Qed.

(** The verifier, check by check. *)
Lemma verifySignedOperation_eq op w :
  verifySignedOperation (Some op) w =
  (match HashTreeRoot (phase0.Message op) with
   | Failure e => Err (Wrap e "failed to generate message root")
   | Success root =>
   match BLSSignatureFromBytes (phase0.Signature op) with
   | Failure _ => Err "invalid signature"
   | Success s =>
   match HashTreeRootSigningData root (domain (cmd w)) with
   | Failure e => Err (Wrap e "failed to generate signing root")
   | Success signingRoot =>
   match FetchValidatorInfo (chainInfo (cmd w))
           (fmtDec (phase0.ValidatorIndex (phase0.Message op))) with
   | Failure e => Err e
   | Success vi =>
   match BLSPublicKeyFromBytes (beacon.Pubkey vi) with
   | Failure e => Err (Wrap e "invalid public key")
   | Success pk =>
       if Verify s signingRoot pk then Ok tt else Err "signature does not verify"
   end end end end end, w).
Proof.
  unfold verifySignedOperation.
  rewrite (copy_fresh _ (phase0.Signature op) eq_refl).
  unfold wrapped at 1, bind at 1, lift at 1.
  destruct (HashTreeRoot (phase0.Message op)) as [root|e]; cbn [wrapOutcome];
    [|reflexivity].
  destruct (BLSSignatureFromBytes (phase0.Signature op)) as [s|e];
    [rewrite bind_ret|reflexivity].
  rewrite bind_getC.
  unfold wrapped at 1, bind at 1, lift at 1.
  destruct (HashTreeRootSigningData root (domain (cmd w))) as [sr|e];
    cbn [wrapOutcome]; [|reflexivity].
  unfold bind at 1, lift at 1.
  destruct (FetchValidatorInfo _ _) as [vi|e]; [|reflexivity].
  rewrite (copy_fresh _ (beacon.Pubkey vi) eq_refl).
  unfold wrapped at 1, bind at 1, lift at 1.
  destruct (BLSPublicKeyFromBytes (beacon.Pubkey vi)) as [pk|e]; cbn [wrapOutcome];
    [|reflexivity].
  destruct (Verify s sr pk); reflexivity.
Qed.

(** X5.  The verifier accepts a signed operation exactly when the message
    has a root, the signature bytes parse, the validator named by the
    message's index is known to the chain information, its public key
    parses, and the signature verifies under that key against the root of
    the signing data made of the message root and the run's domain.  Every
    other outcome is a returned error, never a panic, and in no case does the
    verifier change the world. *)
Theorem verifier_accepts_iff op w :
  (verifySignedOperation (Some op) w = (Ok tt, w)
   <-> exists root s signingRoot vi pk,
        HashTreeRoot (phase0.Message op) = Success root
        /\ BLSSignatureFromBytes (phase0.Signature op) = Success s
        /\ HashTreeRootSigningData root (domain (cmd w)) = Success signingRoot
        /\ FetchValidatorInfo (chainInfo (cmd w))
             (fmtDec (phase0.ValidatorIndex (phase0.Message op))) = Success vi
        /\ BLSPublicKeyFromBytes (beacon.Pubkey vi) = Success pk
        /\ Verify s signingRoot pk = true)
  /\ (verifySignedOperation (Some op) w = (Ok tt, w)
      \/ exists e, verifySignedOperation (Some op) w = (Err e, w)).
Proof.
  rewrite verifySignedOperation_eq.
  destruct (HashTreeRoot (phase0.Message op)) as [root|e1].
  2:{ split; [split; [discriminate|]|right; eexists; reflexivity].
      intros (? & ? & ? & ? & ? & H & _). discriminate. }
  destruct (BLSSignatureFromBytes (phase0.Signature op)) as [s|e2].
  2:{ split; [split; [discriminate|]|right; eexists; reflexivity].
      intros (? & ? & ? & ? & ? & _ & H & _). discriminate. }
  destruct (HashTreeRootSigningData root (domain (cmd w))) as [sr|e3] eqn:Hsr.
  2:{ split; [split; [discriminate|]|right; eexists; reflexivity].
      intros (? & ? & ? & ? & ? & H1 & _ & H & _).
      inversion H1; subst. rewrite Hsr in H. discriminate. }
  destruct (FetchValidatorInfo _ _) as [vi|e4].
  2:{ split; [split; [discriminate|]|right; eexists; reflexivity].
      intros (? & ? & ? & ? & ? & _ & _ & _ & H & _). discriminate. }
  destruct (BLSPublicKeyFromBytes (beacon.Pubkey vi)) as [pk|e5] eqn:Hpk.
  2:{ split; [split; [discriminate|]|right; eexists; reflexivity].
      intros (? & ? & ? & ? & ? & _ & _ & _ & H4 & H & _).
      inversion H4; subst. rewrite Hpk in H. discriminate. }
  destruct (Verify s sr pk) eqn:Hv.
  - split; [|left; reflexivity]. split; [|reflexivity].
    intros _. exists root, s, sr, vi, pk. repeat split; assumption.
  - split; [split; [discriminate|]|right; eexists; reflexivity].
    intros (? & ? & ? & ? & ? & H1 & H2 & H3 & H4 & H5 & H6).
    inversion H1; inversion H2; inversion H4; subst.
    rewrite Hsr in H3. inversion H3; subst.
    rewrite Hpk in H5. inversion H5; subst.
    congruence.
Qed.

(** X6.  Without key material, the obtaining step succeeds only with an
    operation the verifier has accepted: afterwards the command holds a
    signed operation, and the verifier run on it in that state accepts. *)
Theorem loaded_operation_was_verified w w' :
  noKeyMaterial (cmd w) ->
  obtainOperation w = (Ok tt, w') ->
  exists op,
    signedOperation (cmd w') = Some op
    /\ verifySignedOperation (Some op) w' = (Ok tt, w')
    /\ rnd w' = rnd w /\ submitted w' = submitted w.
Proof.
  intros Hnk Hob.
  unfold obtainOperation in Hob.
  rewrite bind_getC, (noKeyMaterial_dispatch _ Hnk) in Hob.
  destruct (obtainOperationFromFileOrInput w) as [[[]|e|p] w0] eqn:Hload;
    [|destruct (nonEmpty _); discriminate|discriminate].
  inversion Hob; subst w0; clear Hob.
  assert (Hfinal : forall w1,
             rnd w1 = rnd w -> submitted w1 = submitted w ->
             bind getC (fun c => verifySignedOperation (signedOperation c)) w1
             = (Ok tt, w') ->
             exists op,
               signedOperation (cmd w') = Some op
               /\ verifySignedOperation (Some op) w' = (Ok tt, w')
               /\ rnd w' = rnd w /\ submitted w' = submitted w).
  { intros w1 Hr Hs Hv. rewrite bind_getC in Hv.
    pose proof (verifySignedOperation_world (signedOperation (cmd w1)) w1) as Hw.
    rewrite Hv in Hw. cbn [snd] in Hw. subst w'.
    destruct (signedOperation (cmd w1)) as [op|] eqn:Hop; [|discriminate].
    exists op. repeat split; assumption. }
  assert (Hjson' : forall data msg w0 w1,
             wrapped (jsonUnmarshal data) msg w0 = (Ok tt, w1) ->
             rnd w1 = rnd w0 /\ submitted w1 = submitted w0).
  { intros data msg w0 w1. unfold wrapped, jsonUnmarshal.
    destruct (jsonValid data); [|discriminate].
    destruct (jsonDecode data _) as [[[]|e] target]; cbn; intros H; inversion H; split;
      reflexivity. }
  unfold obtainOperationFromFileOrInput in Hload. rewrite bind_getC in Hload.
  destruct (nonEmpty (signedOperationInput (cmd w))).
  - unfold obtainOperationFromInput in Hload. rewrite bind_getC in Hload.
    apply bind_Ok_inv in Hload. destruct Hload as ([] & w1 & Hread & Hrest).
    assert (Hw1 : rnd w1 = rnd w /\ submitted w1 = submitted w).
    { revert Hread. destruct (negb _); [|intros H; inversion H; split; reflexivity].
      unfold wrapped, bind, lift, modifyC.
      destruct (ReadFile _); cbn; intros H; inversion H; split; reflexivity. }
    rewrite bind_getC in Hrest.
    apply bind_Ok_inv in Hrest. destruct Hrest as ([] & w2 & Hparse & Hverify).
    destruct (Hjson' _ _ _ _ Hparse) as [Hr2 Hs2]. destruct Hw1 as [Hr1 Hs1].
    apply (Hfinal w2); [congruence|congruence|exact Hverify].
  - unfold obtainOperationFromFile in Hload.
    apply bind_Ok_inv in Hload. destruct Hload as ([] & w1 & Hstat & Hrest).
    assert (Hw1 : w1 = w).
    { revert Hstat. unfold wrapped, lift.
      destruct (Stat _); cbn; intros H; inversion H; reflexivity. }
    subst w1.
    apply bind_Ok_inv in Hrest. destruct Hrest as (data & w1 & Hread & Hrest).
    assert (Hw1 : w1 = w).
    { revert Hread. unfold wrapped, lift.
      destruct (ReadFile _); cbn; intros H; inversion H; reflexivity. }
    subst w1.
    apply bind_Ok_inv in Hrest. destruct Hrest as ([] & w2 & Hparse & Hverify).
    destruct (Hjson' _ _ _ _ Hparse) as [Hr2 Hs2].
    apply (Hfinal w2); [congruence|congruence|exact Hverify].
Qed.

End Verifier.

Section Builder.

Context {T : Carriers} {E : Env}.

(** The builder, step by step, at any intensity. *)
Lemma createSignedOperation_eq validator acct epoch w :
  createSignedOperation validator acct epoch w =
  let g1 := seededGenerator (rnd w) in
  match BestPublicKey acct with
  | Failure x => (Err x, set_rnd g1 w)
  | Success _ =>
      let op1 := fuzzedMessage g1 (phase0.mkVoluntaryExit epoch (beacon.Index validator)) in
      let g2 := afterMessage g1 in
      match HashTreeRoot op1 with
      | Failure x =>
          (Err (Wrap x "failed to generate root for exit operation"), set_rnd g2 w)
      | Success root =>
          let op2 := fuzzedMessage g2 op1 in
          let g3 := afterBuffer 32 (afterMessage g2) in
          match Sign acct (fuzzedBuffer 32 (afterMessage g2) root) (domain (cmd w)) with
          | Failure x => (Err (Wrap x "failed to sign exit operation"), set_rnd g3 w)
          | Success sig =>
              (Ok (phase0.mkSignedVoluntaryExit (fuzzedMessage g3 op2)
                     (fuzzedBuffer 96 (afterMessage g3) sig)),
               set_rnd (afterBuffer 96 (afterMessage g3)) w)
          end
      end
  end.
Proof.
  cbn zeta. unfold createSignedOperation.
  rewrite (bind_Ok _ _ _ _ _ (InitializeFuzzingSeed_eq w)).
  destruct (BestPublicKey acct) as [pk|x];
    [erewrite bind_lift_Success by reflexivity
    |erewrite bind_lift_Failure by reflexivity; reflexivity].
  rewrite (bind_Ok _ _ _ _ _ (fuzzExitMessage_eq _ _)). cbn [rnd set_rnd].
  unfold wrapped at 1, bind at 1, lift at 1.
  destruct (HashTreeRoot _) as [root|x]; cbn [wrapOutcome]; [|reflexivity].
  rewrite (bind_Ok _ _ _ _ _ (fuzzExitMessageWithRoot_eq _ _ _)). cbn [rnd set_rnd].
  rewrite bind_getC. cbn [cmd set_rnd].
  unfold wrapped at 1, bind at 1, SignRoot, lift at 1.
  destruct (Sign acct _ (domain (cmd w))) as [sig|x]; cbn [wrapOutcome]; [|reflexivity].
  rewrite (bind_Ok _ _ _ _ _ (fuzzExitMessageWithSignature_eq _ _ _)). reflexivity.
Qed.

(** X7.  At intensity 0 the builder is the plain builder: it returns the exit
    of the given validator at the given epoch under the signature the account
    gives for the root of exactly that message and the run's domain; it
    fails with the account's error when the account has no public key, under
    "failed to generate root for exit operation" when the message has no
    root, and under "failed to sign exit operation" when the account does not
    sign.  The command itself and the submissions are never touched. *)
Theorem builder_without_fuzz (Hin : IntnInRange) validator acct epoch w :
  fuzziness = 0 ->
  let op := phase0.mkVoluntaryExit epoch (beacon.Index validator) in
  let result := createSignedOperation validator acct epoch w in
  (forall e, BestPublicKey acct = Failure e -> fst result = Err e)
  /\ (forall pk e,
         BestPublicKey acct = Success pk -> HashTreeRoot op = Failure e ->
         fst result = Err (Wrap e "failed to generate root for exit operation"))
  /\ (forall pk root e,
         BestPublicKey acct = Success pk -> HashTreeRoot op = Success root ->
         Sign acct root (domain (cmd w)) = Failure e ->
         fst result = Err (Wrap e "failed to sign exit operation"))
  /\ (forall pk root sig,
         BestPublicKey acct = Success pk -> HashTreeRoot op = Success root ->
         Sign acct root (domain (cmd w)) = Success sig ->
         fst result = Ok (phase0.mkSignedVoluntaryExit op sig))
  /\ cmd (snd result) = cmd w
  /\ submitted (snd result) = submitted w.
Proof.
  intros Hfz. cbn zeta. rewrite createSignedOperation_eq. cbn zeta.
  rewrite !fuzzedMessage_off by assumption.
  split; [|split; [|split; [|split]]].
  - intros e He. rewrite He. reflexivity.
  - intros pk e Hpk Hr. rewrite Hpk, Hr. reflexivity.
  - intros pk root e Hpk Hr Hs. rewrite Hpk, Hr.
    rewrite fuzzedBuffer_off by assumption. rewrite Hs. reflexivity.
  - intros pk root sig Hpk Hr Hs. rewrite Hpk, Hr.
    rewrite fuzzedBuffer_off by assumption. rewrite Hs. cbn [fst].
    rewrite fuzzedBuffer_off by assumption. reflexivity.
  - destruct (BestPublicKey acct); [|split; reflexivity].
    destruct (HashTreeRoot _); [|split; reflexivity].
    destruct (Sign _ _ _); split; reflexivity.
Qed.

Lemma fuzzedBuffer_length n g buf :
  List.length (fuzzedBuffer n g buf) = List.length buf.
Proof.
  unfold fuzzedBuffer. destruct (bufferActs g); [apply copy_length|reflexivity].
Qed.

Lemma bufferValue_length n g : List.length (bufferValue n g) = n.
Proof.
  unfold bufferValue. rewrite copy_length. unfold zeroBytes. apply repeat_length.
Qed.

(** X9.  Fuzzing never changes a length: the checkpoints return a root and a
    signature as long as the ones they were given, so the account is asked
    to sign as many bytes as the hash tree root has and the operation that
    is returned carries as many signature bytes as the account produced.  A
    root of 32 bytes or a signature of 96 that is replaced is replaced
    whole, by the bytes drawn. *)
Theorem fuzzing_keeps_lengths :
  (forall op root w op' root' w',
      fuzzExitMessageWithRoot op root w = (Ok (op', root'), w') ->
      List.length root' = List.length root)
  /\ (forall op sig w op' sig' w',
         fuzzExitMessageWithSignature op sig w = (Ok (op', sig'), w') ->
         List.length sig' = List.length sig)
  /\ (forall validator acct epoch w sop w',
         createSignedOperation validator acct epoch w = (Ok sop, w') ->
         exists op1 root signed sig,
           HashTreeRoot op1 = Success root
           /\ List.length signed = List.length root
           /\ Sign acct signed (domain (cmd w)) = Success sig
           /\ List.length (phase0.Signature sop) = List.length sig)
  /\ (forall n g buf,
         List.length buf = n -> bufferActs g = true ->
         fuzzedBuffer n g buf = bufferValue n g).
Proof.
  split; [|split; [|split]].
  - intros op root w op' root' w' H. rewrite fuzzExitMessageWithRoot_eq in H.
    inversion H. apply fuzzedBuffer_length.
  - intros op sig w op' sig' w' H. rewrite fuzzExitMessageWithSignature_eq in H.
    inversion H. apply fuzzedBuffer_length.
  - intros validator acct epoch w sop w' H.
    apply createSignedOperation_Ok_inv in H.
    destruct H as (root & sig & Hroot & Hsig & _ & Hs & _). cbn zeta in *.
    eexists _, root, _, sig. split; [exact Hroot|].
    split; [apply fuzzedBuffer_length|]. split; [exact Hsig|].
    rewrite Hs. apply fuzzedBuffer_length.
  - intros n g buf Hl Ha. unfold fuzzedBuffer. rewrite Ha.
    apply copy_same_length. rewrite bufferValue_length. congruence.
Qed.

End Builder.

Section Reproducibility.

Context {T : Carriers} {E : Env}.

(** X8.  The seed that [InitializeFuzzingSeed] reports is enough to repeat a
    build: when it is not 0, a run configured with that seed builds the same
    operation, with the same outcome, from any state of the random source. *)
Theorem reported_seed_reproduces validator acct epoch w seed w1 :
  InitializeFuzzingSeed w = (Ok seed, w1) ->
  seed <> 0 ->
  forall g,
    @createSignedOperation T (withFuzzSeed seed) validator acct epoch (set_rnd g w)
    = createSignedOperation validator acct epoch w.
Proof.
  intros Hinit Hnz g.
  rewrite InitializeFuzzingSeed_eq in Hinit. injection Hinit as Hseed Hw1.
  assert (Hleft : @InitializeFuzzingSeed T (withFuzzSeed seed) (set_rnd g w)
                  = (Ok seed, set_rnd (Seed seed) w)).
  { rewrite (@InitializeFuzzingSeed_eq T (withFuzzSeed seed)).
    unfold seededGenerator, chosenSeed. cbn [fuzzSeed withFuzzSeed Seed].
    apply Z.eqb_neq in Hnz. rewrite Hnz. reflexivity. }
  assert (Hright : InitializeFuzzingSeed w = (Ok seed, set_rnd (Seed seed) w)).
  { rewrite InitializeFuzzingSeed_eq. unfold seededGenerator. rewrite Hseed. reflexivity. }
  unfold createSignedOperation.
  rewrite (bind_Ok _ _ _ _ _ Hleft), (bind_Ok _ _ _ _ _ Hright).
  reflexivity.
Qed.

End Reproducibility.

Section Untouched.

Context {T : Carriers} {E : Env}.

Create HintDb settled.

Ltac settled_go :=
  repeat first
    [ solve [auto with settled]
    | apply keeps_ret | apply keeps_fail | apply keeps_panic | apply keeps_lift
    | apply keeps_getC
    | apply keeps_wrapped
    | apply keeps_bind;
      [|let x := fresh "x" in
        intros x; try match type of x with (_ * _)%type => destruct x end]
    | match goal with
      | |- keeps _ (if ?b then _ else _) => destruct b
      | |- keeps _ (match ?x with Some _ => _ | None => _ end) => destruct x
      | |- keeps _ (match ?x with Success _ => _ | Failure _ => _ end) => destruct x
      end ].

Lemma settled_createSignedOperation v a e : keeps settled (createSignedOperation v a e).
Proof.
  intros w. rewrite createSignedOperation_eq. cbn zeta.
  destruct (BestPublicKey a); [|reflexivity].
  destruct (HashTreeRoot _); [|reflexivity].
  destruct (Sign _ _ _); reflexivity.
Qed.

Lemma settled_generateOperationFromAccount v a e :
  keeps settled (generateOperationFromAccount v a e).
Proof.
  intros w. unfold generateOperationFromAccount.
  pose proof (settled_createSignedOperation v a e w) as H.
  destruct (createSignedOperation v a e w) as [[op|err|p] w']; cbn [snd] in *;
    try exact H; rewrite <- H; reflexivity.
Qed.

Lemma settled_modifyC g :
  (forall c, besidesOperation (g c) = besidesOperation c) -> keeps settled (modifyC g).
Proof.
  intros H w. unfold modifyC, settled. cbn [snd cmd submitted]. rewrite H. reflexivity.
Qed.

Lemma settled_jsonUnmarshal data : keeps settled (jsonUnmarshal data).
Proof.
  intros w. unfold jsonUnmarshal.
  destruct (jsonValid data); [|reflexivity].
  destruct (jsonDecode data _) as [[|e] target]; reflexivity.
Qed.

Lemma settled_verifySignedOperation op : keeps settled (verifySignedOperation op).
Proof. intros w. rewrite (verifySignedOperation_world op w). reflexivity. Qed.

#[local] Hint Resolve settled_generateOperationFromAccount settled_jsonUnmarshal
  settled_verifySignedOperation : settled.

Lemma settled_generateOperationFromPrivateKey : keeps settled generateOperationFromPrivateKey.
Proof. unfold generateOperationFromPrivateKey. settled_go. Qed.

#[local] Hint Resolve settled_generateOperationFromPrivateKey : settled.

Lemma settled_generateOperationFromMnemonicAndPath :
  keeps settled generateOperationFromMnemonicAndPath.
Proof.
  unfold generateOperationFromMnemonicAndPath, generateOperationFromSeedAndPath.
  settled_go; try (apply settled_modifyC; intros c; reflexivity).
Qed.

Lemma settled_scanValidatorKeys n :
  forall i seed vi, keeps settled (scanValidatorKeys n i seed vi).
Proof.
  induction n as [|n IH]; intros i seed vi; cbn [scanValidatorKeys].
  - apply keeps_ret.
  - settled_go; try apply IH.
Qed.

#[local] Hint Resolve settled_scanValidatorKeys
  settled_generateOperationFromMnemonicAndPath : settled.

Lemma settled_obtainOperationFromFileOrInput : keeps settled obtainOperationFromFileOrInput.
Proof.
  unfold obtainOperationFromFileOrInput, obtainOperationFromInput,
    obtainOperationFromFile.
  settled_go; try (apply settled_modifyC; intros c; reflexivity).
Qed.

Lemma settled_obtainOperation : keeps settled obtainOperation.
Proof.
  unfold obtainOperation, generateOperationFromMnemonicAndValidator,
    generateOperationFromValidator.
  settled_go.
  intros v. pose proof (settled_obtainOperationFromFileOrInput v) as H.
  destruct (obtainOperationFromFileOrInput v) as [[[]|err|p] v']; cbn [snd] in *;
    try assumption.
  destruct (nonEmpty _); assumption.
Qed.

Lemma settled_client w w' :
  settled w' = settled w -> consensusClient (cmd w') = consensusClient (cmd w).
Proof.
  intros H. exact (f_equal (fun x => consensusClient (fst x)) H).
Qed.

Lemma besidesDomain_generateDomain : keeps besidesDomain generateDomain.
Proof.
  intros w. unfold generateDomain.
  destruct (obtainGenesisValidatorsRoot_cases w) as [(r & Hr)|(e & He)].
  2:{ rewrite (bind_Err _ _ _ _ _ He). reflexivity. }
  rewrite (bind_Ok _ _ _ _ _ Hr).
  pose proof (obtainForkVersion_world w) as Hw.
  destruct (obtainForkVersion w) as [[v|e|p] w1] eqn:Hv; cbn [snd] in Hw; subst w1.
  - rewrite (bind_Ok _ _ _ _ _ Hv). unfold wrapped, bind, lift.
    destruct (HashTreeRootForkData v r); reflexivity.
  - rewrite (bind_Err _ _ _ _ _ Hv). reflexivity.
  - rewrite (bind_Panic _ _ _ _ _ Hv). reflexivity.
Qed.

Lemma besidesDomain_client w w' :
  besidesDomain w' = besidesDomain w -> consensusClient (cmd w') = consensusClient (cmd w).
Proof.
  intros H. exact (f_equal (fun x => consensusClient (fst (fst x))) H).
Qed.

(** X14.  Whatever it does, the obtaining step changes nothing of the
    command but the private key, the supplied input and the signed
    operation (and the random source): flags, mnemonic, path, validator, hex
    inputs, client, chain information and domain come out as they went in,
    and nothing is submitted. *)
Theorem obtaining_touches_three_fields w :
  let c := cmd w in
  let c' := cmd (snd (obtainOperation w)) in
  offline c' = offline c /\ json c' = json c
  /\ prepareOffline c' = prepareOffline c /\ connection c' = connection c
  /\ mnemonic c' = mnemonic c /\ path c' = path c /\ validator c' = validator c
  /\ forkVersion c' = forkVersion c
  /\ genesisValidatorsRoot c' = genesisValidatorsRoot c
  /\ consensusClient c' = consensusClient c /\ chainTime c' = chainTime c
  /\ chainInfo c' = chainInfo c /\ domain c' = domain c
  /\ submitted (snd (obtainOperation w)) = submitted w.
Proof.
  cbn zeta. pose proof (settled_obtainOperation w) as H.
  unfold settled in H. inversion H. repeat split; assumption.
Qed.

Lemma writeDomain_length dom domainType root :
  List.length (writeDomain dom domainType root) = List.length dom.
Proof.
  unfold writeDomain, copyAt.
  rewrite length_app, copy_length, length_firstn, length_skipn, copy_length. lia.
Qed.

(** X15.  Domain generation is all or nothing: either it fails with an error
    and leaves the world exactly as it was, or it succeeds and has replaced
    the domain, by one of the same length, and nothing else.  It never
    panics. *)
Theorem generateDomain_all_or_nothing w :
  (exists d,
      generateDomain w = (Ok tt, mkWorld (set_domain d (cmd w)) (rnd w) (submitted w))
      /\ List.length d = List.length (domain (cmd w)))
  \/ (exists e, generateDomain w = (Err e, w)).
Proof.
  unfold generateDomain.
  destruct (obtainGenesisValidatorsRoot_cases w) as [(r & Hr)|(e & He)].
  2:{ right. exists e. rewrite (bind_Err _ _ _ _ _ He). reflexivity. }
  rewrite (bind_Ok _ _ _ _ _ Hr).
  pose proof (obtainForkVersion_world w) as Hw.
  destruct (obtainForkVersion w) as [[v|e|p] w1] eqn:Hv; cbn [snd] in Hw; subst w1.
  - rewrite (bind_Ok _ _ _ _ _ Hv).
    unfold wrapped, bind, lift.
    destruct (HashTreeRootForkData v r) as [root|e]; cbn [wrapOutcome].
    + left. eexists. split; [reflexivity|]. apply writeDomain_length.
    + right. eexists. reflexivity.
  - right. exists e. rewrite (bind_Err _ _ _ _ _ Hv). reflexivity.
  - exfalso. revert Hv. unfold obtainForkVersion. rewrite bind_getC.
    destruct (nonEmpty _); [|discriminate].
    unfold wrapped, bind, lift.
    destruct (DecodeString _); cbn; [|discriminate].
    destruct (negb _); discriminate.
Qed.

End Untouched.

Section Run.

Context {T : Carriers} {E : Env}.

Lemma frame_submitted w w' : frame w' = frame w -> submitted w' = submitted w.
Proof. unfold frame. intros H. inversion H. reflexivity. Qed.

Lemma runObtainChainInfo_submitted w :
  submitted (snd (runObtainChainInfo w)) = submitted w.
Proof.
  unfold runObtainChainInfo.
  destruct (obtainChainInfo (cmd w)) as [[|e] c']; reflexivity.
Qed.

Lemma broadcastOperation_cases w :
  (exists p, broadcastOperation w = (Panic p, w))
  \/ (exists submit,
         broadcastOperation w =
         lift (submit (signedOperation (cmd w)))
              (mkWorld (cmd w) (rnd w) (submitted w ++ [signedOperation (cmd w)]))).
Proof.
  unfold broadcastOperation. rewrite bind_getC.
  destruct (consensusClient (cmd w)) as [cl|]; [|left; eexists; reflexivity].
  destruct (VoluntaryExitSubmitter cl) as [submit|]; [|left; eexists; reflexivity].
  right. exists submit. reflexivity.
Qed.

(** X10.  A run submits at most once, and only at its very end: the list of
    submitted operations is either what it was, or has grown by exactly the
    command's signed operation, and the latter only when set-up, chain
    information, domain generation and the obtaining of the operation have
    all succeeded, the run is not preparing for offline use, and neither JSON
    output nor offline mode is selected. *)
Theorem run_submits_only_after_all_stages w :
  submitted (snd (process w)) = submitted w
  \/ exists w1 w2 w3 w4,
      setup w = (Ok tt, w1)
      /\ runObtainChainInfo w1 = (Ok tt, w2)
      /\ prepareOffline (cmd w2) = false
      /\ generateDomain w2 = (Ok tt, w3)
      /\ obtainOperation w3 = (Ok tt, w4)
      /\ json (cmd w4) || offline (cmd w4) = false
      /\ submitted (snd (process w))
         = (submitted w ++ [signedOperation (cmd w4)])%list.
Proof.
  pose proof (frame_submitted _ _ (keeps_setup w)) as K1.
  destruct (setup w) as [[[]|e|p] w1] eqn:H1; cbn [snd] in K1.
  2:{ left. unfold process. rewrite (bind_Err _ _ _ _ _ H1). exact K1. }
  2:{ left. unfold process. rewrite (bind_Panic _ _ _ _ _ H1). exact K1. }
  pose proof (runObtainChainInfo_submitted w1) as K2.
  destruct (runObtainChainInfo w1) as [[[]|e|p] w2] eqn:H2; cbn [snd] in K2.
  2:{ left. unfold process.
      rewrite (bind_Ok _ _ _ _ _ H1), (bind_Err _ _ _ _ _ H2). cbn [snd]. congruence. }
  2:{ left. unfold process.
      rewrite (bind_Ok _ _ _ _ _ H1), (bind_Panic _ _ _ _ _ H2). cbn [snd]. congruence. }
  destruct (prepareOffline (cmd w2)) eqn:Hp.
  { left. unfold process.
    rewrite (bind_Ok _ _ _ _ _ H1), (bind_Ok _ _ _ _ _ H2), bind_getC, Hp.
    unfold runWriteChainInfoToFile.
    destruct (writeChainInfoToFile (cmd w2)); cbn [lift snd]; congruence. }
  pose proof (frame_submitted _ _ (keeps_generateDomain w2)) as K3.
  destruct (generateDomain w2) as [[[]|e|p] w3] eqn:H3; cbn [snd] in K3.
  2:{ left. rewrite (process_fails_in_domain w w1 w2 e w3 H1 H2 Hp H3).
      cbn [snd]. congruence. }
  2:{ left. unfold process.
      rewrite (bind_Ok _ _ _ _ _ H1), (bind_Ok _ _ _ _ _ H2), bind_getC, Hp.
      rewrite (bind_Panic _ _ _ _ _ H3). cbn [snd]. congruence. }
  pose proof (frame_submitted _ _ (keeps_obtainOperation w3)) as K4.
  destruct (obtainOperation w3) as [[[]|e|p] w4] eqn:H4; cbn [snd] in K4.
  2:{ left. rewrite (process_fails_in_obtain w w1 w2 w3 e w4 H1 H2 Hp H3 H4).
      cbn [snd]. congruence. }
  2:{ left. unfold process.
      rewrite (bind_Ok _ _ _ _ _ H1), (bind_Ok _ _ _ _ _ H2), bind_getC, Hp.
      rewrite (bind_Ok _ _ _ _ _ H3), (bind_Panic _ _ _ _ _ H4). cbn [snd]. congruence. }
  rewrite (process_after_obtain w w1 w2 w3 w4 H1 H2 Hp H3 H4).
  destruct (json (cmd w4) || offline (cmd w4)) eqn:Hflag.
  { left. cbn [snd]. congruence. }
  destruct (broadcastOperation_cases w4) as [(p & Hb)|(submit & Hb)]; rewrite Hb.
  - left. cbn [snd]. congruence.
  - right. exists w1, w2, w3, w4.
    repeat (split; [first [reflexivity|assumption]|]).
    destruct (submit _); cbn [lift snd submitted]; congruence.
Qed.

(** X11.  In an online run that has come through all its stages and is to
    broadcast, the result is the answer of the client that set-up connected
    to: the node's error comes back as it is, unwrapped, with the operation
    recorded as submitted; a client that does not implement the submitter
    makes the run panic at this last step, after the operation has been
    built, with nothing submitted. *)
Theorem broadcast_answers_with_connected_client w w1 w2 w3 w4 :
  ChainInfoKeepsClient ->
  offline (cmd w) = false ->
  setup w = (Ok tt, w1) ->
  runObtainChainInfo w1 = (Ok tt, w2) ->
  prepareOffline (cmd w2) = false ->
  generateDomain w2 = (Ok tt, w3) ->
  obtainOperation w3 = (Ok tt, w4) ->
  json (cmd w4) || offline (cmd w4) = false ->
  exists cl,
    ConnectToBeaconNode (connection (cmd w)) = Success cl
    /\ (VoluntaryExitSubmitter cl = None ->
        exists p, process w = (Panic p, w4))
    /\ (forall submit,
           VoluntaryExitSubmitter cl = Some submit ->
           process w =
           lift (submit (signedOperation (cmd w4)))
                (mkWorld (cmd w4) (rnd w4)
                   (submitted w4 ++ [signedOperation (cmd w4)]))).
Proof.
  intros Hci Hoff H1 H2 Hp H3 H4 Hflag.
  assert (Hcl : exists cl, ConnectToBeaconNode (connection (cmd w)) = Success cl
                           /\ consensusClient (cmd w1) = Some cl).
  { revert H1. unfold setup. rewrite bind_getC, Hoff. unfold bind at 1.
    destruct (ConnectToBeaconNode (connection (cmd w))) as [cl|e]; [|discriminate].
    destruct (NewChainTime cl) as [ct|e]; [|discriminate].
    intros H. inversion H. exists cl. split; reflexivity. }
  destruct Hcl as (cl & Hconn & Hc1).
  assert (Hc2 : consensusClient (cmd w2) = Some cl).
  { revert H2. unfold runObtainChainInfo. specialize (Hci (cmd w1)).
    destruct (obtainChainInfo (cmd w1)) as [[[]|e] c']; cbn [snd lift] in *;
      intros H; inversion H. cbn [cmd]. congruence. }
  assert (Hc3 : consensusClient (cmd w3) = Some cl).
  { pose proof (besidesDomain_generateDomain w2) as K. rewrite H3 in K.
    cbn [snd] in K. rewrite (besidesDomain_client _ _ K). exact Hc2. }
  assert (Hc4 : consensusClient (cmd w4) = Some cl).
  { pose proof (settled_obtainOperation w3) as K. rewrite H4 in K.
    cbn [snd] in K. rewrite (settled_client _ _ K). exact Hc3. }
  exists cl. split; [exact Hconn|].
  rewrite (process_after_obtain w w1 w2 w3 w4 H1 H2 Hp H3 H4), Hflag.
  unfold broadcastOperation. rewrite bind_getC, Hc4.
  split.
  - intros Hnone. rewrite Hnone. eexists. reflexivity.
  - intros submit Hsome. rewrite Hsome. reflexivity.
Qed.

End Run.

Section Flows.

Context {T : Carriers} {E : Env}.

Lemma generateOperationFromMnemonicAndPath_derived w seed sk :
  SeedFromMnemonic (mnemonic (cmd w)) = Success seed ->
  validatorPathMatch (path (cmd w)) = true ->
  PrivateKeyFromSeedAndPath seed (path (cmd w)) = Success sk ->
  generateOperationFromMnemonicAndPath w =
  wrapped generateOperationFromPrivateKey
    "failed to generate operation from seed and path"
    (mkWorld (set_privateKey (fmtHex (MarshalPrivate sk)) (cmd w)) (rnd w) (submitted w)).
Proof.
  intros Hs Hm Hk. unfold generateOperationFromMnemonicAndPath.
  rewrite bind_getC. erewrite bind_lift_Success by exact Hs.
  rewrite Hm. cbn [negb].
  unfold generateOperationFromSeedAndPath, wrapped at 1.
  unfold wrapped at 1, bind at 1, lift at 1. rewrite Hk. cbn [wrapOutcome].
  unfold bind at 1, modifyC. reflexivity.
Qed.

(** X12.  With a mnemonic and a well-formed path whose key derives, the flow
    is the private-key flow run on the derived key: that key, written as
    [%#x] prints it, replaces the command's private key, and whatever private
    key was supplied next to the mnemonic has no influence on the result.
    When the key does not derive, the flow fails under both wrappers. *)
Theorem mnemonic_path_is_private_key_flow w seed :
  SeedFromMnemonic (mnemonic (cmd w)) = Success seed ->
  validatorPathMatch (path (cmd w)) = true ->
  (forall sk,
      PrivateKeyFromSeedAndPath seed (path (cmd w)) = Success sk ->
      generateOperationFromMnemonicAndPath w =
      wrapped generateOperationFromPrivateKey
        "failed to generate operation from seed and path"
        (mkWorld (set_privateKey (fmtHex (MarshalPrivate sk)) (cmd w))
           (rnd w) (submitted w))
      /\ forall k,
          generateOperationFromMnemonicAndPath
            (mkWorld (set_privateKey k (cmd w)) (rnd w) (submitted w))
          = generateOperationFromMnemonicAndPath w)
  /\ (forall e,
         PrivateKeyFromSeedAndPath seed (path (cmd w)) = Failure e ->
         generateOperationFromMnemonicAndPath w =
         (Err (Wrap (Wrap e "failed to generate validator private key")
                 "failed to generate operation from seed and path"), w)).
Proof.
  intros Hs Hm. split.
  - intros sk Hk. split.
    + apply generateOperationFromMnemonicAndPath_derived with (seed := seed); assumption.
    + intros k.
      rewrite (generateOperationFromMnemonicAndPath_derived w seed sk Hs Hm Hk).
      rewrite (generateOperationFromMnemonicAndPath_derived
                 (mkWorld (set_privateKey k (cmd w)) (rnd w) (submitted w)) seed sk
                 Hs Hm Hk).
      reflexivity.
  - intros e Hk. unfold generateOperationFromMnemonicAndPath.
    rewrite bind_getC. erewrite bind_lift_Success by exact Hs.
    rewrite Hm. cbn [negb].
    unfold generateOperationFromSeedAndPath, wrapped at 1.
    unfold wrapped at 1, bind at 1, lift at 1. rewrite Hk. reflexivity.
Qed.

(** X13.  A supplied input that does not start with a brace is read as a
    file, and its content takes the place of the input in the command.  When
    that content is not valid JSON the step fails, and the wrapper of the
    error is chosen by the content: "failed to obtain supplied signed
    operation" for a file that holds something, but the message that nothing
    was specified for an empty file.  A file that cannot be read fails under
    the former, the command unchanged. *)
Theorem input_file_message_follows_content w :
  noKeyMaterial (cmd w) ->
  signedOperationInput (cmd w) <> "" ->
  HasPrefix (signedOperationInput (cmd w)) "{" = false ->
  (forall data,
      ReadFile (signedOperationInput (cmd w)) = Success data ->
      jsonValid data = false ->
      obtainOperation w =
      (Err (Wrap (Wrap jsonSyntaxError "failed to parse exit operation input")
              (if isEmpty data then noInputMessage
               else "failed to obtain supplied signed operation")),
       mkWorld (set_signedOperationInput data (cmd w)) (rnd w) (submitted w)))
  /\ (forall e,
         ReadFile (signedOperationInput (cmd w)) = Failure e ->
         obtainOperation w =
         (Err (Wrap (Wrap e "failed to read input file")
                 "failed to obtain supplied signed operation"), w)).
Proof.
  intros Hnk Hne Hp. apply nonEmpty_true in Hne. split.
  - intros data Hr Hj.
    unfold obtainOperation. rewrite bind_getC, (noKeyMaterial_dispatch _ Hnk).
    unfold obtainOperationFromFileOrInput. rewrite bind_getC, Hne.
    unfold obtainOperationFromInput. rewrite bind_getC, Hp. cbn [negb].
    unfold wrapped at 1, bind at 1 2, lift at 1. rewrite Hr. cbn [wrapOutcome modifyC].
    rewrite bind_getC. cbn [cmd set_signedOperationInput signedOperationInput].
    unfold wrapped at 1, bind at 1. rewrite (jsonUnmarshal_invalid _ _ Hj).
    cbn [wrapOutcome cmd set_signedOperationInput signedOperationInput].
    unfold nonEmpty. destruct (isEmpty data); reflexivity.
  - intros e Hr.
    unfold obtainOperation. rewrite bind_getC, (noKeyMaterial_dispatch _ Hnk).
    unfold obtainOperationFromFileOrInput. rewrite bind_getC, Hne.
    unfold obtainOperationFromInput. rewrite bind_getC, Hp. cbn [negb].
    unfold wrapped at 1, bind at 1 2, lift at 1. rewrite Hr. cbn [wrapOutcome].
    rewrite Hne. reflexivity.
Qed.

End Flows.

Section PrivateKeyFlow.

Context {T : Carriers} {E : Env}.

(** X19.  The private-key flow exits the validator that the chain
    information has registered under the key's public key, written as [%#x]
    prints it, at the epoch of the chain information: at intensity 0 the
    command ends up holding exactly that exit under the account's signature,
    and nothing else of the command changes.  A key that does not parse
    fails under "failed to create validator account", and a public key the
    chain does not know fails with the lookup's error; in both cases the
    world is as it was. *)
Theorem private_key_flow_exits_registered_validator (Hin : IntnInRange) w :
  fuzziness = 0 ->
  (forall e,
      ParseAccount (privateKey (cmd w)) [] true = Failure e ->
      generateOperationFromPrivateKey w
      = (Err (Wrap e "failed to create validator account"), w))
  /\ (forall acct pk e,
         ParseAccount (privateKey (cmd w)) [] true = Success acct ->
         BestPublicKey acct = Success pk ->
         FetchValidatorInfo (chainInfo (cmd w)) (fmtHex (Marshal pk)) = Failure e ->
         generateOperationFromPrivateKey w = (Err e, w))
  /\ (forall acct pk vi root sig,
         ParseAccount (privateKey (cmd w)) [] true = Success acct ->
         BestPublicKey acct = Success pk ->
         FetchValidatorInfo (chainInfo (cmd w)) (fmtHex (Marshal pk)) = Success vi ->
         let message :=
           phase0.mkVoluntaryExit (beacon.Epoch (chainInfo (cmd w))) (beacon.Index vi) in
         HashTreeRoot message = Success root ->
         Sign acct root (domain (cmd w)) = Success sig ->
         exists g,
           generateOperationFromPrivateKey w =
           (Ok tt,
            mkWorld (set_signedOperation
                       (Some (phase0.mkSignedVoluntaryExit message sig)) (cmd w))
                    g (submitted w))).
Proof.
  intros Hfz. split; [|split].
  - intros e Hp. unfold generateOperationFromPrivateKey. rewrite bind_getC.
    unfold wrapped at 1, bind at 1, lift at 1. rewrite Hp. reflexivity.
  - intros acct pk e Hp Hpk Hf. unfold generateOperationFromPrivateKey.
    rewrite bind_getC.
    unfold wrapped at 1, bind at 1, lift at 1. rewrite Hp. cbn [wrapOutcome].
    erewrite bind_lift_Success by exact Hpk.
    erewrite bind_lift_Failure by exact Hf. reflexivity.
  - intros acct pk vi root sig Hp Hpk Hf message Hroot Hsig.
    unfold generateOperationFromPrivateKey. rewrite bind_getC.
    unfold wrapped at 1, bind at 1, lift at 1. rewrite Hp. cbn [wrapOutcome].
    erewrite bind_lift_Success by exact Hpk.
    erewrite bind_lift_Success by exact Hf.
    unfold generateOperationFromAccount.
    rewrite createSignedOperation_eq. cbn zeta.
    rewrite Hpk. rewrite !fuzzedMessage_off by assumption.
    fold message. rewrite Hroot.
    rewrite !fuzzedBuffer_off by assumption. rewrite Hsig.
    rewrite !fuzzedBuffer_off by assumption.
    eexists. reflexivity.
Qed.

End PrivateKeyFlow.

(** * The further properties on the concrete network *)

Section MissesByComputation.

Context {T : Carriers} {E : Env}.

Lemma misses_by_computation seed vi (n : nat) :
  forallb (fun j =>
             match PrivateKeyFromSeedAndPath seed (validatorKeyPathAt j) with
             | Success sk => negb (bytesEqual (Marshal (PublicKey sk)) (beacon.Pubkey vi))
             | Failure _ => false
             end)
          (map Z.of_nat (seq 0 n)) = true ->
  forall j, 0 <= j < Z.of_nat n -> missesAt seed vi j.
Proof.
  intros H j Hj. pose proof (below_forallb _ n H j Hj) as Hb. cbn beta in Hb.
  destruct (PrivateKeyFromSeedAndPath seed (validatorKeyPathAt j)) as [sk|e] eqn:Hk;
    [|discriminate].
  exists sk. split; [exact Hk|].
  apply bytesEqual_false. apply negb_true_iff. exact Hb.
Qed.

End MissesByComputation.

Section FurtherOnTestnet.

Import Testnet TestnetCases.

(** X1 on the network: a fork version of mixed case with its [0x]. *)
Lemma supplied_hex_accepted_iff_witness :
  let w := start (withForkVersion "0x0A0b0c0D" blank) in
  hexDigits 8 "0A0b0c0D"
  /\ exists v, @obtainForkVersion carriers w = (Ok v, w)
               /\ v = [x0a; x0b; x0c; x0d].
Proof.
  cbn zeta. split; [split; reflexivity|].
  destruct (@supplied_hex_accepted_iff carriers
              (start (withForkVersion "0x0A0b0c0D" blank))) as [Hfork _].
  destruct (Hfork ltac:(discriminate)) as [[_ Haccept] Hdecode].
  destruct (Haccept ltac:(split; reflexivity)) as (v & Hv).
  exists v. split; [exact Hv|].
  pose proof (Hdecode v _ Hv) as Hd. vm_compute in Hd. congruence.
Defined.

(** X2 on the network: the chain's fork version [03000000] and its genesis
    validators root of 32 bytes [2a], given explicitly. *)
Lemma explicit_chain_values_same_domain_witness :
  let explicit :=
    start (set_forkVersion "0x03000000"
             (set_genesisValidatorsRoot (fmtHex (repeat x2a 32)) blank)) in
  domain (cmd (snd (@generateDomain carriers (env (setting 0 5)) explicit)))
  = domain (cmd (snd (@generateDomain carriers (env (setting 0 5)) (start blank)))).
Proof.
  cbn zeta.
  destruct (@explicit_chain_values_same_domain carriers (env (setting 0 5))
              (start blank) eq_refl eq_refl eq_refl eq_refl) as [_ Hdom].
  exact Hdom.
Defined.

(** X4 on the network: index 5 does not derive while validator 8, whose key
    sits at index 1023, is looked for. *)
Lemma key_scan_stops_at_derivation_error_witness :
  let w := start (withInputs "abandon" "" "" "8") in
  @generateOperationFromMnemonicAndValidator carriers
    (envWith (setting 0 5) (Some 5) None) w
  = (Err "failed to generate validator private key: key derivation failed", w).
Proof.
  cbn zeta.
  apply (@key_scan_stops_at_derivation_error carriers
           (envWith (setting 0 5) (Some 5) None)
           (start (withInputs "abandon" "" "" "8"))
           (list_byte_of_string "abandon") (validatorAt 8 1023) 5
           "key derivation failed");
    try reflexivity; [lia|].
  apply (@misses_by_computation carriers (envWith (setting 0 5) (Some 5) None)
           (list_byte_of_string "abandon") (validatorAt 8 1023) 5).
  vm_compute. reflexivity.
Defined.

(** X5 on the network: the genuine exit of validator 7 is accepted under the
    domain it was signed for, the forged one is not. *)
Lemma verifier_accepts_iff_witness :
  @verifySignedOperation carriers (env (setting 0 5)) (Some genuine) (start blank)
  = (Ok tt, start blank)
  /\ exists e,
      @verifySignedOperation carriers (env (setting 0 5)) (Some forged) (start blank)
      = (Err e, start blank).
Proof.
  split.
  - destruct (@verifier_accepts_iff carriers (env (setting 0 5)) genuine (start blank))
      as [[_ Haccept] _].
    apply Haccept.
    exists (rootOfExit (phase0.mkVoluntaryExit 194048 7)), (phase0.Signature genuine),
      (mix (rootOfExit (phase0.mkVoluntaryExit 194048 7)) (zeroBytes 32)),
      (validatorAt 7 2), (publicOf (keyAt 2)).
    repeat split; vm_compute; reflexivity.
  - destruct (@verifier_accepts_iff carriers (env (setting 0 5)) forged (start blank))
      as [_ [Hok|Herr]]; [|exact Herr].
    vm_compute in Hok. discriminate.
Defined.

(** X6 on the network: the genuine exit in the file of the standard name. *)
Lemma loaded_operation_was_verified_witness :
  exists w',
    @obtainOperation carriers (env (settingGenuineFile 0 5)) (start blank) = (Ok tt, w')
    /\ signedOperation (cmd w') = Some genuine
    /\ @verifySignedOperation carriers (env (settingGenuineFile 0 5)) (Some genuine) w'
       = (Ok tt, w').
Proof.
  set (w' := snd (@obtainOperation carriers (env (settingGenuineFile 0 5)) (start blank))).
  assert (Hob : @obtainOperation carriers (env (settingGenuineFile 0 5)) (start blank)
                = (Ok tt, w')) by (vm_compute; reflexivity).
  destruct (@loaded_operation_was_verified carriers (env (settingGenuineFile 0 5))
              (start blank) w'
              (conj (or_introl eq_refl) (conj eq_refl eq_refl)) Hob)
    as (op & Hop & Hver & _).
  assert (Hg : op = genuine).
  { assert (Hc : signedOperation (cmd w') = Some genuine) by (vm_compute; reflexivity).
    congruence. }
  subst op. exists w'. repeat split; assumption.
Defined.

(** X7 on the network: validator 7's own key at intensity 0. *)
Lemma builder_without_fuzz_witness :
  fst (@createSignedOperation carriers (env (setting 0 5)) (validatorAt 7 2)
         (keyAt 2) 194048 (start blank))
  = Ok genuine.
Proof.
  destruct (@builder_without_fuzz carriers (env (setting 0 5))
              (testnet_intn_in_range _) (validatorAt 7 2) (keyAt 2) 194048
              (start blank) eq_refl)
    as (_ & _ & _ & Hok & _).
  apply (Hok (publicOf (keyAt 2)) (rootOfExit (phase0.mkVoluntaryExit 194048 7))
           (phase0.Signature genuine)); reflexivity.
Defined.

(** X8 on the network: a run without a seed reports seed 1; a run with the
    seed set to 1 builds the same operation from another state of the random
    source. *)
Lemma reported_seed_reproduces_witness :
  fst (@InitializeFuzzingSeed carriers (env (setting 100 0)) (start blank)) = Ok 1
  /\ @createSignedOperation carriers (@withFuzzSeed carriers (env (setting 100 0)) 1)
       (validatorAt 7 2) (keyAt 2) 194048 (set_rnd 77 (start blank))
     = @createSignedOperation carriers (env (setting 100 0))
         (validatorAt 7 2) (keyAt 2) 194048 (start blank).
Proof.
  split; [reflexivity|].
  apply (@reported_seed_reproduces carriers (env (setting 100 0))
           (validatorAt 7 2) (keyAt 2) 194048 (start blank) 1
           (snd (@InitializeFuzzingSeed carriers (env (setting 100 0)) (start blank))));
    [reflexivity|lia].
Defined.

(** X9 on the network: at intensity 100 a root of 32 bytes comes back as 32
    other bytes. *)
Lemma fuzzing_keeps_lengths_witness :
  exists op' root' w',
    @fuzzExitMessageWithRoot carriers (env (setting 100 5))
      (phase0.mkVoluntaryExit 194048 7) (zeroBytes 32) (start blank)
    = (Ok (op', root'), w')
    /\ List.length root' = 32%nat.
Proof.
  set (r := @fuzzExitMessageWithRoot carriers (env (setting 100 5))
              (phase0.mkVoluntaryExit 194048 7) (zeroBytes 32) (start blank)).
  set (out := match fst r with
              | Ok x => x
              | _ => (phase0.mkVoluntaryExit 0 0, [])
              end).
  assert (Hr : r = (Ok (fst out, snd out), snd r)) by (vm_compute; reflexivity).
  exists (fst out), (snd out), (snd r). split; [exact Hr|].
  destruct (@fuzzing_keeps_lengths carriers (env (setting 100 5))) as (Hroot & _).
  rewrite (Hroot _ _ _ _ _ _ Hr). reflexivity.
Defined.

(** X19 on the network: the private key of validator 7. *)
Lemma private_key_flow_exits_registered_validator_witness :
  exists w',
    @generateOperationFromPrivateKey carriers (env (setting 0 5))
      (start (withInputs "" "" key7 "")) = (Ok tt, w')
    /\ signedOperation (cmd w') = Some genuine.
Proof.
  destruct (@private_key_flow_exits_registered_validator carriers (env (setting 0 5))
              (testnet_intn_in_range _) (start (withInputs "" "" key7 "")) eq_refl)
    as (_ & _ & Hok).
  destruct (Hok (keyAt 2) (publicOf (keyAt 2)) (validatorAt 7 2)
              (rootOfExit (phase0.mkVoluntaryExit 194048 7)) (phase0.Signature genuine)
              eq_refl eq_refl eq_refl eq_refl eq_refl) as (g & Hg).
  eexists. split; [exact Hg|reflexivity].
Defined.

(** X11 on the network: the same online run against a node that rejects the
    exit and against a client without the submitter. *)
Lemma broadcast_answers_with_connected_client_witness :
  let w := start (withInputs "" "" key7 "") in
  (fst (@process carriers (envWith (setting 0 5) None (Some rejecting)) w)
   = Err "exit rejected by the node"
   /\ List.length
        (submitted (snd (@process carriers
                           (envWith (setting 0 5) None (Some rejecting)) w))) = 1%nat)
  /\ exists p, fst (@process carriers (envWith (setting 0 5) None None) w) = Panic p.
Proof.
  cbn zeta.
  set (w := start (withInputs "" "" key7 "")).
  split.
  - set (En := envWith (setting 0 5) None (Some rejecting)).
    set (w1 := snd (@setup carriers En w)).
    set (w3 := snd (@generateDomain carriers En w1)).
    set (w4 := snd (@obtainOperation carriers En w3)).
    assert (H1 : @setup carriers En w = (Ok tt, w1)) by (vm_compute; reflexivity).
    assert (H2 : @runObtainChainInfo carriers En w1 = (Ok tt, w1))
      by (vm_compute; reflexivity).
    assert (H3 : @generateDomain carriers En w1 = (Ok tt, w3))
      by (vm_compute; reflexivity).
    assert (H4 : @obtainOperation carriers En w3 = (Ok tt, w4))
      by (vm_compute; reflexivity).
    destruct (@broadcast_answers_with_connected_client carriers En w w1 w1 w3 w4
                (fun c => eq_refl) eq_refl H1 H2 eq_refl H3 H4 eq_refl)
      as (cl & _ & _ & Hsub).
    rewrite (Hsub rejecting eq_refl). split; reflexivity.
  - set (En := envWith (setting 0 5) None None).
    set (w1 := snd (@setup carriers En w)).
    set (w3 := snd (@generateDomain carriers En w1)).
    set (w4 := snd (@obtainOperation carriers En w3)).
    assert (H1 : @setup carriers En w = (Ok tt, w1)) by (vm_compute; reflexivity).
    assert (H2 : @runObtainChainInfo carriers En w1 = (Ok tt, w1))
      by (vm_compute; reflexivity).
    assert (H3 : @generateDomain carriers En w1 = (Ok tt, w3))
      by (vm_compute; reflexivity).
    assert (H4 : @obtainOperation carriers En w3 = (Ok tt, w4))
      by (vm_compute; reflexivity).
    destruct (@broadcast_answers_with_connected_client carriers En w w1 w1 w3 w4
                (fun c => eq_refl) eq_refl H1 H2 eq_refl H3 H4 eq_refl)
      as (cl & _ & Hnone & _).
    destruct (Hnone eq_refl) as (p & Hp). exists p. rewrite Hp. reflexivity.
Defined.

(** X12 on the network: the mnemonic with the path of validator 7, once with
    no private key and once with a useless one next to it. *)
Lemma mnemonic_path_is_private_key_flow_witness :
  let w := start (withInputs "abandon" "m/12381/3600/2/0/0" "" "") in
  @generateOperationFromMnemonicAndPath carriers (env (setting 0 5))
    (mkWorld (set_privateKey "0xdead" (cmd w)) (rnd w) (submitted w))
  = @generateOperationFromMnemonicAndPath carriers (env (setting 0 5)) w.
Proof.
  cbn zeta.
  destruct (@mnemonic_path_is_private_key_flow carriers (env (setting 0 5))
              (start (withInputs "abandon" "m/12381/3600/2/0/0" "" ""))
              (list_byte_of_string "abandon") eq_refl eq_refl) as [Hok _].
  destruct (Hok (keyAt 2) eq_refl) as [_ Hany].
  apply Hany.
Defined.

(** X13 on the network: an empty file and a file of plain text, both given
    as the input. *)
Lemma input_file_message_follows_content_witness :
  fst (@obtainOperation carriers (env (settingOtherFiles 0 5))
         (start (set_signedOperationInput "empty.json" blank)))
  = Err (Wrap (Wrap "invalid character looking for beginning of value"
                 "failed to parse exit operation input") noInputMessage)
  /\ fst (@obtainOperation carriers (env (settingOtherFiles 0 5))
            (start (set_signedOperationInput "notes.txt" blank)))
     = Err (Wrap (Wrap "invalid character looking for beginning of value"
                    "failed to parse exit operation input")
              "failed to obtain supplied signed operation").
Proof.
  split.
  - destruct (@input_file_message_follows_content carriers (env (settingOtherFiles 0 5))
                (start (set_signedOperationInput "empty.json" blank))
                (conj (or_introl eq_refl) (conj eq_refl eq_refl))
                ltac:(discriminate) eq_refl) as [Hread _].
    rewrite (Hread "" eq_refl eq_refl). reflexivity.
  - destruct (@input_file_message_follows_content carriers (env (settingOtherFiles 0 5))
                (start (set_signedOperationInput "notes.txt" blank))
                (conj (or_introl eq_refl) (conj eq_refl eq_refl))
                ltac:(discriminate) eq_refl) as [Hread _].
    rewrite (Hread "not json" eq_refl eq_refl). reflexivity.
Defined.

End FurtherOnTestnet.
